(** * Argument Clinic: the conversation graph and its per-session driver

    A shallow embedding of
      - [services/argument_clinic_graph.py]: the session context, the
        agents it consults and the seven graph nodes;
      - [performance.py]: the process-wide counters;
      - [routes/websocket.py]: [GraphSession], which drives the graph
        three nodes at a time for every user input; [SessionManager] and
        its timers; [TranscriptionValidator]; the message handlers of
        [WebSocketHandler];
      - [services/voice_service.py]: the order in which the providers
        are tried.

    Python integers are [Z], strings are [string], lists are [list],
    dicts are finite maps.  Node code mutates the shared context object
    and may raise after it has done so; the embedding threads the context
    through a state-and-exception monad in which a raised exception keeps
    the state reached so far.  A task may also be cancelled while it
    awaits a call: the [asyncio.CancelledError] that then comes out of the
    call is no [Exception], and the handlers written with
    [except Exception] let it pass. *)

From Stdlib Require Import String Ascii List ZArith QArith Bool Lia.
From stdpp Require gmap strings.
Import ListNotations.
Local Open Scope string_scope.
Local Open Scope Z_scope.

(** ** A state monad whose failures keep the state *)

Inductive Exn : Type :=
| RuntimeError (msg : string)   (* raised by WaitForInput *)
| AttributeError                (* None.lower() *)
| AgentError.                   (* an agent call (classifier, detector, generator) raised *)

Inductive Result (A : Type) : Type :=
| Ok (a : A)
| Raise (e : Exn).
Arguments Ok {A} a.
Arguments Raise {A} e.

Definition M (S A : Type) : Type := S -> Result A * S.

Definition ret {S A} (a : A) : M S A := fun s => (Ok a, s).

Definition bind {S A B} (m : M S A) (k : A -> M S B) : M S B :=
  fun s => match m s with
           | (Ok a, s') => k a s'
           | (Raise e, s') => (Raise e, s')
           end.

Definition raise {S A} (e : Exn) : M S A := fun s => (Raise e, s).
Definition gets {S A} (f : S -> A) : M S A := fun s => (Ok (f s), s).
Definition modify {S} (f : S -> S) : M S unit := fun s => (Ok tt, f s).

Notation "x <- m ;; k" := (bind m (fun x => k))
  (at level 61, m at next level, right associativity).
Notation "m ;; k" := (bind m (fun _ => k))
  (at level 61, right associativity).

(** ** Strings *)

Definition nl : string := String (ascii_of_nat 10) EmptyString.
Definition dq : string := String (ascii_of_nat 34) EmptyString.
Definition indent : string := "        ".

(** [str.lower] on the letters A-Z.  No other character lower-cases to a
    letter of the word looked for below, so the test made on the result
    is the one Python makes. *)
Definition lower_ascii (c : ascii) : ascii :=
  let n := nat_of_ascii c in
  if (Nat.leb 65 n && Nat.leb n 90)%bool then ascii_of_nat (n + 32) else c.

Fixpoint lower (s : string) : string :=
  match s with
  | EmptyString => EmptyString
  | String c s' => String (lower_ascii c) (lower s')
  end.

(** [needle in hay] *)
Fixpoint contains (needle hay : string) : bool :=
  if String.prefix needle hay then true
  else match hay with
       | EmptyString => false
       | String _ hay' => contains needle hay'
       end.

(** ** services/argument_clinic_graph.py *)

Inductive UserIntent : Type :=
| ARGUMENTATIVE
| TRANSACTIONAL
| META
| CONFUSED.

Definition UserIntent_value (i : UserIntent) : string :=
  match i with
  | ARGUMENTATIVE => "argumentative"
  | TRANSACTIONAL => "transactional"
  | META => "meta"
  | CONFUSED => "confused"
  end.

Definition UserIntent_eqb (a b : UserIntent) : bool :=
  match a, b with
  | ARGUMENTATIVE, ARGUMENTATIVE
  | TRANSACTIONAL, TRANSACTIONAL
  | META, META
  | CONFUSED, CONFUSED => true
  | _, _ => false
  end.

(** A message of the arguer's history; the engine only stores them. *)
Definition ModelMessage : Type := string.

Record ArgumentClinicContext : Type := mkContext {
  session_id : string;
  conversation_history : list string;
  turn_count : Z;
  last_response : string;
  user_frustration_level : Z;
  payment_received : bool;
  current_input : option string;
  arguer_messages : list ModelMessage
}.

(** [ArgumentClinicContext(session_id=...)]: the dataclass defaults. *)
Definition new_context (sid : string) : ArgumentClinicContext :=
  mkContext sid [] 0 "" 0 false None [].

Definition set_conversation_history (v : list string) (c : ArgumentClinicContext) :=
  mkContext (session_id c) v (turn_count c) (last_response c)
            (user_frustration_level c) (payment_received c) (current_input c)
            (arguer_messages c).
Definition set_turn_count (v : Z) (c : ArgumentClinicContext) :=
  mkContext (session_id c) (conversation_history c) v (last_response c)
            (user_frustration_level c) (payment_received c) (current_input c)
            (arguer_messages c).
Definition set_last_response (v : string) (c : ArgumentClinicContext) :=
  mkContext (session_id c) (conversation_history c) (turn_count c) v
            (user_frustration_level c) (payment_received c) (current_input c)
            (arguer_messages c).
Definition set_user_frustration_level (v : Z) (c : ArgumentClinicContext) :=
  mkContext (session_id c) (conversation_history c) (turn_count c) (last_response c)
            v (payment_received c) (current_input c) (arguer_messages c).
Definition set_payment_received (v : bool) (c : ArgumentClinicContext) :=
  mkContext (session_id c) (conversation_history c) (turn_count c) (last_response c)
            (user_frustration_level c) v (current_input c) (arguer_messages c).
Definition set_current_input (v : option string) (c : ArgumentClinicContext) :=
  mkContext (session_id c) (conversation_history c) (turn_count c) (last_response c)
            (user_frustration_level c) (payment_received c) v (arguer_messages c).
Definition set_arguer_messages (v : list ModelMessage) (c : ArgumentClinicContext) :=
  mkContext (session_id c) (conversation_history c) (turn_count c) (last_response c)
            (user_frustration_level c) (payment_received c) (current_input c) v.

(** The nodes of [argument_clinic_graph]. *)
Inductive Node : Type :=
| EntryNode
| WaitForInput
| ProcessUserInput
| SimpleContradictionNode
| ArgumentationNode
| MetaCommentaryNode
| ResolutionNode.

(** [type(node).__name__] *)
Definition Node_name (n : Node) : string :=
  match n with
  | EntryNode => "EntryNode"
  | WaitForInput => "WaitForInput"
  | ProcessUserInput => "ProcessUserInput"
  | SimpleContradictionNode => "SimpleContradictionNode"
  | ArgumentationNode => "ArgumentationNode"
  | MetaCommentaryNode => "MetaCommentaryNode"
  | ResolutionNode => "ResolutionNode"
  end.

(** The outside world.  The three agents are language-model calls and
    [time.time] is the wall clock: what they answer is not determined by
    the program, and the same question may be answered differently the
    next time.  Every call to the outside is numbered (the counter
    [calls] below), and an answer is a function of that number and of the
    values the call passes; [None] is a call that raises.

    [intention_agent] is given an f-string built from the input and the
    recent history, [arguer_agent] the prompt and the message history and
    [payment_agent] the input.  Times are rationals. *)
Record Collaborators : Type := mkCollaborators {
  intention_agent : nat -> option string -> list string -> option UserIntent;
  payment_agent : nat -> string -> option bool;
  arguer_agent : nat -> string -> list ModelMessage
                 -> option (string * list ModelMessage);
  time_time : nat -> Q
}.

(** What a node's [run] receives: the shared context object, and the
    number of calls made to the outside so far. *)
Record GraphRunContext : Type := mkRun {
  state : ArgumentClinicContext;
  calls : nat
}.

Definition update_state (f : ArgumentClinicContext -> ArgumentClinicContext)
  : M GraphRunContext unit :=
  modify (fun ctx => mkRun (f (state ctx)) (calls ctx)).

(** One awaited agent call: its answer, or the exception it raised. *)
Definition await {A} (answer : nat -> option A) : M GraphRunContext A :=
  fun ctx =>
    let ctx' := mkRun (state ctx) (S (calls ctx)) in
    match answer (calls ctx) with
    | Some a => (Ok a, ctx')
    | None => (Raise AgentError, ctx')
    end.

(** [x or ""] on an optional string *)
Definition or_empty (x : option string) : string :=
  match x with
  | Some s => s
  | None => ""
  end.

(** [h[-3:] if len(h) > 3 else h] *)
Definition recent (h : list string) : list string :=
  if (3 <? Z.of_nat (length h)) then skipn (length h - 3) h else h.

Definition responses : list string :=
  [ "I'm sorry, but I can't continue without payment. That's five pounds for the argument.";
    "No, no, no! Five pounds first, then we can argue!";
    "I'm afraid the argument stops here until you pay the five pounds.";
    "Payment first! Five pounds, please. Then we can resume our disagreement.";
    "I won't argue with you until you've paid! Five pounds!" ].

Definition acceptance : string :=
  "Ah, thank you! Right, where were we? Oh yes, you were wrong about everything!".

Definition ding : string :=
  "*DING!* I'm sorry, your time is up! That'll be five pounds please.".

Definition greeting : string :=
  "Good morning! Welcome to the Argument Clinic. How may I help you today?".

(** The three prompts of the answering nodes. *)
Definition SimpleContradiction_prompt (user_intention : UserIntent) (user_input : string)
  : string :=
  nl ++ indent ++ "User intention: " ++ UserIntent_value user_intention ++ nl
  ++ nl
  ++ indent ++ "If ARGUMENTATIVE: Provide VERY simple contradictions. Use "
     ++ dq ++ "No it isn't!" ++ dq ++ " " ++ dq ++ "Yes it is!" ++ dq
     ++ " etc. if appropriate." ++ nl
  ++ indent ++ "If TRANSACTIONAL: Handle their request appropriately (payment, continuation, etc.)" ++ nl
  ++ indent ++ "If META: Acknowledge their meta-comment but still contradict" ++ nl
  ++ indent ++ "If CONFUSED: Contradict but maybe explain a bit" ++ nl
  ++ nl
  ++ indent ++ "User says: " ++ dq ++ user_input ++ dq ++ nl
  ++ nl
  ++ indent ++ "Respond in character as Mr. Barnard, as concisely as possible following the guidance provided." ++ nl
  ++ indent.

Definition Argumentation_prompt (user_intention : UserIntent) (user_input : string)
  : string :=
  nl ++ indent ++ "User intention: " ++ UserIntent_value user_intention ++ nl
  ++ nl
  ++ indent ++ "If ARGUMENTATIVE: Provide sophisticated contradictory arguments" ++ nl
  ++ indent ++ "If TRANSACTIONAL: Handle their request appropriately" ++ nl
  ++ indent ++ "If META: Engage with their meta-discussion about arguing" ++ nl
  ++ indent ++ "If CONFUSED: Argue but provide some guidance" ++ nl
  ++ nl
  ++ indent ++ "User says: " ++ dq ++ user_input ++ dq ++ nl
  ++ nl
  ++ indent ++ "Respond in character as Mr. Barnard with a sophisticated argument following the guidance provided." ++ nl
  ++ indent.

Definition MetaCommentary_prompt (user_intention : UserIntent) (user_input : string)
  : string :=
  nl ++ indent ++ "User intention: " ++ UserIntent_value user_intention ++ nl
  ++ nl
  ++ indent ++ "Discuss what constitutes a proper argument." ++ nl
  ++ indent ++ dq ++ "An argument is a connected series of statements intended to establish a proposition!" ++ dq ++ nl
  ++ indent ++ "Be pedantic about the nature of arguing." ++ nl
  ++ nl
  ++ indent ++ "If TRANSACTIONAL: Still be pedantic but handle their request" ++ nl
  ++ nl
  ++ indent ++ "User says: " ++ dq ++ user_input ++ dq ++ nl
  ++ nl
  ++ indent ++ "Respond in character as Mr. Barnard, following the guidance provided." ++ nl
  ++ indent.

Section Graph.

Variable W : Collaborators.

Definition did_user_pay (user_input : string) : M GraphRunContext bool :=
  payment_detected <- await (fun n => payment_agent W n user_input) ;;
  ret payment_detected.

Definition infer_user_intention (user_input : option string)
  (history : list string) : M GraphRunContext UserIntent :=
  intention <- await (fun n => intention_agent W n user_input (recent history)) ;;
  ret intention.

Definition WaitForInput_run : M GraphRunContext Node :=
  user_input <- gets (fun ctx => current_input (state ctx)) ;;
  match user_input with
  | None => raise (RuntimeError "No input provided to WaitForInput node")
  | Some user_input =>
      update_state (fun s =>
        set_conversation_history (conversation_history s ++ [user_input]) s) ;;
      ret ProcessUserInput
  end.

Definition ProcessUserInput_run : M GraphRunContext Node :=
  user_input <- gets (fun ctx => current_input (state ctx)) ;;
  history <- gets (fun ctx => conversation_history (state ctx)) ;;
  user_intention <- infer_user_intention user_input history ;;
  turns <- gets (fun ctx => turn_count (state ctx)) ;;
  if 8 <=? turns then
    ret ResolutionNode
  else
    (* [user_intention == META and "argument" in user_input.lower()] *)
    meta <- (if UserIntent_eqb user_intention META then
               match user_input with
               | None => raise AttributeError
               | Some text => ret (contains "argument" (lower text))
               end
             else ret false) ;;
    if meta then
      ret MetaCommentaryNode
    else if UserIntent_eqb user_intention ARGUMENTATIVE then
      update_state (fun s =>
        set_user_frustration_level (user_frustration_level s + 1) s) ;;
      turns <- gets (fun ctx => turn_count (state ctx)) ;;
      frustration <- gets (fun ctx => user_frustration_level (state ctx)) ;;
      if (3 <=? turns) && (3 <=? frustration) then
        ret ArgumentationNode
      else
        ret SimpleContradictionNode
    else
      ret SimpleContradictionNode.

Definition EntryNode_run : M GraphRunContext Node :=
  update_state (set_last_response greeting) ;;
  ret WaitForInput.

(** The body shared, up to the prompt, by the three answering nodes. *)
Definition answer_with (prompt : UserIntent -> string -> string)
  : M GraphRunContext Node :=
  user_input <- gets (fun ctx => or_empty (current_input (state ctx))) ;;
  history <- gets (fun ctx => conversation_history (state ctx)) ;;
  user_intention <- infer_user_intention (Some user_input) history ;;
  messages <- gets (fun ctx => arguer_messages (state ctx)) ;;
  result <- await (fun n =>
              arguer_agent W n (prompt user_intention user_input) messages) ;;
  update_state (fun s => set_arguer_messages (arguer_messages s ++ snd result) s) ;;
  update_state (set_last_response (fst result)) ;;
  update_state (fun s => set_turn_count (turn_count s + 1) s) ;;
  ret WaitForInput.

Definition SimpleContradictionNode_run : M GraphRunContext Node :=
  answer_with SimpleContradiction_prompt.

Definition ArgumentationNode_run : M GraphRunContext Node :=
  answer_with Argumentation_prompt.

Definition MetaCommentaryNode_run : M GraphRunContext Node :=
  answer_with MetaCommentary_prompt.

(** The three arms of the [if]/[elif]/[else] of [ResolutionNode.run]. *)
Inductive ResolutionBranch : Type :=
| Refuse
| Accept
| Fallback.

Definition ResolutionNode_branch (paid payment_detected : bool) : ResolutionBranch :=
  if negb paid && negb payment_detected then Refuse
  else if payment_detected || paid then Accept
  else Fallback.

Definition ResolutionNode_run : M GraphRunContext Node :=
  user_input <- gets (fun ctx => or_empty (current_input (state ctx))) ;;
  history <- gets (fun ctx => conversation_history (state ctx)) ;;
  user_intention <- infer_user_intention (Some user_input) history ;;
  payment_detected <-
    (if UserIntent_eqb user_intention TRANSACTIONAL
     then did_user_pay user_input
     else ret false) ;;
  paid <- gets (fun ctx => payment_received (state ctx)) ;;
  match ResolutionNode_branch paid payment_detected with
  | Refuse =>
      history <- gets (fun ctx => conversation_history (state ctx)) ;;
      let response_index :=
        Z.of_nat (length history) mod Z.of_nat (length responses) in
      let response := nth (Z.to_nat response_index) responses "" in
      update_state (set_last_response response) ;;
      ret WaitForInput
  | Accept =>
      update_state (set_payment_received true) ;;
      update_state (set_last_response acceptance) ;;
      update_state (set_turn_count 0) ;;
      update_state (set_user_frustration_level 0) ;;
      ret SimpleContradictionNode
  | Fallback =>
      update_state (set_last_response ding) ;;
      ret WaitForInput
  end.

(** [BaseNode.run], by node class. *)
Definition Node_run (n : Node) : M GraphRunContext Node :=
  match n with
  | EntryNode => EntryNode_run
  | WaitForInput => WaitForInput_run
  | ProcessUserInput => ProcessUserInput_run
  | SimpleContradictionNode => SimpleContradictionNode_run
  | ArgumentationNode => ArgumentationNode_run
  | MetaCommentaryNode => MetaCommentaryNode_run
  | ResolutionNode => ResolutionNode_run
  end.

End Graph.

(** ** performance.py *)

Record PerformanceMetrics : Type := mkMetrics {
  response_times : list Q;            (* deque(maxlen=100) *)
  error_count : Z;
  success_count : Z;
  session_count : Z;
  audio_processing_times : list Q     (* deque(maxlen=50) *)
}.

Definition new_metrics : PerformanceMetrics := mkMetrics [] 0 0 0 [].

(** [deque.append] on a deque of bounded length: the oldest entry is
    dropped when the bound is passed. *)
Definition deque_append (maxlen : nat) (d : list Q) (x : Q) : list Q :=
  let d' := (d ++ [x])%list in
  if Nat.ltb maxlen (length d') then tl d' else d'.

Definition add_response_time (ms : Q) (m : PerformanceMetrics) : PerformanceMetrics :=
  mkMetrics (deque_append 100 (response_times m) ms) (error_count m)
            (success_count m) (session_count m) (audio_processing_times m).

Definition increment_success (m : PerformanceMetrics) : PerformanceMetrics :=
  mkMetrics (response_times m) (error_count m) (success_count m + 1)
            (session_count m) (audio_processing_times m).

Definition increment_error (m : PerformanceMetrics) : PerformanceMetrics :=
  mkMetrics (response_times m) (error_count m + 1) (success_count m)
            (session_count m) (audio_processing_times m).

(** ** routes/websocket.py *)

(** A run of the graph, as [Graph.iter] hands it out: it remembers the
    node to execute next.  Its state is the session's context object
    itself, so it is not repeated here. *)
Record GraphRun : Type := mkGraphRun {
  next_node : Node
}.

Module GraphSession.

Record t : Type := mk {
  session_id : string;
  state : ArgumentClinicContext;
  graph_context : option GraphRun;    (* None until [start_graph] *)
  is_processing : bool;
  created_at : Q
}.

Definition set_state (v : ArgumentClinicContext) (g : t) : t :=
  mk (session_id g) v (graph_context g) (is_processing g) (created_at g).
Definition set_graph_context (v : option GraphRun) (g : t) : t :=
  mk (session_id g) (state g) v (is_processing g) (created_at g).
Definition set_is_processing (v : bool) (g : t) : t :=
  mk (session_id g) (state g) (graph_context g) v (created_at g).

(** [GraphSession.__init__] *)
Definition init (sid : string) (now : Q) : t :=
  mk sid (new_context sid) None false now.

End GraphSession.

(** One session together with what it shares with the rest of the
    process: the global [metrics] and the numbering of outside calls. *)
Record Process : Type := mkProcess {
  session : GraphSession.t;
  metrics : PerformanceMetrics;
  outside_calls : nat
}.

Definition update_session (f : GraphSession.t -> GraphSession.t) : M Process unit :=
  modify (fun p => mkProcess (f (session p)) (metrics p) (outside_calls p)).

Definition update_metrics (f : PerformanceMetrics -> PerformanceMetrics)
  : M Process unit :=
  modify (fun p => mkProcess (session p) (f (metrics p)) (outside_calls p)).

Section Websocket.

Variable W : Collaborators.

(** [time.time()] *)
Definition now : M Process Q :=
  fun p => (Ok (time_time W (outside_calls p)),
            mkProcess (session p) (metrics p) (S (outside_calls p))).

(** [track_response_time] *)
Definition track_response_time (start_time : Q) : M Process Q :=
  t <- now ;;
  let response_time_ms := ((t - start_time) * 1000)%Q in
  update_metrics (add_response_time response_time_ms) ;;
  ret response_time_ms.

(** [await self.graph_context.next()]: run the node the graph is at on the
    session's context; when it returns, the node it returned is the one
    the graph is at.  A node that raises leaves the graph where it was,
    and the context as the node left it. *)
Definition graph_context_next : M Process Node :=
  fun p =>
    match GraphSession.graph_context (session p) with
    | None => (Raise AttributeError, p)
    | Some run =>
        let '(r, ctx) :=
          Node_run W (next_node run)
                   (mkRun (GraphSession.state (session p)) (outside_calls p)) in
        let s := GraphSession.set_state (state ctx) (session p) in
        match r with
        | Ok n =>
            (Ok n, mkProcess (GraphSession.set_graph_context (Some (mkGraphRun n)) s)
                             (metrics p) (calls ctx))
        | Raise e => (Raise e, mkProcess s (metrics p) (calls ctx))
        end
    end.

Definition start_graph : M Process unit :=
  runner <- gets (fun p => GraphSession.graph_context (session p)) ;;
  match runner with
  | None =>
      update_session (GraphSession.set_graph_context (Some (mkGraphRun EntryNode))) ;;
      graph_context_next ;;
      ret tt
  | Some _ => ret tt
  end.

(** The [try] block of [process_input]. *)
Definition process_input_try (start_time : Q) (user_input : string)
  : M Process (string * Q * string) :=
  update_session (GraphSession.set_is_processing true) ;;
  runner <- gets (fun p => GraphSession.graph_context (session p)) ;;
  match runner with
  | None => start_graph
  | Some _ => ret tt
  end ;;
  update_session (fun g =>
    GraphSession.set_state
      (set_current_input (Some user_input) (GraphSession.state g)) g) ;;
  graph_context_next ;;
  current_node <- graph_context_next ;;
  let response_node_name := Node_name current_node in
  graph_context_next ;;
  processing_time <- track_response_time start_time ;;
  update_metrics increment_success ;;
  last <- gets (fun p => last_response (GraphSession.state (session p))) ;;
  let response :=
    match last with
    | EmptyString => "Good morning! Welcome to the Argument Clinic."
    | _ => last
    end in
  ret (response, processing_time, response_node_name).

(** [GraphSession.process_input], every exception of a step being taken
    for an [Exception]; the step in which the task is cancelled is told
    apart in [process_input_task] below. *)
Definition process_input (user_input : string)
  : M Process (string * Q * string) :=
  fun p =>
    if GraphSession.is_processing (session p) then
      (Ok ("Please wait for the current response to complete.", 0%Q,
           "ConcurrencyError"), p)
    else
      let '(r, p1) :=
        (start_time <- now ;; process_input_try start_time user_input) p in
      (* except Exception: metrics.increment_error(); raise *)
      let p2 := match r with
                | Ok _ => p1
                | Raise _ => mkProcess (session p1) (increment_error (metrics p1))
                                       (outside_calls p1)
                end in
      (* finally *)
      (r, mkProcess (GraphSession.set_is_processing false (session p2))
                    (metrics p2) (outside_calls p2)).

(** The session fed a list of inputs, one [process_input] after the
    other, whatever each of them returns or raises. *)
Fixpoint process_inputs (inputs : list string) (p : Process) : Process :=
  match inputs with
  | [] => p
  | i :: rest => process_inputs rest (snd (process_input i p))
  end.

End Websocket.

(** How a call ends for the task that awaits it: it returns, it raises
    an [Exception], or the task is cancelled in it.  The last is
    [asyncio.CancelledError], a [BaseException]: no [except Exception]
    catches it, and a [finally] still runs. *)
Inductive Outcome (A : Type) : Type :=
| Returned (a : A)
| Raised (e : Exn)
| Cancellation.

Arguments Returned {A} a.
Arguments Raised {A} e.
Arguments Cancellation {A}.

Section Task.

Variable W : Collaborators.

(** [cancelled n]: if outside call [n] raised, what it raised was the
    cancellation of the task that awaited it. *)
Variable cancelled : nat -> bool.

(** Whether the exception that leaves the [try] block of [process_input]
    is a cancellation.  [RuntimeError] and [AttributeError] are raised by
    the nodes themselves and are Exceptions; [AgentError] comes out of an
    awaited agent call, which is then the last outside call made. *)
Definition interrupted (e : Exn) (p : Process) : bool :=
  match e with
  | AgentError => cancelled (pred (outside_calls p))
  | _ => false
  end.

(** [GraphSession.process_input], with the class of what is raised told
    apart: [except Exception] counts the error and raises again, a
    cancellation passes it by; [finally] clears the flag in every case. *)
Definition process_input_task (user_input : string) (p : Process)
  : Outcome (string * Q * string) * Process :=
  if GraphSession.is_processing (session p) then
    (Returned ("Please wait for the current response to complete.", 0%Q,
               "ConcurrencyError"), p)
  else
    let '(r, p1) :=
      (start_time <- now W ;; process_input_try W start_time user_input) p in
    (* finally *)
    let finally (p2 : Process) :=
      mkProcess (GraphSession.set_is_processing false (session p2))
                (metrics p2) (outside_calls p2) in
    match r with
    | Ok v => (Returned v, finally p1)
    | Raise e =>
        if interrupted e p1 then
          (* not an Exception: the except clause is passed by *)
          (Cancellation, finally p1)
        else
          (* except Exception: metrics.increment_error(); raise *)
          (Raised e,
           finally (mkProcess (session p1) (increment_error (metrics p1))
                              (outside_calls p1)))
    end.

(** A task that feeds the session a list of inputs, one step after the
    other, until it is cancelled: the number of steps that returned or
    raised an Exception, whether the step after them was cancelled, and
    the session then. *)
Fixpoint process_inputs_task (inputs : list string) (p : Process)
  : nat * bool * Process :=
  match inputs with
  | [] => (0%nat, false, p)
  | i :: rest =>
      match process_input_task i p with
      | (Cancellation, p') => (0%nat, true, p')
      | (_, p') =>
          let '(n, c, p'') := process_inputs_task rest p' in (S n, c, p'')
      end
  end.

End Task.

(** A process with one session just created. *)
Definition boot (W : Collaborators) (sid : string) : Process :=
  mkProcess (GraphSession.init sid (time_time W 0)) new_metrics 1.

(** ** What a run of [ResolutionNode] learns about payment *)

(** The value of [payment_detected] in [ResolutionNode.run] once the
    classifier has answered [intent] at outside call [n]: the detector is
    asked, at the next call, only for a TRANSACTIONAL intent. *)
Definition detection (W : Collaborators) (n : nat) (intent : UserIntent)
  (user_input : string) : option bool :=
  if UserIntent_eqb intent TRANSACTIONAL
  then payment_agent W (S n) user_input
  else Some false.

(** The number of outside calls a run of [ResolutionNode] makes. *)
Definition resolution_calls (intent : UserIntent) : nat :=
  if UserIntent_eqb intent TRANSACTIONAL then 2%nat else 1%nat.

(** The refusal a history of the given length is answered with. *)
Definition refusal (history : list string) : string :=
  nth (Z.to_nat (Z.of_nat (length history) mod 5)) responses "".

(** ** Sample collaborators and sessions *)

(** A classifier that takes any mention of pounds for a transaction and
    everything else for an argument; a detector that sees a payment; a
    generator with one answer; a clock that advances one unit per call. *)
Definition sample_world : Collaborators :=
  mkCollaborators
    (fun _ user_input _ =>
       if contains "pounds" (lower (or_empty user_input))
       then Some TRANSACTIONAL else Some ARGUMENTATIVE)
    (fun _ _ => Some true)
    (fun _ _ _ => Some ("No it isn't!", ["request"; "response"]))
    (fun n => inject_Z (Z.of_nat n)).

(** The same classifier, with a generator that is down. *)
Definition generator_down : Collaborators :=
  mkCollaborators (intention_agent sample_world) (payment_agent sample_world)
                  (fun _ _ _ => None) (time_time sample_world).

(** The same, with a detector that never sees a payment. *)
Definition never_paid : Collaborators :=
  mkCollaborators (intention_agent sample_world) (fun _ _ => Some false)
                  (arguer_agent sample_world) (time_time sample_world).

Definition eight_inputs : list string :=
  [ "Is this the right room for an argument?"; "No you haven't";
    "Yes I have"; "You did not"; "I did"; "Look, this isn't an argument";
    "It's just contradiction"; "No it isn't" ].

(** A context in the middle of a conversation. *)
Definition sample_context (turns frustration : Z) (paid : bool) (text : string)
  : GraphRunContext :=
  mkRun (mkContext "session" ["Yes I have"; text] turns "No you haven't"
                   frustration paid (Some text) [])
        7.

(** ** Properties of computations *)

(** [preserves P m]: the computation [m] keeps [P] true of the state,
    whether it returns or raises. *)
Definition preserves {S A : Type} (P : S -> Prop) (m : M S A) : Prop :=
  forall s : S, P s -> P (snd (m s)).

(** The session has been paid for. *)
Definition paid_context (ctx : GraphRunContext) : Prop :=
  payment_received (state ctx) = true.

Definition session_paid (p : Process) : Prop :=
  payment_received (GraphSession.state (session p)) = true.

(** The node the session's graph is at, once it has been started. *)
Definition pending (p : Process) : option Node :=
  option_map next_node (GraphSession.graph_context (session p)).

(** A session whose graph is where [process_input] expects it: not yet
    started, or at [WaitForInput]. *)
Definition awaiting_input (p : Process) : Prop :=
  pending p = None \/ pending p = Some WaitForInput.

(** The context [process_input] hands to the routing node of a session
    that awaits input: the greeting is stored if the graph had to be
    started, the input is the current one and the last of the history. *)
Definition context_at_routing (user_input : string) (p : Process)
  : ArgumentClinicContext :=
  let s := GraphSession.state (session p) in
  let s0 := match GraphSession.graph_context (session p) with
            | None => set_last_response greeting s
            | Some _ => s
            end in
  let s1 := set_current_input (Some user_input) s0 in
  set_conversation_history (conversation_history s1 ++ [user_input]) s1.

(** The sample session after the eight inputs, and after a ninth that
    pays. *)
Definition after_eight (W : Collaborators) : Process :=
  process_inputs W eight_inputs (boot W "session").

Definition after_payment : Process :=
  snd (process_input sample_world "Fine, here's 5 pounds"
         (after_eight sample_world)).

(** A session taken in the middle of a step. *)
Definition busy_session : Process :=
  mkProcess (GraphSession.mk "session" (state (sample_context 2 1 false "Yes it is"))
               (Some (mkGraphRun SimpleContradictionNode)) true 0%Q)
            new_metrics 9.

(** The first step of a session while the generator is down. *)
Definition failed_first_step : Process :=
  snd (process_input generator_down "That's not true!"
         (boot generator_down "session")).

(** The prompt of an answering node. *)
Definition Node_prompt (n : Node) : UserIntent -> string -> string :=
  match n with
  | ArgumentationNode => Argumentation_prompt
  | MetaCommentaryNode => MetaCommentary_prompt
  | _ => SimpleContradiction_prompt
  end.

(** The three nodes that answer through the arguer. *)
Definition answering (n : Node) : bool :=
  match n with
  | SimpleContradictionNode | ArgumentationNode | MetaCommentaryNode => true
  | _ => false
  end.

(** A classifier that takes everything for a remark on arguing. *)
Definition meta_world : Collaborators :=
  mkCollaborators (fun _ _ _ => Some META) (payment_agent sample_world)
                  (arguer_agent sample_world) (time_time sample_world).

(** Where [process_input] finds the graph once [start_graph] has been
    called if it had to be: a new graph has run [EntryNode], which stores
    the greeting, and is at [WaitForInput]. *)
Definition after_start (p : Process) : ArgumentClinicContext * Node :=
  match GraphSession.graph_context (session p) with
  | None => (set_last_response greeting (GraphSession.state (session p)),
             WaitForInput)
  | Some run => (GraphSession.state (session p), next_node run)
  end.

(** The session as [process_input] leaves it. *)
Definition settle (p : Process) (st : ArgumentClinicContext) (node : Node)
  (m : PerformanceMetrics) (n : nat) : Process :=
  mkProcess (GraphSession.mk (GraphSession.session_id (session p)) st
               (Some (mkGraphRun node)) false
               (GraphSession.created_at (session p)))
            m n.

(** A property of the context and of the node the graph is at. *)
Definition holds (Q : ArgumentClinicContext -> option Node -> Prop)
  (p : Process) : Prop :=
  Q (GraphSession.state (session p)) (pending p).

(** The counters stay in range, and an answering node is only ever
    pending below 8 turns. *)
Definition counters_in_range (s : ArgumentClinicContext) (g : option Node) : Prop :=
  0 <= turn_count s <= 8
  /\ 0 <= user_frustration_level s
  /\ (forall n, g = Some n -> answering n = true -> turn_count s < 8).

(** The first step of the sample session. *)
Definition first_step : Process :=
  snd (process_input sample_world "Yes it is" (boot sample_world "session")).

(** [ran W n ctx done m ctx']: with the graph at [n] and the context
    [ctx], the nodes [done] run one after the other and each returns; the
    graph is then at [m] and the context is [ctx']. *)
Inductive ran (W : Collaborators)
  : Node -> GraphRunContext -> list Node -> Node -> GraphRunContext -> Prop :=
| ran_none (n : Node) (ctx : GraphRunContext) : ran W n ctx [] n ctx
| ran_node (n n' m : Node) (ctx ctx' ctx'' : GraphRunContext) (done : list Node) :
    Node_run W n ctx = (Ok n', ctx') ->
    ran W n' ctx' done m ctx'' ->
    ran W n ctx (n :: done) m ctx''.

(** What [ProcessUserInput.run] decides on the context [s] once the
    classifier has answered [intent] on the input [text]: the node it
    returns, and the frustration level it leaves. *)
Definition routed_node (s : ArgumentClinicContext) (intent : UserIntent)
  (text : string) : Node :=
  if 8 <=? turn_count s then ResolutionNode
  else match intent with
       | META =>
           if contains "argument" (lower text)
           then MetaCommentaryNode else SimpleContradictionNode
       | ARGUMENTATIVE =>
           if (3 <=? turn_count s) && (3 <=? user_frustration_level s + 1)
           then ArgumentationNode else SimpleContradictionNode
       | _ => SimpleContradictionNode
       end.

Definition routed_frustration (s : ArgumentClinicContext) (intent : UserIntent)
  : Z :=
  if 8 <=? turn_count s then user_frustration_level s
  else match intent with
       | ARGUMENTATIVE => user_frustration_level s + 1
       | _ => user_frustration_level s
       end.

(** Outside call [n] is an agent call that raised. *)
Definition agent_raised (W : Collaborators) (n : nat) : Prop :=
  (exists (user_input : option string) (history : list string),
      intention_agent W n user_input history = None)
  \/ (exists user_input : string, payment_agent W n user_input = None)
  \/ (exists (prompt : string) (messages : list ModelMessage),
        arguer_agent W n prompt messages = None).

(** ** routes/websocket.py: [SessionManager] *)

(** [increment_session], of [performance.py]. *)
Definition increment_session (m : PerformanceMetrics) : PerformanceMetrics :=
  mkMetrics (response_times m) (error_count m) (success_count m)
            (session_count m + 1) (audio_processing_times m).

Module SessionManager.

(** Python's dicts keyed by session identifier are finite maps; the
    operations are those of stdpp. *)
Abbreviation dict := (stdpp.gmap.gmap string).
Abbreviation lookup := stdpp.base.lookup.
Abbreviation insert := stdpp.base.insert.
Abbreviation delete := stdpp.base.delete.
Abbreviation dom := stdpp.base.dom.
Abbreviation size := stdpp.base.size.

(** A task of the event loop running [_cleanup_after_timeout] for a
    session.  It sleeps first; it is then either cancelled in its sleep or
    woken by the loop, in which case it runs to its end at once, there
    being no other [await] in it.  When the loop wakes a sleeping task is
    a matter of the clock, which is left open here: any sleeping task may
    be woken at any time. *)
Inductive TaskStatus : Type :=
| Sleeping
| Cancelled
| Finished.

Record Task : Type := mkTask {
  task_session : string;
  task_status : TaskStatus
}.

(** The manager's two dicts, the tasks of the event loop (a task's handle
    is its position) and the global metrics. *)
Record t : Type := mk {
  active_sessions : dict GraphSession.t;
  session_timeouts : dict nat;
  tasks : list Task;
  metrics : PerformanceMetrics
}.

(** [SessionManager()] in a process that has done nothing yet. *)
Definition new : t := mk stdpp.base.empty stdpp.base.empty [] new_metrics.

(** [asyncio.create_task(self._cleanup_after_timeout(session_id))] *)
Definition create_task (session_id : string) (s : t) : nat * t :=
  (length (tasks s),
   mk (active_sessions s) (session_timeouts s)
      (tasks s ++ [mkTask session_id Sleeping])%list (metrics s)).

(** [task.cancel()]: only a task that has not run is affected. *)
Definition cancel (h : nat) (s : t) : t :=
  match lookup h (tasks s) with
  | Some (mkTask session_id Sleeping) =>
      mk (active_sessions s) (session_timeouts s)
         (insert h (mkTask session_id Cancelled) (tasks s)) (metrics s)
  | _ => s
  end.

Definition create_session (session_id : string) (now : Q) (s : t)
  : GraphSession.t * t :=
  let session := GraphSession.init session_id now in
  let s1 := mk (insert session_id session (active_sessions s))
               (session_timeouts s) (tasks s) (metrics s) in
  let '(h, s2) := create_task session_id s1 in
  let s3 := mk (active_sessions s2) (insert session_id h (session_timeouts s2))
               (tasks s2) (metrics s2) in
  (session,
   mk (active_sessions s3) (session_timeouts s3) (tasks s3)
      (increment_session (metrics s3))).

Definition reset_timeout (session_id : string) (s : t) : t :=
  match lookup session_id (session_timeouts s) with
  | Some h =>
      let s1 := cancel h s in
      let '(h', s2) := create_task session_id s1 in
      mk (active_sessions s2) (insert session_id h' (session_timeouts s2))
         (tasks s2) (metrics s2)
  | None => s
  end.

Definition cleanup_session (session_id : string) (s : t) : t :=
  let s1 := match lookup session_id (active_sessions s) with
            | Some _ => mk (delete session_id (active_sessions s))
                           (session_timeouts s) (tasks s) (metrics s)
            | None => s
            end in
  match lookup session_id (session_timeouts s1) with
  | Some h =>
      let s2 := cancel h s1 in
      mk (active_sessions s2) (delete session_id (session_timeouts s2))
         (tasks s2) (metrics s2)
  | None => s1
  end.

(** [_cleanup_after_timeout], from the end of its sleep on. *)
Definition _cleanup_after_timeout (session_id : string) (s : t) : t :=
  let s1 := match lookup session_id (active_sessions s) with
            | Some _ => mk (delete session_id (active_sessions s))
                           (session_timeouts s) (tasks s) (metrics s)
            | None => s
            end in
  match lookup session_id (session_timeouts s1) with
  | Some _ => mk (active_sessions s1) (delete session_id (session_timeouts s1))
                 (tasks s1) (metrics s1)
  | None => s1
  end.

(** The event loop wakes task [h]: if it is still sleeping it runs the
    rest of [_cleanup_after_timeout] and is done. *)
Definition wake (h : nat) (s : t) : t :=
  match lookup h (tasks s) with
  | Some (mkTask session_id Sleeping) =>
      _cleanup_after_timeout session_id
        (mk (active_sessions s) (session_timeouts s)
            (insert h (mkTask session_id Finished) (tasks s)) (metrics s))
  | _ => s
  end.

Definition get_active_count (s : t) : nat := size (active_sessions s).

(** What happens to the manager: a connection is accepted (with the
    identifier drawn and the time read), a message arrives, a connection
    ends, the loop wakes a task. *)
Inductive Event : Type :=
| Connect (session_id : string) (now : Q)
| Message (session_id : string)
| Disconnect (session_id : string)
| Wake (h : nat).

Definition step (e : Event) (s : t) : t :=
  match e with
  | Connect session_id now => snd (create_session session_id now s)
  | Message session_id => reset_timeout session_id s
  | Disconnect session_id => cleanup_session session_id s
  | Wake h => wake h s
  end.

Fixpoint run (events : list Event) (s : t) : t :=
  match events with
  | [] => s
  | e :: rest => run rest (step e s)
  end.

(** Every connection draws an identifier that is not in use. *)
Fixpoint fresh_connections (events : list Event) (s : t) : Prop :=
  match events with
  | [] => True
  | e :: rest =>
      match e with
      | Connect session_id _ => lookup session_id (active_sessions s) = None
      | _ => True
      end
      /\ fresh_connections rest (step e s)
  end.


(** A session is active exactly when it has a timer, and the timer a
    session has is a task for that session which is still asleep. *)
Definition timers_match (s : t) : Prop :=
  (forall session_id : string,
      lookup session_id (active_sessions s) = None
      <-> lookup session_id (session_timeouts s) = None)
  /\ (forall (session_id : string) (h : nat),
        lookup session_id (session_timeouts s) = Some h ->
        lookup h (tasks s) = Some (mkTask session_id Sleeping)).

(** Every task still asleep is the timer of its session. *)
Definition no_stray_timer (s : t) : Prop :=
  forall (h : nat) (session_id : string),
    lookup h (tasks s) = Some (mkTask session_id Sleeping) ->
    lookup session_id (session_timeouts s) = Some h.

(** A manager with two sessions, the first of which has been heard from
    since it connected. *)
Definition sample : t :=
  run [Connect "first" 0%Q; Connect "second" 1%Q; Message "first"] new.

End SessionManager.

(** ** routes/websocket.py: [TranscriptionValidator] *)

(** [str.isspace] on one character.  A string is read character by
    character, the characters being those with a code below 256; among
    them Python counts as white space the codes 9 to 13, 28 to 32, 133
    and 160. *)
Definition isspace (c : ascii) : bool :=
  let n := nat_of_ascii c in
  (Nat.leb 9 n && Nat.leb n 13) || (Nat.leb 28 n && Nat.leb n 32)
  || Nat.eqb n 133 || Nat.eqb n 160.

Fixpoint lstrip (s : string) : string :=
  match s with
  | EmptyString => EmptyString
  | String c s' => if isspace c then lstrip s' else s
  end.

Fixpoint rstrip (s : string) : string :=
  match s with
  | EmptyString => EmptyString
  | String c s' =>
      match rstrip s' with
      | EmptyString => if isspace c then EmptyString else String c EmptyString
      | r => String c r
      end
  end.

(** [text.strip()] *)
Definition strip (s : string) : string := rstrip (lstrip s).

Definition INVALID_PATTERNS : list string :=
  [ "."; "..."; "Thank you."; "Thank you for watching"; "Thanks for watching" ].

(** [TranscriptionValidator.is_valid] *)
Definition is_valid (text : string) : bool :=
  match text with
  | EmptyString => false
  | _ =>
      let cleaned := strip text in
      Nat.leb 2 (String.length cleaned)
      && negb (existsb (String.eqb cleaned) INVALID_PATTERNS)
  end.

(** A string of white space only. *)
Fixpoint blank (s : string) : bool :=
  match s with
  | EmptyString => true
  | String c s' => isspace c && blank s'
  end.

(** ** services/voice_service.py: [VoiceService] *)

Inductive ProviderType : Type :=
| OPENAI
| ELEVENLABS
| GOOGLE.

Record VoiceConfig : Type := mkVoiceConfig {
  default_voice_id : string;
  voice_speed : Q;
  voice_stability : Q
}.

(** A provider, as [VoiceService] uses it: two calls to an outside
    service, each of which answers or raises ([None]). *)
Record VoiceProvider : Type := mkProvider {
  transcribe : list Byte.byte -> string -> option string;
  synthesize : string -> string -> VoiceConfig -> option (list Byte.byte)
}.

(** [providers] is a dict with at most the three keys. *)
Record VoiceService : Type := mkVoiceService {
  config : VoiceConfig;
  providers : ProviderType -> option VoiceProvider
}.

(** The loop of [transcribe_audio] and of [synthesize_speech]: the
    providers are tried in the given order, one that is missing or raises
    is passed over, and the first answer is returned. *)
Fixpoint try_providers {A : Type} (self : VoiceService)
  (order : list ProviderType) (call : VoiceProvider -> option A) : option A :=
  match order with
  | [] => None
  | provider_type :: rest =>
      match providers self provider_type with
      | Some provider =>
          match call provider with
          | Some result => Some result
          | None => try_providers self rest call
          end
      | None => try_providers self rest call
      end
  end.

Definition stt_providers : list ProviderType := [OPENAI; GOOGLE].
Definition tts_providers : list ProviderType := [ELEVENLABS; GOOGLE; OPENAI].

Definition transcribe_audio (self : VoiceService) (audio_data : list Byte.byte)
  (audio_format : string) : option string :=
  try_providers self stt_providers
    (fun provider => transcribe provider audio_data audio_format).

Definition synthesize_speech (self : VoiceService) (text : string)
  (voice_id : option string) : option (list Byte.byte) :=
  (* voice_id or self.config.default_voice_id *)
  let voice_id := match voice_id with
                  | Some (String c v) => String c v
                  | _ => default_voice_id (config self)
                  end in
  try_providers self tts_providers
    (fun provider => synthesize provider text voice_id (config self)).

(** [len(self.providers) > 0] *)
Definition is_available (self : VoiceService) : bool :=
  existsb (fun provider_type =>
             match providers self provider_type with
             | Some _ => true
             | None => false
             end)
          [OPENAI; ELEVENLABS; GOOGLE].

(** What a provider contributes to a loop: its answer, if it is there and
    answers. *)
Definition attempt {A : Type} (self : VoiceService)
  (call : VoiceProvider -> option A) (provider_type : ProviderType) : option A :=
  match providers self provider_type with
  | Some provider => call provider
  | None => None
  end.

(** A service with a failing ElevenLabs and a working Google. *)
Definition sample_voice : VoiceService :=
  mkVoiceService
    (mkVoiceConfig "A5TM08C95NDSq8Seg1Rk" 2%Q (1 # 2)%Q)
    (fun provider_type =>
       match provider_type with
       | OPENAI => None
       | ELEVENLABS => Some (mkProvider (fun _ _ => None) (fun _ _ _ => None))
       | GOOGLE =>
           Some (mkProvider (fun _ _ => Some "Yes it is")
                            (fun _ voice _ =>
                               Some (list_byte_of_string voice)))
       end).

(** ** routes/websocket.py: [WebSocketHandler] *)

(** The fields of an [ai_response] message; the optional keys are there
    when the value is. *)
Record AiResponse : Type := mkAiResponse {
  ai_content : string;
  ai_session_id : string;
  ai_turn_count : Z;
  ai_payment_received : bool;
  ai_current_node : string;
  ai_websocket_status : string;
  ai_response_time_ms : Q;
  ai_transcribed_text : option string;
  ai_is_voice : bool;
  ai_audio_url : option string
}.

(** What the handler hands to the socket. *)
Inductive Outbound : Type :=
| session_start_message (content session_id : string)
| transcription_message (content session_id : string)
| error_message (content session_id : string)
| ai_response_message (fields : AiResponse).

(** A parsed message, with the defaults of [data.get] applied: a missing
    type is [None], missing content or audio the empty string. *)
Record Inbound : Type := mkInbound {
  message_type : option string;
  content : string;
  audio_data : string
}.

(** A connection: its session in its process, and what has been handed
    to the socket. *)
Record Connection : Type := mkConnection {
  process : Process;
  sent : list Outbound
}.

(** How a coroutine of the handler ends: it runs to its end, or the task
    is cancelled in one of its awaits and the [CancelledError] leaves it;
    either way with the connection as it is then. *)
Inductive Handled : Type :=
| Completed (c : Connection)
| Escaped (c : Connection).

Section Handler.

Variable W : Collaborators.

(** The cancellation of the task: [cancelled n] in outside call [n] if
    that call raised, [send_cancelled k] while message number [k] of the
    connection is being sent. *)
Variable cancelled : nat -> bool.
Variable send_cancelled : nat -> bool.

Variable voice_service : VoiceService.

(** From Python's library: base64 in both directions (decoding raises on
    bad input, here with the text of the exception), [round(x, 2)], and
    [str(e)] on the exceptions of a step. *)
Variable b64encode : list Byte.byte -> string.
Variable b64decode : string -> string + list Byte.byte.
Variable round2 : Q -> Q.
Variable str_of_exception : Exn -> string.

(** The message is handed to the socket; an Exception of the socket is
    logged and goes no further, a cancellation does. *)
Definition _send_raw_message (m : Outbound) (c : Connection) : Handled :=
  let c' := mkConnection (process c) (sent c ++ [m])%list in
  if send_cancelled (length (sent c)) then Escaped c' else Completed c'.

Definition _send_error (error_message_text : string) (c : Connection) : Handled :=
  _send_raw_message
    (error_message error_message_text
                   (GraphSession.session_id (session (process c)))) c.

Definition _send_transcription (text : string) (c : Connection) : Handled :=
  _send_raw_message
    (transcription_message text
                           (GraphSession.session_id (session (process c)))) c.

Definition _send_ai_response (content : string) (response_time : Q)
  (current_node : string) (transcribed_text : option string) (is_voice : bool)
  (c : Connection) : Handled :=
  let audio_url :=
    if is_available voice_service then
      match synthesize_speech voice_service content (Some "mr_barnard") with
      | Some (b :: audio) =>
          Some ("data:audio/mpeg;base64," ++ b64encode (b :: audio))
      | _ => None
      end
    else None in
  let g := session (process c) in
  _send_raw_message
    (ai_response_message
       (mkAiResponse content (GraphSession.session_id g)
                     (turn_count (GraphSession.state g))
                     (payment_received (GraphSession.state g))
                     current_node "connected" (round2 response_time)
                     (match transcribed_text with
                      | Some (String a t) => Some (String a t)
                      | _ => None
                      end)
                     is_voice audio_url))
    c.

Definition _handle_text_input (data : Inbound) (c : Connection) : Handled :=
  let user_input := content data in
  match process_input_task W cancelled user_input (process c) with
  | (Returned (response_text, response_time, current_node), p) =>
      _send_ai_response response_text response_time current_node None false
                        (mkConnection p (sent c))
  | (Raised e, p) =>
      (* except Exception *)
      _send_error ("Processing failed: " ++ str_of_exception e)
                  (mkConnection p (sent c))
  | (Cancellation, p) => Escaped (mkConnection p (sent c))
  end.

Definition _handle_voice_input (data : Inbound) (c : Connection) : Handled :=
  let audio_data_b64 := audio_data data in
  match b64decode audio_data_b64 with
  | inl text => _send_error ("Voice processing failed: " ++ text) c
  | inr audio =>
      match transcribe_audio voice_service audio "webm" with
      | Some (String a t) =>
          let transcribed_text := String a t in
          if is_valid transcribed_text then
            match _send_transcription transcribed_text c with
            | Escaped c1 => Escaped c1
            | Completed c1 =>
                match process_input_task W cancelled transcribed_text
                                         (process c1) with
                | (Returned (response_text, response_time, current_node), p) =>
                    _send_ai_response response_text response_time current_node
                                      (Some transcribed_text) true
                                      (mkConnection p (sent c1))
                | (Raised e, p) =>
                    (* except Exception *)
                    _send_error
                      ("Voice processing failed: " ++ str_of_exception e)
                      (mkConnection p (sent c1))
                | (Cancellation, p) => Escaped (mkConnection p (sent c1))
                end
            end
          else Completed c
      | _ => Completed c
      end
  end.

Definition _process_message (data : Inbound) (c : Connection) : Handled :=
  match message_type data with
  | Some t =>
      if String.eqb t "user_input" then _handle_text_input data c
      else if String.eqb t "voice_input" then _handle_voice_input data c
      else _send_error ("Unknown message type: " ++ t) c
  | None => _send_error ("Unknown message type: " ++ "None") c
  end.

End Handler.

(** A connection just opened on the sample session. *)
Definition sample_connection : Connection :=
  mkConnection (boot sample_world "session") [].

(** Base64 and rounding are not looked into by what follows; these stand
    in for them in examples. *)
Definition sample_b64encode (b : list Byte.byte) : string := string_of_list_byte b.
Definition sample_b64decode (s : string) : string + list Byte.byte :=
  inr (list_byte_of_string s).
Definition sample_str (e : Exn) : string :=
  match e with
  | RuntimeError msg => msg
  | AttributeError => "'NoneType' object has no attribute 'lower'"
  | AgentError => "Connection error."
  end.

(** A voice service with no provider. *)
Definition no_voice : VoiceService :=
  mkVoiceService (config sample_voice) (fun _ => None).

(** No task is ever cancelled; the task is cancelled in outside call [n]. *)
Definition never_cancelled : nat -> bool := fun _ => false.
Definition cancelled_in (n : nat) : nat -> bool := Nat.eqb n.

(** The sample world with a classifier that is down at outside call [n]. *)
Definition classifier_down_at (n : nat) : Collaborators :=
  mkCollaborators
    (fun k user_input history =>
       if Nat.eqb k n then None
       else intention_agent sample_world k user_input history)
    (payment_agent sample_world) (arguer_agent sample_world)
    (time_time sample_world).

(** * Properties *)

Ltac unfold_monad :=
  unfold bind, ret, gets, modify, raise, await, update_state in *.

Ltac unfold_nodes :=
  unfold Node_run, EntryNode_run, WaitForInput_run, ProcessUserInput_run,
    SimpleContradictionNode_run, ArgumentationNode_run, MetaCommentaryNode_run,
    answer_with, ResolutionNode_run, infer_user_intention, did_user_pay in *.

Lemma UserIntent_eqb_eq (a b : UserIntent) : UserIntent_eqb a b = true <-> a = b.
Proof. destruct a, b; simpl; split; congruence. Qed.

Lemma responses_length : length responses = 5%nat.
Proof. reflexivity. Qed.

Lemma refusal_in_responses (h : list string) : In (refusal h) responses.
Proof.
  unfold refusal. apply nth_In. rewrite responses_length.
  pose proof (Z.mod_pos_bound (Z.of_nat (length h)) 5). lia.
Qed.

Lemma refusal_not_empty (h : list string) : refusal h <> "".
Proof.
  pose proof (refusal_in_responses h) as H. intro E. rewrite E in H.
  simpl in H. intuition discriminate.
Qed.

(** ** Routing: [ProcessUserInput] *)

Section Routing.

Variable W : Collaborators.

(** The routing node, once the classifier has answered: what it returns
    is a function of the counters, the intent and the input. *)
Lemma ProcessUserInput_run_answered (ctx : GraphRunContext) (intent : UserIntent) :
  intention_agent W (calls ctx) (current_input (state ctx))
                  (recent (conversation_history (state ctx))) = Some intent ->
  ProcessUserInput_run W ctx =
  let s := state ctx in
  let ctx1 := mkRun s (S (calls ctx)) in
  if 8 <=? turn_count s then (Ok ResolutionNode, ctx1)
  else match intent with
       | META =>
           match current_input s with
           | None => (Raise AttributeError, ctx1)
           | Some text =>
               (Ok (if contains "argument" (lower text)
                    then MetaCommentaryNode else SimpleContradictionNode), ctx1)
           end
       | ARGUMENTATIVE =>
           (Ok (if (3 <=? turn_count s) && (3 <=? user_frustration_level s + 1)
                then ArgumentationNode else SimpleContradictionNode),
            mkRun (set_user_frustration_level (user_frustration_level s + 1) s)
                  (S (calls ctx)))
       | _ => (Ok SimpleContradictionNode, ctx1)
       end.
Proof.
  intros Hc. unfold_nodes. unfold_monad. rewrite Hc. cbn.
  destruct (8 <=? turn_count (state ctx)); [reflexivity|].
  destruct intent; cbn.
  - destruct (_ && _); reflexivity.
  - reflexivity.
  - destruct (current_input (state ctx)); [|reflexivity].
    destruct (contains _ _); reflexivity.
  - reflexivity.
Qed.

Lemma ProcessUserInput_run_unanswered (ctx : GraphRunContext) :
  intention_agent W (calls ctx) (current_input (state ctx))
                  (recent (conversation_history (state ctx))) = None ->
  ProcessUserInput_run W ctx = (Raise AgentError, mkRun (state ctx) (S (calls ctx))).
Proof.
  intros Hc. unfold_nodes. unfold_monad. rewrite Hc. reflexivity.
Qed.

(** C1. When [turn_count] is at least 8 at the moment of routing,
    [ProcessUserInput] returns [ResolutionNode], whatever intent the
    classifier found and whatever the input; the context is left as it
    was. *)
Theorem C1_eight_turns_route_to_resolution
  (ctx : GraphRunContext) (intent : UserIntent) :
  intention_agent W (calls ctx) (current_input (state ctx))
                  (recent (conversation_history (state ctx))) = Some intent ->
  8 <= turn_count (state ctx) ->
  ProcessUserInput_run W ctx = (Ok ResolutionNode, mkRun (state ctx) (S (calls ctx))).
Proof.
  intros Hc Ht. rewrite (ProcessUserInput_run_answered ctx intent Hc). cbn.
  apply Z.leb_le in Ht. rewrite Ht. reflexivity.
Qed.

(** C2. Below 8 turns, an ARGUMENTATIVE intent raises
    [user_frustration_level] by exactly 1 and nothing else; the node
    returned is [ArgumentationNode] exactly when [turn_count >= 3] and the
    raised frustration level is at least 3, and [SimpleContradictionNode]
    otherwise.  (With this intent the META branch is not taken.) *)
Theorem C2_argumentative_routing (ctx : GraphRunContext) :
  intention_agent W (calls ctx) (current_input (state ctx))
                  (recent (conversation_history (state ctx))) = Some ARGUMENTATIVE ->
  turn_count (state ctx) < 8 ->
  exists n : Node,
    ProcessUserInput_run W ctx =
      (Ok n, mkRun (set_user_frustration_level
                      (user_frustration_level (state ctx) + 1) (state ctx))
                   (S (calls ctx)))
    /\ (n = ArgumentationNode <->
        3 <= turn_count (state ctx) /\ 3 <= user_frustration_level (state ctx) + 1)
    /\ (n <> ArgumentationNode -> n = SimpleContradictionNode).
Proof.
  intros Hc Ht. rewrite (ProcessUserInput_run_answered ctx _ Hc). cbn.
  apply Z.leb_gt in Ht. rewrite Ht.
  destruct (3 <=? turn_count (state ctx)) eqn:E1;
    destruct (3 <=? user_frustration_level (state ctx) + 1) eqn:E2; cbn;
    eexists; (split; [reflexivity|]);
    rewrite ?Z.leb_le, ?Z.leb_gt in *; split; try split;
    try congruence; intros; try lia; try discriminate.
Qed.

End Routing.

Lemma C1_eight_turns_route_to_resolution_witness :
  let ctx := sample_context 8 2 false "What is this place?" in
  8 <= turn_count (state ctx) /\
  ProcessUserInput_run sample_world ctx =
    (Ok ResolutionNode, mkRun (state ctx) (S (calls ctx))).
Proof.
  cbv zeta. split; [simpl; lia|].
  apply (C1_eight_turns_route_to_resolution sample_world
           (sample_context 8 2 false "What is this place?") ARGUMENTATIVE);
    [reflexivity | simpl; lia].
Defined.

Lemma C2_argumentative_routing_witness :
  let ctx := sample_context 3 2 false "Yes it is" in
  turn_count (state ctx) < 8 /\
  exists n : Node,
    ProcessUserInput_run sample_world ctx =
      (Ok n, mkRun (set_user_frustration_level
                      (user_frustration_level (state ctx) + 1) (state ctx))
                   (S (calls ctx)))
    /\ (n = ArgumentationNode <->
        3 <= turn_count (state ctx) /\ 3 <= user_frustration_level (state ctx) + 1)
    /\ (n <> ArgumentationNode -> n = SimpleContradictionNode).
Proof.
  cbv zeta. split; [simpl; lia|].
  apply (C2_argumentative_routing sample_world (sample_context 3 2 false "Yes it is"));
    [reflexivity | simpl; lia].
Defined.

(** ** The payment gate: [ResolutionNode] *)

Section PaymentGate.

Variable W : Collaborators.

(** [ResolutionNode.run] once the classifier and, where it is asked, the
    detector have answered. *)
Lemma ResolutionNode_run_answered
  (ctx : GraphRunContext) (intent : UserIntent) (detected : bool) :
  let s := state ctx in
  let text := or_empty (current_input s) in
  intention_agent W (calls ctx) (Some text)
                  (recent (conversation_history s)) = Some intent ->
  detection W (calls ctx) intent text = Some detected ->
  ResolutionNode_run W ctx =
  let n := (resolution_calls intent + calls ctx)%nat in
  match ResolutionNode_branch (payment_received s) detected with
  | Refuse =>
      (Ok WaitForInput,
       mkRun (set_last_response (refusal (conversation_history s)) s) n)
  | Accept =>
      (Ok SimpleContradictionNode,
       mkRun (set_user_frustration_level 0
                (set_turn_count 0
                   (set_last_response acceptance
                      (set_payment_received true s)))) n)
  | Fallback => (Ok WaitForInput, mkRun (set_last_response ding s) n)
  end.
Proof.
  intros s text Hc Hd. subst s text.
  unfold detection in Hd. unfold resolution_calls.
  unfold_nodes. unfold_monad. cbn. rewrite Hc. cbn.
  destruct (UserIntent_eqb intent TRANSACTIONAL); cbn.
  - rewrite Hd. cbn.
    destruct (ResolutionNode_branch _ _); reflexivity.
  - injection Hd as <-.
    destruct (ResolutionNode_branch _ _); reflexivity.
Qed.

(** A run of [ResolutionNode] in which an agent raises leaves the context
    untouched. *)
Lemma ResolutionNode_run_raise (ctx ctx' : GraphRunContext) (e : Exn) :
  ResolutionNode_run W ctx = (Raise e, ctx') ->
  e = AgentError /\ state ctx' = state ctx.
Proof.
  unfold_nodes. unfold_monad. cbn.
  destruct (intention_agent W _ _ _) as [i|]; cbn.
  - destruct (UserIntent_eqb i TRANSACTIONAL); cbn.
    + destruct (payment_agent W _ _) as [d|]; cbn.
      * destruct (ResolutionNode_branch _ _); cbn; discriminate.
      * intros [= <- <-]. split; reflexivity.
    + destruct (ResolutionNode_branch _ _); cbn; discriminate.
  - intros [= <- <-]. split; reflexivity.
Qed.

(** A run of [ResolutionNode] that returns has had its answers. *)
Lemma ResolutionNode_run_ok (ctx ctx' : GraphRunContext) (n : Node) :
  ResolutionNode_run W ctx = (Ok n, ctx') ->
  exists intent detected,
    intention_agent W (calls ctx) (Some (or_empty (current_input (state ctx))))
                    (recent (conversation_history (state ctx))) = Some intent
    /\ detection W (calls ctx) intent (or_empty (current_input (state ctx)))
       = Some detected.
Proof.
  unfold detection. unfold_nodes. unfold_monad. cbn.
  destruct (intention_agent W _ _ _) as [i|]; cbn; [|discriminate].
  destruct (UserIntent_eqb i TRANSACTIONAL) eqn:E; cbn.
  - destruct (payment_agent W _ _) as [d|]; cbn; [|discriminate].
    intros _. exists i, d. rewrite E. split; reflexivity.
  - intros _. exists i, false. rewrite E. split; reflexivity.
Qed.

(** C3. When [ResolutionNode] runs with [payment_received] already true,
    or with a payment detected on the current input, that one run sets
    [payment_received], resets [turn_count] and [user_frustration_level]
    to 0, stores the acceptance message in [last_response] and returns
    [SimpleContradictionNode]; history, input and the arguer's messages
    are as they were. *)
Theorem C3_payment_acceptance
  (ctx : GraphRunContext) (intent : UserIntent) (detected : bool) :
  intention_agent W (calls ctx) (Some (or_empty (current_input (state ctx))))
                  (recent (conversation_history (state ctx))) = Some intent ->
  detection W (calls ctx) intent (or_empty (current_input (state ctx)))
    = Some detected ->
  payment_received (state ctx) = true \/ detected = true ->
  exists ctx' : GraphRunContext,
    ResolutionNode_run W ctx = (Ok SimpleContradictionNode, ctx')
    /\ payment_received (state ctx') = true
    /\ turn_count (state ctx') = 0
    /\ user_frustration_level (state ctx') = 0
    /\ last_response (state ctx') = acceptance
    /\ conversation_history (state ctx') = conversation_history (state ctx)
    /\ current_input (state ctx') = current_input (state ctx)
    /\ arguer_messages (state ctx') = arguer_messages (state ctx).
Proof.
  intros Hc Hd Hp.
  rewrite (ResolutionNode_run_answered ctx intent detected Hc Hd). cbn zeta.
  assert (ResolutionNode_branch (payment_received (state ctx)) detected = Accept)
    as ->.
  { unfold ResolutionNode_branch.
    destruct (payment_received (state ctx)), detected, Hp;
      try reflexivity; discriminate. }
  eexists. split; [reflexivity|]. cbn. repeat split.
Qed.

(** C4. When [ResolutionNode] runs unpaid and no payment is detected, the
    message stored is entry [len(conversation_history) mod 5] of the five
    refusals, the node returned is [WaitForInput] and [payment_received]
    is still false.  Hence two such runs whose histories differ in length
    by exactly 5 store the same refusal. *)
Theorem C4_refusal_rotation :
  length responses = 5%nat /\
  (forall (ctx : GraphRunContext) (intent : UserIntent),
      intention_agent W (calls ctx) (Some (or_empty (current_input (state ctx))))
                      (recent (conversation_history (state ctx))) = Some intent ->
      detection W (calls ctx) intent (or_empty (current_input (state ctx)))
        = Some false ->
      payment_received (state ctx) = false ->
      exists ctx' : GraphRunContext,
        ResolutionNode_run W ctx = (Ok WaitForInput, ctx')
        /\ last_response (state ctx') =
           nth (Z.to_nat (Z.of_nat (length (conversation_history (state ctx))) mod 5))
               responses ""
        /\ payment_received (state ctx') = false
        /\ state ctx' = set_last_response (last_response (state ctx')) (state ctx))
  /\
  (forall (ctx1 ctx2 ctx1' ctx2' : GraphRunContext) (n1 n2 : Node),
      payment_received (state ctx1) = false ->
      payment_received (state ctx2) = false ->
      ResolutionNode_run W ctx1 = (Ok n1, ctx1') ->
      ResolutionNode_run W ctx2 = (Ok n2, ctx2') ->
      payment_received (state ctx1') = false ->
      payment_received (state ctx2') = false ->
      length (conversation_history (state ctx2))
        = (length (conversation_history (state ctx1)) + 5)%nat ->
      last_response (state ctx1') = last_response (state ctx2')).
Proof.
  split; [reflexivity|]. split.
  - intros ctx intent Hc Hd Hp.
    rewrite (ResolutionNode_run_answered ctx intent false Hc Hd). cbn zeta.
    rewrite Hp. cbn. eexists. split; [reflexivity|]. cbn.
    repeat split. exact Hp.
  - intros ctx1 ctx2 ctx1' ctx2' n1 n2 Hp1 Hp2 R1 R2 Hq1 Hq2 Hlen.
    destruct (ResolutionNode_run_ok _ _ _ R1) as (i1 & d1 & Hc1 & Hd1).
    destruct (ResolutionNode_run_ok _ _ _ R2) as (i2 & d2 & Hc2 & Hd2).
    rewrite (ResolutionNode_run_answered ctx1 i1 d1 Hc1 Hd1) in R1.
    rewrite (ResolutionNode_run_answered ctx2 i2 d2 Hc2 Hd2) in R2.
    cbn zeta in R1, R2. rewrite Hp1 in R1. rewrite Hp2 in R2.
    destruct d1; cbn in R1; injection R1 as <- <-; cbn in Hq1; try discriminate.
    destruct d2; cbn in R2; injection R2 as <- <-; cbn in Hq2; try discriminate.
    cbn. unfold refusal. rewrite Hlen.
    replace (Z.of_nat (length (conversation_history (state ctx1)) + 5))
      with (Z.of_nat (length (conversation_history (state ctx1))) + 1 * 5) by lia.
    rewrite Z.mod_add by lia. reflexivity.
Qed.

(** C10. Of the three arms of [ResolutionNode.run], the refusal is taken
    exactly when both Booleans are false and the acceptance exactly when
    one of them is true, so the trailing arm is never taken; accordingly
    a run that returns has stored the acceptance message or one of the
    five refusals, never the DING message, and a run that raises has
    stored nothing. *)
Theorem C10_resolution_fallback_unreachable :
  (forall paid detected : bool,
      ResolutionNode_branch paid detected <> Fallback
      /\ (ResolutionNode_branch paid detected = Refuse
          <-> paid = false /\ detected = false)
      /\ (ResolutionNode_branch paid detected = Accept
          <-> paid = true \/ detected = true))
  /\ ~ In ding (acceptance :: responses)
  /\ (forall ctx : GraphRunContext,
        match ResolutionNode_run W ctx with
        | (Ok _, ctx') => In (last_response (state ctx')) (acceptance :: responses)
        | (Raise _, ctx') => state ctx' = state ctx
        end).
Proof.
  split; [|split].
  - intros [|] [|]; cbn; repeat split; try discriminate; intros;
      try tauto; try (destruct H; discriminate); auto.
  - cbn. intros H. repeat (destruct H as [H|H]; [discriminate|]). exact H.
  - intros ctx. destruct (ResolutionNode_run W ctx) as [[n|e] ctx'] eqn:R.
    + destruct (ResolutionNode_run_ok _ _ _ R) as (i & d & Hc & Hd).
      rewrite (ResolutionNode_run_answered ctx i d Hc Hd) in R. cbn zeta in R.
      destruct (payment_received (state ctx)), d; cbn in R;
        injection R as <- <-; cbn [state last_response set_last_response
          set_user_frustration_level set_turn_count set_payment_received];
        try (left; reflexivity).
      right. apply refusal_in_responses.
    + apply ResolutionNode_run_raise in R. tauto.
Qed.

End PaymentGate.

Lemma C3_payment_acceptance_witness :
  let ctx := sample_context 8 5 false "Fine, here's 5 pounds" in
  (payment_received (state ctx) = true \/ true = true) /\
  exists ctx' : GraphRunContext,
    ResolutionNode_run sample_world ctx = (Ok SimpleContradictionNode, ctx')
    /\ payment_received (state ctx') = true
    /\ turn_count (state ctx') = 0
    /\ user_frustration_level (state ctx') = 0
    /\ last_response (state ctx') = acceptance
    /\ conversation_history (state ctx') = conversation_history (state ctx)
    /\ current_input (state ctx') = current_input (state ctx)
    /\ arguer_messages (state ctx') = arguer_messages (state ctx).
Proof.
  cbv zeta. split; [right; reflexivity|].
  apply (C3_payment_acceptance sample_world
           (sample_context 8 5 false "Fine, here's 5 pounds") TRANSACTIONAL true);
    [reflexivity | reflexivity | right; reflexivity].
Defined.

Lemma C4_refusal_rotation_witness :
  let ctx := sample_context 8 5 false "You did not" in
  payment_received (state ctx) = false /\
  exists ctx' : GraphRunContext,
    ResolutionNode_run never_paid ctx = (Ok WaitForInput, ctx')
    /\ last_response (state ctx') = nth 2 responses ""
    /\ payment_received (state ctx') = false
    /\ state ctx' = set_last_response (last_response (state ctx')) (state ctx).
Proof.
  cbv zeta. split; [reflexivity|].
  destruct (C4_refusal_rotation never_paid) as (_ & H & _).
  apply (H (sample_context 8 5 false "You did not") ARGUMENTATIVE);
    reflexivity.
Defined.

(** ** Every node asks before it writes *)

Section Nodes.

Variable W : Collaborators.

Lemma answer_with_raise (prompt : UserIntent -> string -> string)
  (ctx ctx' : GraphRunContext) (e : Exn) :
  answer_with W prompt ctx = (Raise e, ctx') ->
  e = AgentError /\ state ctx' = state ctx.
Proof.
  unfold_nodes. unfold_monad. cbn.
  destruct (intention_agent W _ _ _) as [i|]; cbn.
  - destruct (arguer_agent W _ _ _) as [r|]; cbn; [discriminate|].
    intros [= <- <-]. split; reflexivity.
  - intros [= <- <-]. split; reflexivity.
Qed.

(** An answering node that returns has raised [turn_count] by one,
    stored the answer and extended the arguer's messages; it returns
    [WaitForInput]. *)
Lemma answer_with_ok (prompt : UserIntent -> string -> string)
  (ctx ctx' : GraphRunContext) (n : Node) :
  answer_with W prompt ctx = (Ok n, ctx') ->
  n = WaitForInput
  /\ calls ctx' = S (S (calls ctx))
  /\ exists (answer : string) (new_messages : list ModelMessage),
      state ctx' =
        set_turn_count (turn_count (state ctx) + 1)
          (set_last_response answer
             (set_arguer_messages (arguer_messages (state ctx) ++ new_messages)
                (state ctx))).
Proof.
  unfold_nodes. unfold_monad. cbn.
  destruct (intention_agent W _ _ _) as [i|]; cbn; [|discriminate].
  destruct (arguer_agent W _ _ _) as [[answer msgs]|]; cbn; [|discriminate].
  intros [= <- <-]. cbn. repeat split. exists answer, msgs. reflexivity.
Qed.

Lemma ProcessUserInput_run_raise (ctx ctx' : GraphRunContext) (e : Exn) :
  ProcessUserInput_run W ctx = (Raise e, ctx') ->
  state ctx' = state ctx
  /\ (e = AgentError \/ current_input (state ctx) = None).
Proof.
  destruct (intention_agent W (calls ctx) (current_input (state ctx))
              (recent (conversation_history (state ctx)))) as [i|] eqn:Hc.
  - rewrite (ProcessUserInput_run_answered W ctx i Hc). cbn zeta.
    destruct (8 <=? _); [discriminate|].
    destruct i; try discriminate.
    destruct (current_input (state ctx)); [discriminate|].
    intros [= <- <-]. split; [reflexivity | right; reflexivity].
  - rewrite (ProcessUserInput_run_unanswered W ctx Hc).
    intros [= <- <-]. split; [reflexivity | left; reflexivity].
Qed.

(** What routing may return, and the one thing it may write. *)
Lemma ProcessUserInput_run_ok (ctx ctx' : GraphRunContext) (n : Node) :
  ProcessUserInput_run W ctx = (Ok n, ctx') ->
  calls ctx' = S (calls ctx)
  /\ (n = ResolutionNode /\ 8 <= turn_count (state ctx) /\ state ctx' = state ctx
      \/ turn_count (state ctx) < 8
         /\ (n = SimpleContradictionNode \/ n = ArgumentationNode
             \/ n = MetaCommentaryNode)
         /\ (state ctx' = state ctx
             \/ state ctx' = set_user_frustration_level
                               (user_frustration_level (state ctx) + 1) (state ctx))).
Proof.
  destruct (intention_agent W (calls ctx) (current_input (state ctx))
              (recent (conversation_history (state ctx)))) as [i|] eqn:Hc.
  - rewrite (ProcessUserInput_run_answered W ctx i Hc). cbn zeta.
    destruct (8 <=? turn_count (state ctx)) eqn:E.
    + intros [= <- <-]. apply Z.leb_le in E. cbn. auto.
    + apply Z.leb_gt in E.
      destruct i.
      * destruct (_ && _); intros [= <- <-]; cbn; split; auto;
          right; repeat split; auto.
      * intros [= <- <-]; cbn; split; auto; right; repeat split; auto.
      * destruct (current_input (state ctx)); [|discriminate].
        destruct (contains _ _); intros [= <- <-]; cbn; split; auto;
          right; repeat split; auto.
      * intros [= <- <-]; cbn; split; auto; right; repeat split; auto.
  - rewrite (ProcessUserInput_run_unanswered W ctx Hc). discriminate.
Qed.

(** Every node makes its agent calls before it writes to the context, so
    a node that raises leaves the context as it found it. *)
Lemma Node_run_raise (n : Node) (ctx ctx' : GraphRunContext) (e : Exn) :
  Node_run W n ctx = (Raise e, ctx') ->
  state ctx' = state ctx
  /\ (e = AgentError \/ current_input (state ctx) = None).
Proof.
  destruct n; cbn [Node_run].
  - unfold EntryNode_run. unfold_monad. discriminate.
  - unfold WaitForInput_run. unfold_monad.
    destruct (current_input (state ctx)) eqn:E; [discriminate|].
    intros [= <- <-]. split; [reflexivity | right; reflexivity].
  - apply ProcessUserInput_run_raise.
  - intros H. apply answer_with_raise in H. tauto.
  - intros H. apply answer_with_raise in H. tauto.
  - intros H. apply answer_with_raise in H. tauto.
  - intros H. apply ResolutionNode_run_raise in H. tauto.
Qed.

End Nodes.

(** ** One step of a session that awaits input *)

Section Step.

Variable W : Collaborators.

(** [graph_context.next()] on a started graph. *)
Lemma graph_context_next_eq (sid : string) (st : ArgumentClinicContext)
  (n : Node) (busy : bool) (created : Q) (m : PerformanceMetrics) (c : nat) :
  graph_context_next W
    (mkProcess (GraphSession.mk sid st (Some (mkGraphRun n)) busy created) m c) =
  match Node_run W n (mkRun st c) with
  | (Ok n', ctx) =>
      (Ok n', mkProcess (GraphSession.mk sid (state ctx) (Some (mkGraphRun n'))
                           busy created) m (calls ctx))
  | (Raise e, ctx) =>
      (Raise e, mkProcess (GraphSession.mk sid (state ctx) (Some (mkGraphRun n))
                             busy created) m (calls ctx))
  end.
Proof.
  unfold graph_context_next. cbn -[Node_run].
  destruct (Node_run W n _) as [[n'|e] ctx]; reflexivity.
Qed.

Ltac step_cbn :=
  cbn -[graph_context_next Node_run ProcessUserInput_run Qminus Qmult].

Ltac step_next := rewrite graph_context_next_eq; cbn [Node_run].

(** [process_input] on a session that awaits input is three
    transitions: [WaitForInput], which only records the input; the
    routing node; and the node routing chose.  The step raises where the
    first of the last two does, with the graph left at that node. *)
Lemma process_input_awaiting (user_input : string) (p : Process) :
  GraphSession.is_processing (session p) = false ->
  awaiting_input p ->
  process_input W user_input p =
  let g := session p in
  let settle st node m n :=
    mkProcess (GraphSession.mk (GraphSession.session_id g) st
                 (Some (mkGraphRun node)) false (GraphSession.created_at g))
              m n in
  match ProcessUserInput_run W
          (mkRun (context_at_routing user_input p) (S (outside_calls p))) with
  | (Raise e, ctx2) =>
      (Raise e, settle (state ctx2) ProcessUserInput
                       (increment_error (metrics p)) (calls ctx2))
  | (Ok n, ctx2) =>
      match Node_run W n ctx2 with
      | (Raise e, ctx3) =>
          (Raise e, settle (state ctx3) n (increment_error (metrics p)) (calls ctx3))
      | (Ok n', ctx3) =>
          let ms := ((time_time W (calls ctx3) - time_time W (outside_calls p))
                     * 1000)%Q in
          (Ok (match last_response (state ctx3) with
               | EmptyString => "Good morning! Welcome to the Argument Clinic."
               | _ => last_response (state ctx3)
               end, ms, Node_name n),
           settle (state ctx3) n'
                  (increment_success (add_response_time ms (metrics p)))
                  (S (calls ctx3)))
      end
  end.
Proof.
  destruct p as [[sid st gc busy created] m c]. cbn [session GraphSession.is_processing].
  intros -> Haw. unfold context_at_routing. cbn zeta.
  assert (gc = None \/ gc = Some (mkGraphRun WaitForInput)) as [-> | ->].
  { destruct Haw as [H|H]; unfold pending in H; cbn in H.
    - destruct gc; [discriminate | left; reflexivity].
    - destruct gc as [[n]|]; [|discriminate]. injection H as ->.
      right; reflexivity. }
  all: unfold process_input, process_input_try, start_graph, track_response_time,
      now, update_session, update_metrics, GraphSession.set_graph_context,
      GraphSession.set_is_processing, GraphSession.set_state;
    unfold_monad; step_cbn.
  1: step_next; unfold EntryNode_run; unfold_monad; step_cbn.
  all: step_next; unfold WaitForInput_run; unfold_monad; step_cbn;
    step_next;
    destruct (ProcessUserInput_run W _) as [[n|e] [s2 c2]]; step_cbn;
      [|reflexivity];
    step_next;
    destruct (Node_run W n _) as [[n'|e] [s3 c3]]; step_cbn; reflexivity.
Qed.

End Step.

(** ** What no run ever undoes *)

Section Preservation.

Context {S : Type} (P : S -> Prop).

Lemma preserves_ret {A : Type} (a : A) : preserves P (ret a).
Proof. intros s H. exact H. Qed.

Lemma preserves_gets {A : Type} (f : S -> A) : preserves P (gets f).
Proof. intros s H. exact H. Qed.

Lemma preserves_raise {A : Type} (e : Exn) : preserves P (@raise S A e).
Proof. intros s H. exact H. Qed.

Lemma preserves_modify (f : S -> S) :
  (forall s, P s -> P (f s)) -> preserves P (modify f).
Proof. intros Hf s H. apply Hf, H. Qed.

Lemma preserves_bind {A B : Type} (m : M S A) (k : A -> M S B) :
  preserves P m -> (forall a, preserves P (k a)) -> preserves P (bind m k).
Proof.
  intros Hm Hk s H. unfold bind.
  specialize (Hm s H). destruct (m s) as [[a|e] s1]; cbn in *.
  - apply Hk, Hm.
  - exact Hm.
Qed.

End Preservation.

Lemma preserves_await {A : Type} (P : ArgumentClinicContext -> Prop)
  (answer : nat -> option A) :
  preserves (fun ctx => P (state ctx)) (await answer).
Proof. intros ctx H. unfold await. destruct (answer _); exact H. Qed.

Lemma preserves_update_state (P : ArgumentClinicContext -> Prop)
  (f : ArgumentClinicContext -> ArgumentClinicContext) :
  (forall s, P s -> P (f s)) ->
  preserves (fun ctx => P (state ctx)) (update_state f).
Proof. intros Hf ctx H. cbn. apply Hf, H. Qed.

Ltac preserves_tac P :=
  repeat first
    [ apply preserves_ret
    | apply preserves_gets
    | apply preserves_raise
    | apply (preserves_await P)
    | apply (preserves_update_state P); intros ? ?; cbn; auto
    | apply preserves_bind; [|intros ?]
    | match goal with
      | |- preserves _ (if ?b then _ else _) => destruct b
      | |- preserves _ (match ?x with _ => _ end) => destruct x
      end ].

Section Monotone.

Variable W : Collaborators.

(** No node ever clears [payment_received]. *)
Lemma Node_run_keeps_payment (n : Node) :
  preserves (fun ctx => payment_received (state ctx) = true) (Node_run W n).
Proof.
  destruct n; unfold_nodes;
    preserves_tac (fun s : ArgumentClinicContext => payment_received s = true).
Qed.

Lemma graph_context_next_keeps_payment :
  preserves session_paid (graph_context_next W).
Proof.
  intros [[sid st gc busy created] m c] H. unfold session_paid in *. cbn in H.
  destruct gc as [[n]|]; [|exact H].
  rewrite graph_context_next_eq.
  pose proof (Node_run_keeps_payment n (mkRun st c) H) as K.
  destruct (Node_run W n _) as [[n'|e] ctx]; exact K.
Qed.

Lemma process_input_keeps_payment (user_input : string) :
  preserves session_paid (process_input W user_input).
Proof.
  intros p H. unfold process_input.
  destruct (GraphSession.is_processing (session p)); [exact H|].
  assert (preserves session_paid
            (start_time <- now W ;; process_input_try W start_time user_input))
    as K.
  { unfold process_input_try, start_graph, track_response_time, now,
      update_session, update_metrics.
    repeat first
      [ apply preserves_ret
      | apply preserves_gets
      | apply graph_context_next_keeps_payment
      | apply preserves_modify; intros ? ?; assumption
      | apply preserves_bind; [|intros ?]
      | match goal with
        | |- preserves _ (match ?x with _ => _ end) => destruct x
        | |- preserves _ (fun _ => _) => intros ? ?; assumption
        end ]. }
  specialize (K p H).
  destruct ((start_time <- now W ;; process_input_try W start_time user_input) p)
    as [[v|e] p1]; exact K.
Qed.

(** C9. [payment_received] is false in a session just created, and once
    it is true no sequence of inputs, whether their steps return, raise
    or are rejected, makes it false again. *)
Theorem C9_payment_received_monotone :
  (forall sid : string,
      payment_received (GraphSession.state (session (boot W sid))) = false)
  /\ (forall (inputs : list string) (p : Process),
        payment_received (GraphSession.state (session p)) = true ->
        payment_received
          (GraphSession.state (session (process_inputs W inputs p))) = true).
Proof.
  split; [reflexivity|].
  induction inputs as [|i rest IH]; intros p H; cbn [process_inputs].
  - exact H.
  - apply IH. exact (process_input_keeps_payment i p H).
Qed.

End Monotone.

Lemma C9_payment_received_monotone_witness :
  payment_received (GraphSession.state (session after_payment)) = true /\
  payment_received
    (GraphSession.state
       (session (process_inputs generator_down ["No it isn't"; "Yes it is"]
                   after_payment))) = true.
Proof.
  split; [vm_compute; reflexivity|].
  destruct (C9_payment_received_monotone generator_down) as [_ H].
  apply (H ["No it isn't"; "Yes it is"] after_payment). vm_compute; reflexivity.
Defined.

(** ** Steps that are rejected, fail, or end at the payment gate *)

Local Open Scope list_scope.

Section Steps.

Variable W : Collaborators.

(** C6. A call of [process_input] on a session whose [is_processing]
    flag is set returns at once the fixed message, a zero time and the
    name "ConcurrencyError"; the session (counters, history, payment flag,
    pending node), the metrics and the outside world are as they were. *)
Theorem C6_concurrent_step_rejected (user_input : string) (p : Process) :
  GraphSession.is_processing (session p) = true ->
  process_input W user_input p =
    (Ok ("Please wait for the current response to complete.", 0%Q,
         "ConcurrencyError"), p).
Proof.
  intros H. unfold process_input. rewrite H. reflexivity.
Qed.

(** The routing node of a step never lacks an input. *)
Lemma context_at_routing_input (user_input : string) (p : Process) :
  current_input (context_at_routing user_input p) = Some user_input.
Proof. reflexivity. Qed.

(** Where a step that returns leaves the graph: at [WaitForInput], unless
    its third node was [ResolutionNode] accepting payment, which hands
    over to [SimpleContradictionNode]. *)
Lemma pending_after_step (user_input : string) (p p' : Process)
  (v : string * Q * string) :
  GraphSession.is_processing (session p) = false ->
  awaiting_input p ->
  process_input W user_input p = (Ok v, p') ->
  pending p' = Some WaitForInput
  \/ (pending p' = Some SimpleContradictionNode
      /\ snd v = "ResolutionNode"
      /\ payment_received (GraphSession.state (session p')) = true
      /\ turn_count (GraphSession.state (session p')) = 0).
Proof.
  intros Hbusy Haw H.
  rewrite (process_input_awaiting W user_input p Hbusy Haw) in H. cbn zeta in H.
  destruct (ProcessUserInput_run W _) as [[n|e2] ctx2] eqn:R2; [|discriminate].
  destruct (Node_run W n ctx2) as [[n'|e3] ctx3] eqn:R3; [|discriminate].
  injection H as <- <-.
  cbn [session GraphSession.state GraphSession.graph_context pending
       option_map next_node snd].
  apply ProcessUserInput_run_ok in R2 as [_ Hn].
  destruct Hn as [(-> & _) | (_ & Hn & _)].
  - cbn [Node_run] in R3.
    destruct (ResolutionNode_run_ok W _ _ _ R3) as (i & d & Hc & Hd).
    rewrite (ResolutionNode_run_answered W ctx2 i d Hc Hd) in R3. cbn zeta in R3.
    destruct (ResolutionNode_branch _ _); injection R3 as <- <-; cbn; auto.
  - left. destruct Hn as [-> | [-> | ->]]; cbn [Node_run] in R3;
      apply answer_with_ok in R3 as [-> _]; reflexivity.
Qed.

(** C8, as the code has it.  With [turn_count] at 8 when routing runs,
    routing returns [ResolutionNode] whatever the classifier answers and
    writes nothing.  Whenever [ResolutionNode] runs on an unpaid session
    and no payment is detected, it stores the refusal at index
    [len(conversation_history) mod 5] of the list, the history being the
    one that stands when it runs, and hands back to [WaitForInput];
    [turn_count] plays no part.  In a step of a session that awaits input
    that history already holds the current input: the step returns that
    refusal under the name "ResolutionNode", the graph is back at
    [WaitForInput] and the counters are untouched. *)
Theorem C8_refusal_at_eight_turns :
  (forall (ctx : GraphRunContext) (routed : UserIntent),
      turn_count (state ctx) = 8 ->
      intention_agent W (calls ctx) (current_input (state ctx))
                      (recent (conversation_history (state ctx))) = Some routed ->
      ProcessUserInput_run W ctx
      = (Ok ResolutionNode, mkRun (state ctx) (S (calls ctx))))
  /\
  (forall (ctx : GraphRunContext) (asked : UserIntent),
      let s := state ctx in
      let text := or_empty (current_input s) in
      payment_received s = false ->
      intention_agent W (calls ctx) (Some text)
                      (recent (conversation_history s)) = Some asked ->
      detection W (calls ctx) asked text = Some false ->
      ResolutionNode_run W ctx
      = (Ok WaitForInput,
         mkRun (set_last_response
                  (nth (Z.to_nat (Z.of_nat (length (conversation_history s))
                                  mod 5))
                       responses "") s)
               (resolution_calls asked + calls ctx)))
  /\
  (forall (user_input : string) (p : Process) (routed asked : UserIntent),
      let s := GraphSession.state (session p) in
      let history := conversation_history s ++ [user_input] in
      GraphSession.is_processing (session p) = false ->
      awaiting_input p ->
      turn_count s = 8 ->
      payment_received s = false ->
      intention_agent W (S (outside_calls p)) (Some user_input) (recent history)
        = Some routed ->
      intention_agent W (S (S (outside_calls p))) (Some user_input)
                      (recent history) = Some asked ->
      detection W (S (S (outside_calls p))) asked user_input = Some false ->
      exists (ms : Q) (p' : Process),
        process_input W user_input p
          = (Ok (nth (Z.to_nat ((Z.of_nat (length (conversation_history s)) + 1)
                                mod 5))
                     responses "",
                 ms, "ResolutionNode"), p')
        /\ pending p' = Some WaitForInput
        /\ conversation_history (GraphSession.state (session p')) = history
        /\ turn_count (GraphSession.state (session p')) = 8
        /\ user_frustration_level (GraphSession.state (session p'))
           = user_frustration_level s
        /\ payment_received (GraphSession.state (session p')) = false).
Proof.
  split; [|split].
  - intros ctx routed Ht Hc.
    rewrite (ProcessUserInput_run_answered W ctx routed Hc). cbn zeta.
    rewrite Ht. reflexivity.
  - intros ctx asked s text Hp Hc Hd. subst s text.
    rewrite (ResolutionNode_run_answered W ctx asked false Hc Hd).
    cbn zeta. rewrite Hp. reflexivity.
  - intros user_input p routed asked s history Hbusy Haw Ht Hp Hc1 Hc2 Hd.
    subst s history.
    rewrite (process_input_awaiting W user_input p Hbusy Haw). cbn zeta.
    assert (turn_count (context_at_routing user_input p) = 8) as Ht'.
    { unfold context_at_routing.
      destruct (GraphSession.graph_context (session p)); cbn; exact Ht. }
    assert (payment_received (context_at_routing user_input p) = false) as Hp'.
    { unfold context_at_routing.
      destruct (GraphSession.graph_context (session p)); cbn; exact Hp. }
    assert (conversation_history (context_at_routing user_input p)
            = conversation_history (GraphSession.state (session p)) ++ [user_input])
      as Hh.
    { unfold context_at_routing.
      destruct (GraphSession.graph_context (session p)); reflexivity. }
    assert (user_frustration_level (context_at_routing user_input p)
            = user_frustration_level (GraphSession.state (session p))) as Hf.
    { unfold context_at_routing.
      destruct (GraphSession.graph_context (session p)); reflexivity. }
    rewrite (ProcessUserInput_run_answered W
               (mkRun (context_at_routing user_input p) (S (outside_calls p))) routed).
    2: { cbn [state calls]. rewrite context_at_routing_input, Hh. exact Hc1. }
    cbn zeta. cbn [state calls]. rewrite Ht'. cbn [Z.leb Z.compare Pos.compare
      Pos.compare_cont]. cbn [Node_run].
    rewrite (ResolutionNode_run_answered W _ asked false).
    2: { cbn [state calls]. rewrite context_at_routing_input, Hh. exact Hc2. }
    2: { cbn [state calls]. rewrite context_at_routing_input. exact Hd. }
    cbn zeta. cbn [state calls]. rewrite Hp'. cbn [ResolutionNode_branch negb andb].
    cbn [last_response set_last_response state calls].
    rewrite Hh.
    pose proof (refusal_not_empty
                  (conversation_history (GraphSession.state (session p)) ++ [user_input]))
      as Hne.
    destruct (refusal _) eqn:E; [congruence|]. rewrite <- E.
    do 2 eexists. split.
    + f_equal. f_equal. f_equal. unfold refusal. rewrite length_app. cbn [length].
      f_equal. f_equal. lia.
    + cbn. repeat split; auto.
Qed.

End Steps.

Lemma C6_concurrent_step_rejected_witness :
  GraphSession.is_processing (session busy_session) = true /\
  process_input sample_world "Hello?" busy_session =
    (Ok ("Please wait for the current response to complete.", 0%Q,
         "ConcurrencyError"), busy_session).
Proof.
  split; [reflexivity|].
  apply (C6_concurrent_step_rejected sample_world "Hello?" busy_session).
  reflexivity.
Defined.

(** C5 as stated fails: with the generator down, the first step of a new
    session raises, and yet the input has been appended to the history
    and the frustration level raised. *)
Lemma C5_counterexample :
  let p := boot generator_down "session" in
  let s := GraphSession.state (session p) in
  let s' := GraphSession.state (session failed_first_step) in
  process_input generator_down "That's not true!" p
    = (Raise AgentError, failed_first_step)
  /\ conversation_history s = []
  /\ conversation_history s' = ["That's not true!"]
  /\ user_frustration_level s = 0
  /\ user_frustration_level s' = 1
  /\ s' <> s.
Proof.
  vm_compute. repeat (split; [reflexivity|]).
  intros E. discriminate E.
Qed.

(** C7 fails on the step that accepts payment.  After eight ordinary
    steps the graph is at [WaitForInput]; the ninth input pays, the step
    returns the acceptance from [ResolutionNode], and the graph is left at
    [SimpleContradictionNode].  The next step then starts one node late:
    it answers before it records the input and reports the routing node
    as the node that answered. *)
Lemma C7_payment_step_ends_at_SimpleContradiction :
  GraphSession.is_processing (session (after_eight sample_world)) = false
  /\ pending (after_eight sample_world) = Some WaitForInput
  /\ turn_count (GraphSession.state (session (after_eight sample_world))) = 8
  /\ match fst (process_input sample_world "Fine, here's 5 pounds"
                  (after_eight sample_world)) with
     | Ok (text, _, node) => text = acceptance /\ node = "ResolutionNode"
     | Raise _ => False
     end
  /\ pending after_payment = Some SimpleContradictionNode
  /\ pending after_payment <> Some WaitForInput
  /\ match fst (process_input sample_world "No it isn't" after_payment) with
     | Ok (_, _, node) => node = "ProcessUserInput"
     | Raise _ => False
     end.
Proof.
  vm_compute. repeat split; discriminate.
Qed.

(** C8 as stated fails: a session brought to 8 turns by eight ordinary
    steps has a history of 8 entries, the ninth input makes it 9, and the
    refusal returned is the one at index 4, which is not the one at
    index 3. *)
Lemma C8_counterexample :
  let p := after_eight never_paid in
  turn_count (GraphSession.state (session p)) = 8
  /\ payment_received (GraphSession.state (session p)) = false
  /\ length (conversation_history (GraphSession.state (session p))) = 8%nat
  /\ match fst (process_input never_paid "Yes it is" p) with
     | Ok (text, _, node) =>
         node = "ResolutionNode"
         /\ text = nth 4 responses ""
         /\ text <> nth 3 responses ""
     | Raise _ => False
     end.
Proof.
  vm_compute. repeat split; discriminate.
Qed.

Lemma C8_refusal_at_eight_turns_witness :
  let ctx := sample_context 8 5 false "You did not" in
  let p := after_eight never_paid in
  let s := GraphSession.state (session p) in
  (turn_count (state ctx) = 8
   /\ ProcessUserInput_run never_paid ctx
      = (Ok ResolutionNode, mkRun (state ctx) (S (calls ctx))))
  /\ (payment_received (state ctx) = false
      /\ ResolutionNode_run never_paid ctx
         = (Ok WaitForInput,
            mkRun (set_last_response
                     (nth (Z.to_nat
                             (Z.of_nat (length (conversation_history (state ctx)))
                              mod 5))
                          responses "") (state ctx))
                  (resolution_calls ARGUMENTATIVE + calls ctx)))
  /\ (GraphSession.is_processing (session p) = false
      /\ awaiting_input p
      /\ turn_count s = 8
      /\ payment_received s = false)
  /\ exists (ms : Q) (p' : Process),
      process_input never_paid "Yes it is" p
        = (Ok (nth (Z.to_nat ((Z.of_nat (length (conversation_history s)) + 1) mod 5))
                   responses "",
               ms, "ResolutionNode"), p')
      /\ pending p' = Some WaitForInput
      /\ conversation_history (GraphSession.state (session p'))
         = conversation_history s ++ ["Yes it is"]
      /\ turn_count (GraphSession.state (session p')) = 8
      /\ user_frustration_level (GraphSession.state (session p'))
         = user_frustration_level s
      /\ payment_received (GraphSession.state (session p')) = false.
Proof.
  intros ctx p s.
  destruct (C8_refusal_at_eight_turns never_paid) as (Hrouting & Hnode & Hstep).
  split; [|split; [|split]].
  - split; [reflexivity|].
    apply (Hrouting ctx ARGUMENTATIVE); reflexivity.
  - split; [reflexivity|].
    apply (Hnode ctx ARGUMENTATIVE); reflexivity.
  - split; [vm_compute; reflexivity|]. split; [right; vm_compute; reflexivity|].
    split; vm_compute; reflexivity.
  - apply (Hstep "Yes it is" p ARGUMENTATIVE ARGUMENTATIVE);
      [vm_compute; reflexivity | right; vm_compute; reflexivity
      | vm_compute; reflexivity | vm_compute; reflexivity
      | vm_compute; reflexivity | vm_compute; reflexivity
      | vm_compute; reflexivity].
Defined.

(** ** More on the nodes *)

Local Open Scope string_scope.

Lemma lower_append (a b : string) : lower (a ++ b) = lower a ++ lower b.
Proof.
  induction a as [|c a IH]; [reflexivity|].
  change (String c a ++ b) with (String c (a ++ b)).
  change (lower (String c (a ++ b)))
    with (String (lower_ascii c) (lower (a ++ b))).
  rewrite IH. reflexivity.
Qed.

Lemma prefix_append (needle rest : string) :
  String.prefix needle (needle ++ rest) = true.
Proof.
  induction needle as [|c needle IH].
  - change ("" ++ rest) with rest. destruct rest; reflexivity.
  - change (String c needle ++ rest) with (String c (needle ++ rest)).
    cbn [String.prefix].
    destruct (ascii_dec c c); [exact IH | congruence].
Qed.

Lemma contains_prefix (needle hay : string) :
  String.prefix needle hay = true -> contains needle hay = true.
Proof.
  intros H.
  replace (contains needle hay)
    with (if String.prefix needle hay then true
          else match hay with
               | EmptyString => false
               | String _ hay' => contains needle hay'
               end) by (destruct hay; reflexivity).
  rewrite H. reflexivity.
Qed.

Lemma contains_append (needle before rest : string) :
  contains needle (before ++ needle ++ rest) = true.
Proof.
  induction before as [|c before IH].
  - change ("" ++ needle ++ rest) with (needle ++ rest).
    apply contains_prefix, prefix_append.
  - change (String c before ++ needle ++ rest)
      with (String c (before ++ needle ++ rest)).
    cbn [contains]. rewrite IH. now destruct (String.prefix _ _).
Qed.

Section MoreNodes.

Variable W : Collaborators.

(** X1. A node that raises has written nothing: the context after the
    exception is the context the node was given.  The exception is an
    agent's, unless the node ran with no current input. *)
Theorem X1_raising_node_writes_nothing
  (n : Node) (ctx ctx' : GraphRunContext) (e : Exn) :
  Node_run W n ctx = (Raise e, ctx') ->
  state ctx' = state ctx
  /\ (e = AgentError \/ current_input (state ctx) = None).
Proof. apply Node_run_raise. Qed.

(** X2. An answering node that returns has asked the classifier and then
    the arguer, with its own prompt and the messages kept so far; it
    stores the arguer's answer, appends the new messages, adds one to
    [turn_count] and returns [WaitForInput].  History, frustration level,
    payment flag and input are as they were. *)
Theorem X2_answering_node_returns
  (n n' : Node) (ctx ctx' : GraphRunContext) :
  answering n = true ->
  Node_run W n ctx = (Ok n', ctx') ->
  let s := state ctx in
  let text := or_empty (current_input s) in
  exists (intent : UserIntent) (answer : string) (new_messages : list ModelMessage),
    intention_agent W (calls ctx) (Some text) (recent (conversation_history s))
      = Some intent
    /\ arguer_agent W (S (calls ctx)) (Node_prompt n intent text) (arguer_messages s)
       = Some (answer, new_messages)
    /\ n' = WaitForInput
    /\ calls ctx' = S (S (calls ctx))
    /\ turn_count (state ctx') = turn_count s + 1
    /\ last_response (state ctx') = answer
    /\ arguer_messages (state ctx') = (arguer_messages s ++ new_messages)%list
    /\ conversation_history (state ctx') = conversation_history s
    /\ user_frustration_level (state ctx') = user_frustration_level s
    /\ payment_received (state ctx') = payment_received s
    /\ current_input (state ctx') = current_input s.
Proof.
  intros Hn. destruct n; try discriminate Hn; cbn [Node_run Node_prompt];
    unfold_nodes; unfold_monad; cbn;
    (destruct (intention_agent W _ _ _) as [i|] eqn:Hi; cbn; [|discriminate]);
    (destruct (arguer_agent W _ _ _) as [[answer msgs]|] eqn:Ha; cbn;
       [|discriminate]);
    intros [= <- <-]; exists i, answer, msgs; cbn; repeat split; assumption.
Qed.

(** X3. Below 8 turns, an intent other than ARGUMENTATIVE leaves the
    context untouched, frustration level included.  META goes to
    [MetaCommentaryNode] exactly when the lower-cased input contains
    "argument"; everything else goes to [SimpleContradictionNode]. *)
Theorem X3_other_intents_write_nothing
  (ctx : GraphRunContext) (intent : UserIntent) (text : string) :
  current_input (state ctx) = Some text ->
  intention_agent W (calls ctx) (Some text)
                  (recent (conversation_history (state ctx))) = Some intent ->
  intent <> ARGUMENTATIVE ->
  turn_count (state ctx) < 8 ->
  ProcessUserInput_run W ctx =
    (Ok (if UserIntent_eqb intent META && contains "argument" (lower text)
         then MetaCommentaryNode else SimpleContradictionNode),
     mkRun (state ctx) (S (calls ctx))).
Proof.
  intros Hin Hc Hne Ht. rewrite <- Hin in Hc.
  rewrite (ProcessUserInput_run_answered W ctx intent Hc). cbn zeta.
  apply Z.leb_gt in Ht. rewrite Ht, Hin.
  destruct intent; cbn; try reflexivity. congruence.
Qed.

(** X4. The word is found in any capitalisation and anywhere in the
    input: below 8 turns a META input that contains "argument" in some
    mix of upper and lower case goes to [MetaCommentaryNode]. *)
Theorem X4_meta_keyword_any_case
  (ctx : GraphRunContext) (before word rest : string) :
  lower word = "argument" ->
  current_input (state ctx) = Some (before ++ word ++ rest) ->
  intention_agent W (calls ctx) (Some (before ++ word ++ rest))
                  (recent (conversation_history (state ctx))) = Some META ->
  turn_count (state ctx) < 8 ->
  ProcessUserInput_run W ctx = (Ok MetaCommentaryNode, mkRun (state ctx) (S (calls ctx))).
Proof.
  intros Hw Hin Hc Ht. rewrite <- Hin in Hc.
  rewrite (ProcessUserInput_run_answered W ctx META Hc). cbn zeta.
  apply Z.leb_gt in Ht. rewrite Ht, Hin.
  rewrite !lower_append, Hw, contains_append. reflexivity.
Qed.

(** X5. The payment detector is asked only about TRANSACTIONAL inputs.
    With any other intent [ResolutionNode] makes one outside call, and
    what it does is decided by [payment_received] alone: an unpaid
    session is refused whatever the input says, a paid one is accepted. *)
Theorem X5_detector_only_for_transactional
  (ctx : GraphRunContext) (intent : UserIntent) :
  let s := state ctx in
  intention_agent W (calls ctx) (Some (or_empty (current_input s)))
                  (recent (conversation_history s)) = Some intent ->
  intent <> TRANSACTIONAL ->
  ResolutionNode_run W ctx =
    if payment_received s
    then (Ok SimpleContradictionNode,
          mkRun (set_user_frustration_level 0
                   (set_turn_count 0
                      (set_last_response acceptance
                         (set_payment_received true s))))
                (S (calls ctx)))
    else (Ok WaitForInput,
          mkRun (set_last_response (refusal (conversation_history s)) s)
                (S (calls ctx))).
Proof.
  intros s Hc Hne. subst s.
  rewrite (ResolutionNode_run_answered W ctx intent false Hc).
  - cbn zeta. destruct intent; try congruence; cbn;
      destruct (payment_received (state ctx)); reflexivity.
  - unfold detection. destruct intent; try congruence; reflexivity.
Qed.

End MoreNodes.

(** X6. The classifier is shown the last three entries of the history,
    in order, and the whole history when it has at most three. *)
Theorem X6_recent_is_last_three (h : list string) :
  recent h = skipn (length h - 3) h
  /\ length (recent h) = Nat.min 3 (length h)
  /\ h = (firstn (length h - 3) h ++ recent h)%list.
Proof.
  assert (recent h = skipn (length h - 3) h) as E.
  { unfold recent. destruct (3 <? Z.of_nat (length h))%Z eqn:L; [reflexivity|].
    apply Z.ltb_ge in L. replace (length h - 3)%nat with 0%nat by lia.
    reflexivity. }
  rewrite E. split; [reflexivity|]. split.
  - rewrite length_skipn. lia.
  - symmetry. apply firstn_skipn.
Qed.

Lemma X1_raising_node_writes_nothing_witness :
  let ctx := sample_context 2 1 false "Yes it is" in
  Node_run generator_down SimpleContradictionNode ctx
    = (Raise AgentError, mkRun (state ctx) 9)
  /\ state (mkRun (state ctx) 9) = state ctx
  /\ (AgentError = AgentError \/ current_input (state ctx) = None).
Proof.
  intros ctx. split; [vm_compute; reflexivity|].
  apply (X1_raising_node_writes_nothing generator_down SimpleContradictionNode ctx
           (mkRun (state ctx) 9) AgentError).
  vm_compute; reflexivity.
Defined.

Lemma X2_answering_node_returns_witness :
  let ctx := sample_context 2 1 false "Yes it is" in
  let ctx' := snd (Node_run sample_world ArgumentationNode ctx) in
  let s := state ctx in
  let text := or_empty (current_input s) in
  (answering ArgumentationNode = true
   /\ Node_run sample_world ArgumentationNode ctx = (Ok WaitForInput, ctx'))
  /\ exists (intent : UserIntent) (answer : string) (new_messages : list ModelMessage),
    intention_agent sample_world (calls ctx) (Some text)
                    (recent (conversation_history s)) = Some intent
    /\ arguer_agent sample_world (S (calls ctx))
         (Node_prompt ArgumentationNode intent text) (arguer_messages s)
       = Some (answer, new_messages)
    /\ WaitForInput = WaitForInput
    /\ calls ctx' = S (S (calls ctx))
    /\ turn_count (state ctx') = turn_count s + 1
    /\ last_response (state ctx') = answer
    /\ arguer_messages (state ctx') = (arguer_messages s ++ new_messages)%list
    /\ conversation_history (state ctx') = conversation_history s
    /\ user_frustration_level (state ctx') = user_frustration_level s
    /\ payment_received (state ctx') = payment_received s
    /\ current_input (state ctx') = current_input s.
Proof.
  intros ctx ctx' s text. split.
  - split; vm_compute; reflexivity.
  - apply (X2_answering_node_returns sample_world ArgumentationNode WaitForInput
             ctx ctx'); vm_compute; reflexivity.
Defined.

Lemma X3_other_intents_write_nothing_witness :
  let ctx := sample_context 2 1 false "Here's five pounds" in
  (TRANSACTIONAL <> ARGUMENTATIVE /\ turn_count (state ctx) < 8)
  /\ ProcessUserInput_run sample_world ctx =
      (Ok (if UserIntent_eqb TRANSACTIONAL META
              && contains "argument" (lower "Here's five pounds")
           then MetaCommentaryNode else SimpleContradictionNode),
       mkRun (state ctx) (S (calls ctx))).
Proof.
  intros ctx. split.
  - split; [discriminate | vm_compute; reflexivity].
  - apply (X3_other_intents_write_nothing sample_world ctx TRANSACTIONAL
             "Here's five pounds");
      [reflexivity | vm_compute; reflexivity | discriminate
      | vm_compute; reflexivity].
Defined.

Lemma X4_meta_keyword_any_case_witness :
  let ctx := sample_context 2 1 false "This isn't an ARGUMENT!" in
  (lower "ARGUMENT" = "argument" /\ turn_count (state ctx) < 8)
  /\ ProcessUserInput_run meta_world ctx
     = (Ok MetaCommentaryNode, mkRun (state ctx) (S (calls ctx))).
Proof.
  intros ctx. split.
  - split; vm_compute; reflexivity.
  - apply (X4_meta_keyword_any_case meta_world ctx "This isn't an " "ARGUMENT" "!");
      vm_compute; reflexivity.
Defined.

Lemma X5_detector_only_for_transactional_witness :
  let ctx := sample_context 8 3 false "I've told you once" in
  let s := state ctx in
  ARGUMENTATIVE <> TRANSACTIONAL
  /\ ResolutionNode_run sample_world ctx =
     if payment_received s
     then (Ok SimpleContradictionNode,
           mkRun (set_user_frustration_level 0
                    (set_turn_count 0
                       (set_last_response acceptance
                          (set_payment_received true s))))
                 (S (calls ctx)))
     else (Ok WaitForInput,
           mkRun (set_last_response (refusal (conversation_history s)) s)
                 (S (calls ctx))).
Proof.
  intros ctx s. split; [discriminate|].
  apply (X5_detector_only_for_transactional sample_world ctx ARGUMENTATIVE);
    [vm_compute; reflexivity | discriminate].
Defined.

(** ** Any step, whatever node the graph is at *)

Local Open Scope list_scope.

Ltac drive_cbn :=
  cbn -[graph_context_next Node_run ProcessUserInput_run Qminus Qmult].

Ltac drive_next := rewrite graph_context_next_eq.

Section Drive.

Variable W : Collaborators.

(** [process_input] runs the node the graph is at and then the two that
    follow, and raises where the first of them does. *)
Lemma process_input_drive (user_input : string) (p : Process) :
  GraphSession.is_processing (session p) = false ->
  process_input W user_input p =
  let s0 := fst (after_start p) in
  let n0 := snd (after_start p) in
  match Node_run W n0 (mkRun (set_current_input (Some user_input) s0)
                             (S (outside_calls p))) with
  | (Raise e, ctx1) =>
      (Raise e, settle p (state ctx1) n0 (increment_error (metrics p)) (calls ctx1))
  | (Ok n1, ctx1) =>
      match Node_run W n1 ctx1 with
      | (Raise e, ctx2) =>
          (Raise e, settle p (state ctx2) n1 (increment_error (metrics p))
                           (calls ctx2))
      | (Ok n2, ctx2) =>
          match Node_run W n2 ctx2 with
          | (Raise e, ctx3) =>
              (Raise e, settle p (state ctx3) n2 (increment_error (metrics p))
                               (calls ctx3))
          | (Ok n3, ctx3) =>
              let ms := ((time_time W (calls ctx3) - time_time W (outside_calls p))
                         * 1000)%Q in
              (Ok (match last_response (state ctx3) with
                   | EmptyString => "Good morning! Welcome to the Argument Clinic."
                   | _ => last_response (state ctx3)
                   end, ms, Node_name n2),
               settle p (state ctx3) n3
                      (increment_success (add_response_time ms (metrics p)))
                      (S (calls ctx3)))
          end
      end
  end.
Proof.
  destruct p as [[sid st gc busy created] m c].
  cbn [session GraphSession.is_processing]. intros ->.
  unfold after_start, settle. cbn zeta.
  destruct gc as [[n]|];
    unfold process_input, process_input_try, start_graph, track_response_time,
      now, update_session, update_metrics, GraphSession.set_graph_context,
      GraphSession.set_is_processing, GraphSession.set_state;
    unfold_monad; drive_cbn.
  2: drive_next; change (Node_run W EntryNode) with EntryNode_run;
    unfold EntryNode_run; unfold_monad; drive_cbn.
  all: drive_next;
    destruct (Node_run W _ _) as [[n1|e] [s1 c1]]; drive_cbn; [|reflexivity];
    drive_next;
    destruct (Node_run W n1 _) as [[n2|e] [s2 c2]]; drive_cbn; [|reflexivity];
    drive_next;
    destruct (Node_run W n2 _) as [[n3|e] [s3 c3]]; drive_cbn; reflexivity.
Qed.

End Drive.

Section Invariants.

Variable W : Collaborators.

(** What each node has written when it returns, and the node it hands
    over to. *)
Lemma Node_run_ok_cases (n n' : Node) (ctx ctx' : GraphRunContext) :
  Node_run W n ctx = (Ok n', ctx') ->
  let s := state ctx in
  match n with
  | EntryNode =>
      n' = WaitForInput /\ state ctx' = set_last_response greeting s
  | WaitForInput =>
      n' = ProcessUserInput
      /\ exists x, current_input s = Some x
                   /\ state ctx' = set_conversation_history
                                     (conversation_history s ++ [x]) s
  | ProcessUserInput =>
      (n' = ResolutionNode /\ 8 <= turn_count s /\ state ctx' = s)
      \/ (turn_count s < 8 /\ answering n' = true
          /\ (state ctx' = s
              \/ state ctx' = set_user_frustration_level
                                (user_frustration_level s + 1) s))
  | ResolutionNode =>
      (n' = WaitForInput /\ payment_received s = false
       /\ state ctx' = set_last_response (refusal (conversation_history s)) s)
      \/ (n' = SimpleContradictionNode
          /\ state ctx' = set_user_frustration_level 0
                            (set_turn_count 0
                               (set_last_response acceptance
                                  (set_payment_received true s))))
  | _ =>
      n' = WaitForInput
      /\ exists (answer : string) (new_messages : list ModelMessage),
          state ctx' = set_turn_count (turn_count s + 1)
                         (set_last_response answer
                            (set_arguer_messages
                               (arguer_messages s ++ new_messages) s))
  end.
Proof.
  intros R s. subst s. destruct n; cbn [Node_run] in R.
  - unfold EntryNode_run in R. unfold_monad. injection R as <- <-. auto.
  - unfold WaitForInput_run in R. unfold_monad.
    destruct (current_input (state ctx)) as [x|] eqn:E; [|discriminate].
    injection R as <- <-. split; [reflexivity|]. exists x. auto.
  - apply ProcessUserInput_run_ok in R as [_ [(-> & H8 & Hs) | (H8 & Hn & Hs)]].
    + left. auto.
    + right. split; [exact H8|]. split; [|exact Hs].
      destruct Hn as [-> | [-> | ->]]; reflexivity.
  - apply answer_with_ok in R as (-> & _ & R). auto.
  - apply answer_with_ok in R as (-> & _ & R). auto.
  - apply answer_with_ok in R as (-> & _ & R). auto.
  - destruct (ResolutionNode_run_ok W _ _ _ R) as (i & d & Hc & Hd).
    rewrite (ResolutionNode_run_answered W ctx i d Hc Hd) in R. cbn zeta in R.
    destruct (payment_received (state ctx)), d; cbn in R;
      injection R as <- <-; cbn; auto.
Qed.

(** A property of context and pending node that the setting of the input,
    the start of the graph and every returning node keep is kept by
    [process_input], whether it returns, raises or rejects. *)
Lemma process_input_invariant
  (Q : ArgumentClinicContext -> option Node -> Prop) :
  (forall s g v, Q s g -> Q (set_current_input v s) g) ->
  (forall s, Q s None -> Q s (Some EntryNode)) ->
  (forall n c s n' ctx',
      Q s (Some n) -> Node_run W n (mkRun s c) = (Ok n', ctx') ->
      Q (state ctx') (Some n')) ->
  forall (user_input : string) (p : Process),
    holds Q p -> holds Q (snd (process_input W user_input p)).
Proof.
  intros Hin Hstart Hnode user_input p Hp.
  assert (forall n ctx r ctx',
             Q (state ctx) (Some n) -> Node_run W n ctx = (r, ctx') ->
             match r with
             | Ok n' => Q (state ctx') (Some n')
             | Raise _ => Q (state ctx') (Some n)
             end) as Step.
  { intros n [s c] [n'|e] ctx' HQ R.
    - exact (Hnode n c s n' ctx' HQ R).
    - apply Node_run_raise in R as [-> _]. exact HQ. }
  destruct (GraphSession.is_processing (session p)) eqn:Hbusy.
  - unfold process_input. rewrite Hbusy. exact Hp.
  - rewrite (process_input_drive W user_input p Hbusy). cbn zeta.
    assert (Q (fst (after_start p)) (Some (snd (after_start p)))) as H0.
    { unfold holds, pending in Hp. unfold after_start.
      destruct (GraphSession.graph_context (session p)) as [[n]|]; cbn in *.
      - exact Hp.
      - apply (Hnode EntryNode 0%nat (GraphSession.state (session p))
                 WaitForInput
                 (mkRun (set_last_response greeting
                           (GraphSession.state (session p))) 0%nat)).
        + apply Hstart, Hp.
        + reflexivity. }
    apply (Hin _ _ (Some user_input)) in H0.
    destruct (Node_run W _ _) as [[n1|e] ctx1] eqn:R1.
    2: { exact (Step _ (mkRun _ _) _ _ H0 R1). }
    pose proof (Step _ (mkRun _ _) _ _ H0 R1) as H1. cbv beta iota in H1.
    destruct (Node_run W n1 ctx1) as [[n2|e] ctx2] eqn:R2.
    2: { exact (Step _ _ _ _ H1 R2). }
    pose proof (Step _ _ _ _ H1 R2) as H2. cbv beta iota in H2.
    destruct (Node_run W n2 ctx2) as [[n3|e] ctx3] eqn:R3.
    + exact (Step _ _ _ _ H2 R3).
    + exact (Step _ _ _ _ H2 R3).
Qed.

Lemma process_inputs_invariant
  (Q : ArgumentClinicContext -> option Node -> Prop) :
  (forall s g v, Q s g -> Q (set_current_input v s) g) ->
  (forall s, Q s None -> Q s (Some EntryNode)) ->
  (forall n c s n' ctx',
      Q s (Some n) -> Node_run W n (mkRun s c) = (Ok n', ctx') ->
      Q (state ctx') (Some n')) ->
  forall (inputs : list string) (p : Process),
    holds Q p -> holds Q (process_inputs W inputs p).
Proof.
  intros Hin Hstart Hnode.
  induction inputs as [|i rest IH]; intros p Hp; cbn [process_inputs].
  - exact Hp.
  - apply IH. apply process_input_invariant; assumption.
Qed.

(** X7. The conversation history is only ever appended to: whatever the
    inputs and whatever the agents do, the history before is a prefix of
    the history after. *)
Theorem X7_history_append_only (inputs : list string) (p : Process) :
  exists suffix : list string,
    conversation_history (GraphSession.state (session (process_inputs W inputs p)))
    = conversation_history (GraphSession.state (session p)) ++ suffix.
Proof.
  set (h0 := conversation_history (GraphSession.state (session p))).
  apply (process_inputs_invariant
           (fun s _ => exists suffix, conversation_history s = h0 ++ suffix)).
  - intros s g v H. exact H.
  - intros s H. exact H.
  - intros n c s n' ctx' [suffix Hs] R.
    apply Node_run_ok_cases in R. cbn [state] in R.
    destruct n.
    + destruct R as [_ ->]. exists suffix. exact Hs.
    + destruct R as [_ (x & _ & ->)]. exists (suffix ++ [x]). cbn.
      rewrite Hs. symmetry. apply app_assoc.
    + destruct R as [(_ & _ & ->) | (_ & _ & [-> | ->])];
        exists suffix; exact Hs.
    + destruct R as [_ (a & m & ->)]. exists suffix. exact Hs.
    + destruct R as [_ (a & m & ->)]. exists suffix. exact Hs.
    + destruct R as [_ (a & m & ->)]. exists suffix. exact Hs.
    + destruct R as [(_ & _ & ->) | (_ & ->)]; exists suffix; exact Hs.
  - exists []. symmetry. apply app_nil_r.
Qed.

Lemma counters_in_range_kept (inputs : list string) (p : Process) :
  holds counters_in_range p ->
  holds counters_in_range (process_inputs W inputs p).
Proof.
  apply process_inputs_invariant; unfold counters_in_range.
  - intros s g v H. exact H.
  - intros s (Ht & Hf & _). repeat split; try tauto.
    intros n [= <-]. discriminate.
  - intros n c s n' ctx' (Ht & Hf & Hg) R.
    apply Node_run_ok_cases in R. cbn [state] in R.
    destruct n.
    + destruct R as [-> ->]. cbn. repeat split; try tauto.
      intros n [= <-]. discriminate.
    + destruct R as [-> (x & _ & ->)]. cbn. repeat split; try tauto.
      intros n [= <-]. discriminate.
    + destruct R as [(-> & _ & ->) | (H8 & Hn & [-> | ->])]; cbn;
        repeat split; try tauto; try lia.
      intros n [= <-]. discriminate.
    + destruct R as [-> (a & m & ->)]. cbn.
      specialize (Hg _ eq_refl eq_refl). repeat split; try lia.
      intros n [= <-]. discriminate.
    + destruct R as [-> (a & m & ->)]. cbn.
      specialize (Hg _ eq_refl eq_refl). repeat split; try lia.
      intros n [= <-]. discriminate.
    + destruct R as [-> (a & m & ->)]. cbn.
      specialize (Hg _ eq_refl eq_refl). repeat split; try lia.
      intros n [= <-]. discriminate.
    + destruct R as [(-> & _ & ->) | (-> & ->)]; cbn;
        repeat split; try tauto; try lia.
      intros n [= <-]. discriminate.
Qed.

(** X8. From a new session on, whatever the inputs and whatever the
    agents answer or fail to answer, [turn_count] stays between 0 and 8
    and the frustration level is never negative; an answering node is
    pending only below 8 turns. *)
Theorem X8_turn_count_at_most_eight (sid : string) (inputs : list string) :
  let p := process_inputs W inputs (boot W sid) in
  let s := GraphSession.state (session p) in
  0 <= turn_count s <= 8
  /\ 0 <= user_frustration_level s
  /\ (forall n, pending p = Some n -> answering n = true -> turn_count s < 8).
Proof.
  apply (counters_in_range_kept inputs (boot W sid)).
  unfold holds, counters_in_range. cbn. repeat split; try lia; discriminate.
Qed.

End Invariants.

(** ** The counters of [performance.py] *)

Lemma deque_append_length (n : nat) (d : list Q) (x : Q) :
  (length d <= n)%nat -> (length (deque_append n d x) <= n)%nat.
Proof.
  intros H. unfold deque_append.
  destruct (Nat.ltb n (length (d ++ [x]))) eqn:E.
  - destruct d as [|y d]; cbn in *; [lia|].
    rewrite length_app. cbn. lia.
  - apply Nat.ltb_ge in E. exact E.
Qed.

(** X12. A bounded deque keeps the newest entries: appending to a deque
    that respects its bound gives the last [maxlen] entries of the old
    content followed by the new entry, so the oldest entry is dropped
    exactly when the deque was full. *)
Theorem X12_deque_keeps_newest (maxlen : nat) (d : list Q) (x : Q) :
  (length d <= maxlen)%nat ->
  deque_append maxlen d x = skipn (length d + 1 - maxlen) (d ++ [x])
  /\ (length (deque_append maxlen d x) <= maxlen)%nat
  /\ ((length d < maxlen)%nat -> deque_append maxlen d x = d ++ [x])
  /\ ((length d = maxlen)%nat -> deque_append maxlen d x = tl (d ++ [x])).
Proof.
  intros H. split; [|split; [apply deque_append_length, H | split]].
  - unfold deque_append. rewrite length_app. cbn [length].
    destruct (Nat.ltb maxlen (length d + 1)) eqn:E.
    + apply Nat.ltb_lt in E.
      replace (length d + 1 - maxlen)%nat with 1%nat by lia.
      destruct (d ++ [x]); reflexivity.
    + apply Nat.ltb_ge in E.
      replace (length d + 1 - maxlen)%nat with 0%nat by lia. reflexivity.
  - intros L. unfold deque_append. rewrite length_app. cbn [length].
    destruct (Nat.ltb maxlen (length d + 1)) eqn:E; [|reflexivity].
    apply Nat.ltb_lt in E. lia.
  - intros L. unfold deque_append. rewrite length_app. cbn [length].
    destruct (Nat.ltb maxlen (length d + 1)) eqn:E; [reflexivity|].
    apply Nat.ltb_ge in E. lia.
Qed.

Section Accounting.

Variable W : Collaborators.

(** What one call of [process_input] does to the metrics and to the
    flag. *)
Lemma process_input_metrics (user_input : string) (p : Process) :
  GraphSession.is_processing (session p) = false ->
  GraphSession.is_processing (session (snd (process_input W user_input p))) = false
  /\ match process_input W user_input p with
     | (Ok (_, ms, _), p') =>
         metrics p' = increment_success (add_response_time ms (metrics p))
     | (Raise _, p') => metrics p' = increment_error (metrics p)
     end.
Proof.
  intros Hbusy. rewrite (process_input_drive W user_input p Hbusy). cbn zeta.
  destruct (Node_run W _ _) as [[n1|e] ctx1]; [|split; reflexivity].
  destruct (Node_run W n1 ctx1) as [[n2|e] ctx2]; [|split; reflexivity].
  destruct (Node_run W n2 ctx2) as [[n3|e] ctx3]; split; reflexivity.
Qed.

(** X11. The record of response times never holds more than 100 entries,
    however many inputs are processed. *)
Theorem X11_response_times_bounded (inputs : list string) (p : Process) :
  (length (response_times (metrics p)) <= 100)%nat ->
  (length (response_times (metrics (process_inputs W inputs p))) <= 100)%nat.
Proof.
  revert p. induction inputs as [|i rest IH]; intros p H; cbn [process_inputs].
  - exact H.
  - apply IH.
    destruct (GraphSession.is_processing (session p)) eqn:Hbusy.
    + unfold process_input. rewrite Hbusy. exact H.
    + destruct (process_input_metrics i p Hbusy) as [_ Hm].
      destruct (process_input W i p) as [[[[text ms] node]|e] p1];
        cbn [snd]; rewrite Hm; cbn; [apply deque_append_length|]; exact H.
Qed.

End Accounting.

(** ** Steps of a session that awaits input, by number of turns *)

Section Turns.

Variable W : Collaborators.

Lemma context_at_routing_fields (user_input : string) (p : Process) :
  let s := GraphSession.state (session p) in
  let r := context_at_routing user_input p in
  turn_count r = turn_count s
  /\ user_frustration_level r = user_frustration_level s
  /\ payment_received r = payment_received s
  /\ arguer_messages r = arguer_messages s
  /\ conversation_history r = conversation_history s ++ [user_input]
  /\ current_input r = Some user_input.
Proof.
  unfold context_at_routing. cbn zeta.
  destruct (GraphSession.graph_context (session p)); cbn; repeat split.
Qed.

(** X13. At 8 turns or more the arguer is out of reach.  A step of a
    session that awaits input goes through [ResolutionNode] and nowhere
    else: if it returns, then either the session is still unpaid, the
    text is the refusal for the history with the input appended and the
    counters are untouched, or the session is paid, the text is the
    acceptance, both counters are 0 and the graph is left at
    [SimpleContradictionNode]; if it raises, counters and payment flag are
    untouched.  In no case has a message been added to the arguer's. *)
Theorem X13_gate_blocks_the_arguer (user_input : string) (p : Process) :
  GraphSession.is_processing (session p) = false ->
  awaiting_input p ->
  8 <= turn_count (GraphSession.state (session p)) ->
  let s := GraphSession.state (session p) in
  match process_input W user_input p with
  | (Ok (text, _, node), p') =>
      let s' := GraphSession.state (session p') in
      node = "ResolutionNode"
      /\ arguer_messages s' = arguer_messages s
      /\ ((text = refusal (conversation_history s ++ [user_input])
           /\ payment_received s = false
           /\ payment_received s' = false
           /\ turn_count s' = turn_count s
           /\ user_frustration_level s' = user_frustration_level s
           /\ pending p' = Some WaitForInput)
          \/ (text = acceptance
              /\ payment_received s' = true
              /\ turn_count s' = 0
              /\ user_frustration_level s' = 0
              /\ pending p' = Some SimpleContradictionNode))
  | (Raise e, p') =>
      let s' := GraphSession.state (session p') in
      e = AgentError
      /\ arguer_messages s' = arguer_messages s
      /\ payment_received s' = payment_received s
      /\ turn_count s' = turn_count s
      /\ user_frustration_level s' = user_frustration_level s
  end.
Proof.
  intros Hbusy Haw H8 s. subst s.
  destruct (context_at_routing_fields user_input p)
    as (Ft & Ff & Fp & Fm & Fh & Fi).
  rewrite (process_input_awaiting W user_input p Hbusy Haw). cbn zeta.
  remember (context_at_routing user_input p) as r eqn:Er. clear Er.
  destruct (ProcessUserInput_run W _) as [[n|e] ctx2] eqn:R2.
  - apply ProcessUserInput_run_ok in R2 as [_ R2]. cbn [state] in R2.
    destruct R2 as [(-> & _ & Hs2) | (Hlt & _)]; [|lia].
    destruct (Node_run W ResolutionNode ctx2) as [[n'|e] ctx3] eqn:R3.
    + cbn [Node_run] in R3.
      destruct (ResolutionNode_run_ok W _ _ _ R3) as (i & d & Hc & Hd).
      rewrite (ResolutionNode_run_answered W ctx2 i d Hc Hd) in R3.
      cbn zeta in R3. rewrite Hs2 in R3.
      destruct (ResolutionNode_branch _ _) eqn:B; injection R3 as <- <-;
        cbn [session GraphSession.state state pending option_map next_node
             GraphSession.graph_context Node_name last_response
             set_last_response set_user_frustration_level set_turn_count
             set_payment_received arguer_messages payment_received turn_count
             user_frustration_level].
      * split; [reflexivity|]. split; [exact Fm|]. left.
        assert (payment_received r = false) as Hp.
        { unfold ResolutionNode_branch in B.
          destruct (payment_received r), d; cbn in B; congruence. }
        rewrite Fh.
        pose proof (refusal_not_empty
                      (conversation_history (GraphSession.state (session p))
                       ++ [user_input])) as Hne.
        destruct (refusal _) eqn:E; [congruence|].
        rewrite <- Fp, Hp. repeat split; auto.
      * split; [reflexivity|]. split; [exact Fm|]. right. repeat split.
      * exfalso. unfold ResolutionNode_branch in B.
        destruct (payment_received r), d; cbn in B; discriminate.
    + apply Node_run_raise in R3 as [Hst He].
      cbn [session GraphSession.state]. rewrite Hst, Hs2.
      split; [|auto].
      destruct He as [He|He]; [exact He|]. rewrite Hs2, Fi in He. discriminate.
  - apply ProcessUserInput_run_raise in R2 as [Hst He]. cbn [state] in Hst, He.
    cbn [session GraphSession.state]. rewrite Hst.
    split; [|auto].
    destruct He as [He|He]; [exact He|]. rewrite Fi in He. discriminate.
Qed.

(** Routing on a context that has an input, once the classifier has
    answered. *)
Lemma ProcessUserInput_run_routed (ctx : GraphRunContext) (intent : UserIntent)
  (text : string) :
  current_input (state ctx) = Some text ->
  intention_agent W (calls ctx) (Some text)
                  (recent (conversation_history (state ctx))) = Some intent ->
  ProcessUserInput_run W ctx
  = (Ok (routed_node (state ctx) intent text),
     mkRun (set_user_frustration_level (routed_frustration (state ctx) intent)
                                       (state ctx))
           (S (calls ctx))).
Proof.
  intros Hi Hc.
  rewrite (ProcessUserInput_run_answered W ctx intent).
  2: { rewrite Hi. exact Hc. }
  cbn zeta. rewrite Hi. unfold routed_node, routed_frustration.
  destruct ctx as [s c]. cbn [state calls].
  destruct (8 <=? turn_count s)%Z; [destruct s; reflexivity|].
  destruct intent; try (destruct s; reflexivity).
Qed.

Lemma routed_node_answering (s : ArgumentClinicContext) (intent : UserIntent)
  (text : string) :
  turn_count s < 8 -> answering (routed_node s intent text) = true.
Proof.
  intros Ht. unfold routed_node. apply Z.leb_gt in Ht. rewrite Ht.
  destruct intent; try reflexivity.
  - destruct (_ && _); reflexivity.
  - destruct (contains _ _); reflexivity.
Qed.

Lemma Node_run_answering (n : Node) :
  answering n = true -> Node_run W n = answer_with W (Node_prompt n).
Proof. destruct n; try discriminate; reflexivity. Qed.

(** An answering node that returns has had the classifier's answer and
    then the arguer's, on the prompt built from the intent and the input
    and on the messages kept so far. *)
Lemma answer_with_returns (prompt : UserIntent -> string -> string)
  (ctx ctx' : GraphRunContext) (n : Node) :
  answer_with W prompt ctx = (Ok n, ctx') ->
  let s := state ctx in
  let text := or_empty (current_input s) in
  exists (intent : UserIntent) (answer : string) (new_messages : list ModelMessage),
    intention_agent W (calls ctx) (Some text) (recent (conversation_history s))
      = Some intent
    /\ arguer_agent W (S (calls ctx)) (prompt intent text) (arguer_messages s)
       = Some (answer, new_messages)
    /\ n = WaitForInput
    /\ ctx' = mkRun (set_turn_count (turn_count s + 1)
                       (set_last_response answer
                          (set_arguer_messages (arguer_messages s ++ new_messages)
                             s)))
                    (S (S (calls ctx))).
Proof.
  unfold_nodes. unfold_monad. cbn.
  destruct (intention_agent W _ _ _) as [i|] eqn:Hc; cbn; [|discriminate].
  destruct (arguer_agent W _ _ _) as [[answer msgs]|] eqn:Ha; cbn; [|discriminate].
  intros [= <- <-]. exists i, answer, msgs. repeat split; assumption.
Qed.

(** X14. Below 8 turns a step of a session that awaits input which
    returns has gone through exactly one answering node, the one routing
    chose from the classifier's answer.  That node asked the classifier
    again and then the arguer, with its own prompt for that intent and the
    input and with the messages kept so far; the arguer's answer is what
    [last_response] holds and what the step returns (the welcome line if
    the answer is empty), and the arguer's new messages are appended to
    the kept ones.  The turn is counted once, the input is the new last
    entry of the history, the frustration level is the one routing left,
    the payment flag is untouched and the graph is back at
    [WaitForInput]. *)
Theorem X14_ordinary_step
  (user_input : string) (p p' : Process) (text node : string) (ms : Q) :
  GraphSession.is_processing (session p) = false ->
  awaiting_input p ->
  turn_count (GraphSession.state (session p)) < 8 ->
  process_input W user_input p = (Ok (text, ms, node), p') ->
  let s := GraphSession.state (session p) in
  let s' := GraphSession.state (session p') in
  let c := outside_calls p in
  let history := conversation_history s ++ [user_input] in
  exists (routed intent : UserIntent) (answer : string)
         (new_messages : list ModelMessage),
    let n := routed_node s routed user_input in
    intention_agent W (S c) (Some user_input) (recent history) = Some routed
    /\ intention_agent W (S (S c)) (Some user_input) (recent history) = Some intent
    /\ arguer_agent W (S (S (S c))) (Node_prompt n intent user_input)
                    (arguer_messages s) = Some (answer, new_messages)
    /\ answering n = true
    /\ node = Node_name n
    /\ text = match answer with
              | EmptyString => "Good morning! Welcome to the Argument Clinic."
              | _ => answer
              end
    /\ last_response s' = answer
    /\ arguer_messages s' = arguer_messages s ++ new_messages
    /\ turn_count s' = turn_count s + 1
    /\ conversation_history s' = history
    /\ user_frustration_level s' = routed_frustration s routed
    /\ payment_received s' = payment_received s
    /\ current_input s' = Some user_input
    /\ pending p' = Some WaitForInput.
Proof.
  intros Hbusy Haw Ht R.
  destruct (context_at_routing_fields user_input p)
    as (Ft & Ff & Fp & Fm & Fh & Fi).
  cbn zeta in Ft, Ff, Fp, Fm, Fh, Fi.
  rewrite (process_input_awaiting W user_input p Hbusy Haw) in R. cbn zeta in R.
  cbn zeta.
  assert (forall i, routed_node (context_at_routing user_input p) i user_input
                    = routed_node (GraphSession.state (session p)) i user_input)
    as Hnode.
  { intros i. unfold routed_node. rewrite Ft, Ff. reflexivity. }
  assert (forall i, routed_frustration (context_at_routing user_input p) i
                    = routed_frustration (GraphSession.state (session p)) i)
    as Hfr.
  { intros i. unfold routed_frustration. rewrite Ft, Ff. reflexivity. }
  remember (context_at_routing user_input p) as r eqn:Er. clear Er.
  destruct (intention_agent W (S (outside_calls p)) (Some user_input)
              (recent (conversation_history r))) as [routed|] eqn:Hc1.
  2: { rewrite (ProcessUserInput_run_unanswered W (mkRun r (S (outside_calls p))))
         in R; [discriminate|].
       cbn [state calls]. rewrite Fi. exact Hc1. }
  rewrite (ProcessUserInput_run_routed (mkRun r (S (outside_calls p))) routed
             user_input Fi Hc1) in R.
  cbn [state calls] in R. rewrite Hnode, Hfr in R.
  pose proof (routed_node_answering (GraphSession.state (session p)) routed
                user_input Ht) as Hans.
  rewrite (Node_run_answering _ Hans) in R.
  destruct (answer_with W _ _) as [[n'|e] ctx3] eqn:R3; [|discriminate].
  injection R as <- <- <- <-.
  apply answer_with_returns in R3. cbn zeta in R3. cbn [state calls] in R3.
  destruct R3 as (intent & answer & msgs & Hc2 & Ha & -> & ->).
  cbn [current_input set_user_frustration_level or_empty conversation_history
       arguer_messages] in Hc2, Ha.
  rewrite Fi in Hc2, Ha. cbn [or_empty] in Hc2, Ha.
  rewrite Fh in Hc1, Hc2. rewrite Fm in Ha.
  exists routed, intent, answer, msgs.
  cbn [session GraphSession.state pending option_map next_node
       GraphSession.graph_context state].
  split; [exact Hc1|]. split; [exact Hc2|]. split; [exact Ha|].
  split; [exact Hans|]. split; [reflexivity|].
  cbn. rewrite Ft, Fp, Fm, Fh, Fi. repeat split.
Qed.

End Turns.

(** ** Steps of a task that may be cancelled *)

Lemma increment_error_inj (m1 m2 : PerformanceMetrics) :
  increment_error m1 = increment_error m2 -> m1 = m2.
Proof.
  destruct m1, m2. unfold increment_error. cbn.
  intros [= -> H -> -> ->]. f_equal. lia.
Qed.

(** A node that raises because an agent call did has made that call
    last. *)
Lemma Node_run_raise_last_call (W : Collaborators) (n : Node)
  (ctx ctx' : GraphRunContext) :
  Node_run W n ctx = (Raise AgentError, ctx') ->
  exists k : nat, calls ctx' = S k /\ agent_raised W k.
Proof.
  unfold agent_raised.
  destruct n; cbn [Node_run]; unfold_nodes; unfold_monad; cbn.
  - discriminate.
  - destruct (current_input (state ctx)); discriminate.
  - destruct (intention_agent W _ _ _) as [i|] eqn:Hc; cbn.
    + destruct (8 <=? _)%Z; [discriminate|].
      destruct (UserIntent_eqb i META); cbn.
      * destruct (current_input (state ctx)); cbn; [|discriminate].
        destruct (contains _ _); [discriminate|].
        destruct (UserIntent_eqb i ARGUMENTATIVE); cbn; [|discriminate].
        destruct (_ && _)%bool; discriminate.
      * destruct (UserIntent_eqb i ARGUMENTATIVE); cbn; [|discriminate].
        destruct (_ && _)%bool; discriminate.
    + intros [= <-]. cbn. eexists. split; [reflexivity|]. left. eauto.
  - destruct (intention_agent W _ _ _) as [i|] eqn:Hc; cbn.
    + destruct (arguer_agent W _ _ _) as [r|] eqn:Ha; cbn; [discriminate|].
      intros [= <-]. cbn. eexists. split; [reflexivity|]. right. right. eauto.
    + intros [= <-]. cbn. eexists. split; [reflexivity|]. left. eauto.
  - destruct (intention_agent W _ _ _) as [i|] eqn:Hc; cbn.
    + destruct (arguer_agent W _ _ _) as [r|] eqn:Ha; cbn; [discriminate|].
      intros [= <-]. cbn. eexists. split; [reflexivity|]. right. right. eauto.
    + intros [= <-]. cbn. eexists. split; [reflexivity|]. left. eauto.
  - destruct (intention_agent W _ _ _) as [i|] eqn:Hc; cbn.
    + destruct (arguer_agent W _ _ _) as [r|] eqn:Ha; cbn; [discriminate|].
      intros [= <-]. cbn. eexists. split; [reflexivity|]. right. right. eauto.
    + intros [= <-]. cbn. eexists. split; [reflexivity|]. left. eauto.
  - destruct (intention_agent W _ _ _) as [i|] eqn:Hc; cbn.
    + destruct (UserIntent_eqb i TRANSACTIONAL); cbn.
      * destruct (payment_agent W _ _) as [d|] eqn:Hp; cbn.
        -- destruct (ResolutionNode_branch _ _); discriminate.
        -- intros [= <-]. cbn. eexists. split; [reflexivity|]. right. left. eauto.
      * destruct (ResolutionNode_branch _ _); discriminate.
    + intros [= <-]. cbn. eexists. split; [reflexivity|]. left. eauto.
Qed.

Section TaskFacts.

Variable W : Collaborators.
Variable cancelled : nat -> bool.

(** When a step raises because an agent call did, that call is the last
    outside call made: the one [interrupted] asks about. *)
Lemma process_input_raise_last_call (user_input : string) (p p' : Process) :
  process_input W user_input p = (Raise AgentError, p') ->
  exists k : nat, outside_calls p' = S k /\ agent_raised W k.
Proof.
  intros H.
  assert (GraphSession.is_processing (session p) = false) as Hbusy.
  { destruct (GraphSession.is_processing (session p)) eqn:E; [|reflexivity].
    unfold process_input in H. rewrite E in H. discriminate. }
  rewrite (process_input_drive W user_input p Hbusy) in H. cbn zeta in H.
  destruct (Node_run W _ _) as [[n1|e1] ctx1] eqn:R1.
  - destruct (Node_run W n1 ctx1) as [[n2|e2] ctx2] eqn:R2.
    + destruct (Node_run W n2 ctx2) as [[n3|e3] ctx3] eqn:R3; [discriminate|].
      injection H as -> <-. exact (Node_run_raise_last_call W _ _ _ R3).
    + injection H as -> <-. exact (Node_run_raise_last_call W _ _ _ R2).
  - injection H as -> <-. exact (Node_run_raise_last_call W _ _ _ R1).
Qed.

(** A step seen by its task is the step of [process_input], except that
    a raise that is a cancellation has not been counted as an error. *)
Lemma process_input_task_eq (user_input : string) (p : Process) :
  GraphSession.is_processing (session p) = false ->
  process_input_task W cancelled user_input p =
  match process_input W user_input p with
  | (Ok v, p') => (Returned v, p')
  | (Raise e, p') =>
      if interrupted cancelled e p'
      then (Cancellation, mkProcess (session p') (metrics p) (outside_calls p'))
      else (Raised e, p')
  end.
Proof.
  intros Hbusy.
  pose proof (process_input_metrics W user_input p Hbusy) as [_ Hm].
  unfold process_input_task, process_input in *. rewrite Hbusy in *.
  destruct ((start_time <- now W ;; process_input_try W start_time user_input) p)
    as [[v|e] p1]; [reflexivity|].
  cbn [metrics] in Hm. apply increment_error_inj in Hm.
  unfold interrupted. cbn [outside_calls session metrics].
  destruct e; try reflexivity.
  destruct (cancelled _); [|reflexivity]. rewrite Hm. reflexivity.
Qed.

(** X9. Every step that is not rejected is counted at most once: a step
    that returns adds one to [success_count] and its time to
    [response_times]; a step that raises an Exception adds one to
    [error_count] and records no time; a step in which the task is
    cancelled -- in an agent call, the last call the step made -- is
    counted neither way and leaves the metrics as they were.
    [session_count] is never touched, and the flag is clear again in all
    three cases. *)
Theorem X9_step_counted_at_most_once (user_input : string) (p : Process) :
  GraphSession.is_processing (session p) = false ->
  let m := metrics p in
  match process_input_task W cancelled user_input p with
  | (Returned (_, ms, _), p') =>
      success_count (metrics p') = success_count m + 1
      /\ error_count (metrics p') = error_count m
      /\ response_times (metrics p') = deque_append 100 (response_times m) ms
      /\ session_count (metrics p') = session_count m
      /\ GraphSession.is_processing (session p') = false
  | (Raised e, p') =>
      interrupted cancelled e p' = false
      /\ success_count (metrics p') = success_count m
      /\ error_count (metrics p') = error_count m + 1
      /\ response_times (metrics p') = response_times m
      /\ session_count (metrics p') = session_count m
      /\ GraphSession.is_processing (session p') = false
  | (Cancellation, p') =>
      (exists k : nat,
          outside_calls p' = S k /\ agent_raised W k /\ cancelled k = true)
      /\ metrics p' = m
      /\ GraphSession.is_processing (session p') = false
  end.
Proof.
  intros Hbusy m. subst m.
  rewrite (process_input_task_eq user_input p Hbusy).
  destruct (process_input_metrics W user_input p Hbusy) as [Hflag Hm].
  destruct (process_input W user_input p) as [[[[text ms] node]|e] p'] eqn:R;
    cbn [snd] in Hflag.
  - rewrite Hm. cbn. repeat split; auto.
  - destruct (interrupted cancelled e p') eqn:Hi.
    + cbn [metrics session outside_calls].
      split; [|split; [reflexivity | exact Hflag]].
      unfold interrupted in Hi. destruct e; try discriminate.
      destruct (process_input_raise_last_call user_input p p' R) as (k & Hk & Ha).
      exists k. rewrite Hk in Hi. cbn [pred] in Hi. auto.
    + rewrite Hm. cbn. repeat split; auto.
Qed.

Lemma process_input_task_flag (user_input : string) (p : Process) :
  GraphSession.is_processing (session p) = false ->
  GraphSession.is_processing
    (session (snd (process_input_task W cancelled user_input p))) = false.
Proof.
  intros Hbusy. rewrite (process_input_task_eq user_input p Hbusy).
  destruct (process_input_metrics W user_input p Hbusy) as [Hflag _].
  destruct (process_input W user_input p) as [[v|e] p']; cbn [snd] in *;
    [exact Hflag|].
  destruct (interrupted cancelled e p'); exact Hflag.
Qed.

(** X10. A task gives a list of inputs, one after the other, to a session
    that is not busy.  As long as it is not cancelled every input is
    counted once, as a success or as an error; a step in which it is
    cancelled is counted neither way and is its last.  So successes and
    errors together have grown by the number of steps before the
    cancellation, which is the number of inputs if there was none and less
    if there was one; the flag is clear at the end. *)
Theorem X10_every_finished_step_counted (inputs : list string) (p : Process) :
  GraphSession.is_processing (session p) = false ->
  let '(n, stopped, p') := process_inputs_task W cancelled inputs p in
  success_count (metrics p') + error_count (metrics p')
    = success_count (metrics p) + error_count (metrics p) + Z.of_nat n
  /\ (if stopped then (n < length inputs)%nat else n = length inputs)
  /\ session_count (metrics p') = session_count (metrics p)
  /\ GraphSession.is_processing (session p') = false.
Proof.
  revert p. induction inputs as [|i rest IH]; intros p Hbusy.
  - cbn. repeat split; auto; lia.
  - cbn [process_inputs_task length].
    pose proof (Hflag := process_input_task_flag i p Hbusy).
    pose proof (process_input_task_eq i p Hbusy) as E.
    destruct (process_input_metrics W i p Hbusy) as [_ Hm].
    destruct (process_input W i p) as [[[[text ms] node]|e] p1].
    + rewrite E in *. cbn [snd] in Hflag.
      specialize (IH p1 Hflag).
      destruct (process_inputs_task W cancelled rest p1) as [[n stopped] p''].
      destruct IH as (IH1 & IH2 & IH3 & IH4).
      rewrite Hm in IH1, IH3. cbn in IH1, IH3.
      repeat split; auto; [lia|]. destruct stopped; lia.
    + destruct (interrupted cancelled e p1) eqn:Hi; rewrite E in *;
        cbn [snd] in Hflag.
      * cbn [metrics session]. repeat split; auto; lia.
      * specialize (IH p1 Hflag).
        destruct (process_inputs_task W cancelled rest p1) as [[n stopped] p''].
        destruct IH as (IH1 & IH2 & IH3 & IH4).
        rewrite Hm in IH1, IH3. cbn in IH1, IH3.
        repeat split; auto; [lia|]. destruct stopped; lia.
Qed.

End TaskFacts.

(** When no task is ever cancelled, a step seen by its task is the step
    of [process_input]. *)
Lemma process_input_task_never_cancelled
  (W : Collaborators) (user_input : string) (p : Process) :
  process_input_task W never_cancelled user_input p =
  match process_input W user_input p with
  | (Ok v, p') => (Returned v, p')
  | (Raise e, p') => (Raised e, p')
  end.
Proof.
  destruct (GraphSession.is_processing (session p)) eqn:Hbusy.
  - unfold process_input_task, process_input. rewrite Hbusy. reflexivity.
  - rewrite (process_input_task_eq W never_cancelled user_input p Hbusy).
    destruct (process_input W user_input p) as [[v|e] p']; [reflexivity|].
    destruct e; reflexivity.
Qed.

Lemma X9_step_counted_at_most_once_witness :
  let p := boot generator_down "session" in
  let m := metrics p in
  GraphSession.is_processing (session p) = false
  /\ match process_input_task generator_down (cancelled_in 4) "Yes it is" p with
     | (Returned (_, ms, _), p') =>
         success_count (metrics p') = success_count m + 1
         /\ error_count (metrics p') = error_count m
         /\ response_times (metrics p') = deque_append 100 (response_times m) ms
         /\ session_count (metrics p') = session_count m
         /\ GraphSession.is_processing (session p') = false
     | (Raised e, p') =>
         interrupted (cancelled_in 4) e p' = false
         /\ success_count (metrics p') = success_count m
         /\ error_count (metrics p') = error_count m + 1
         /\ response_times (metrics p') = response_times m
         /\ session_count (metrics p') = session_count m
         /\ GraphSession.is_processing (session p') = false
     | (Cancellation, p') =>
         (exists k : nat,
             outside_calls p' = S k /\ agent_raised generator_down k
             /\ cancelled_in 4 k = true)
         /\ metrics p' = m
         /\ GraphSession.is_processing (session p') = false
     end.
Proof.
  intros p m. split; [reflexivity|].
  apply (X9_step_counted_at_most_once generator_down (cancelled_in 4)
           "Yes it is" p).
  reflexivity.
Defined.

Lemma X10_every_finished_step_counted_witness :
  let p := boot sample_world "session" in
  GraphSession.is_processing (session p) = false
  /\ let '(n, stopped, p') :=
       process_inputs_task sample_world never_cancelled eight_inputs p in
     success_count (metrics p') + error_count (metrics p')
       = success_count (metrics p) + error_count (metrics p) + Z.of_nat n
     /\ (if stopped then (n < length eight_inputs)%nat
         else n = length eight_inputs)
     /\ session_count (metrics p') = session_count (metrics p)
     /\ GraphSession.is_processing (session p') = false.
Proof.
  intros p. split; [reflexivity|].
  apply (X10_every_finished_step_counted sample_world never_cancelled
           eight_inputs p).
  reflexivity.
Defined.

(** The first step of a session whose task is cancelled while the
    generator is asked: the step is counted neither as a success nor as
    an error, and the flag is clear. *)
Lemma cancelled_step_not_counted :
  let p := boot generator_down "session" in
  exists p' : Process,
    process_input_task generator_down (cancelled_in 4) "Yes it is" p
      = (Cancellation, p')
    /\ metrics p' = metrics p
    /\ GraphSession.is_processing (session p') = false
    /\ error_count (metrics (snd (process_input generator_down "Yes it is" p))) = 1.
Proof.
  vm_compute. eexists. repeat split.
Qed.

Lemma X11_response_times_bounded_witness :
  let p := boot sample_world "session" in
  (length (response_times (metrics p)) <= 100)%nat
  /\ (length (response_times (metrics (process_inputs sample_world eight_inputs p)))
      <= 100)%nat.
Proof.
  intros p. split; [cbn; lia|].
  apply (X11_response_times_bounded sample_world eight_inputs p). cbn; lia.
Defined.

Lemma X12_deque_keeps_newest_witness :
  let d := [1%Q; 2%Q] in
  (length d <= 2)%nat
  /\ deque_append 2 d 3%Q = skipn (length d + 1 - 2) (d ++ [3%Q])
  /\ (length (deque_append 2 d 3%Q) <= 2)%nat
  /\ ((length d < 2)%nat -> deque_append 2 d 3%Q = d ++ [3%Q])
  /\ ((length d = 2)%nat -> deque_append 2 d 3%Q = tl (d ++ [3%Q])).
Proof.
  intros d. split; [cbn; lia|].
  apply (X12_deque_keeps_newest 2 d 3%Q). cbn; lia.
Defined.

Lemma X13_gate_blocks_the_arguer_witness :
  let p := after_eight never_paid in
  let s := GraphSession.state (session p) in
  (GraphSession.is_processing (session p) = false
   /\ awaiting_input p
   /\ 8 <= turn_count s)
  /\ match process_input never_paid "Yes it is" p with
     | (Ok (text, _, node), p') =>
         let s' := GraphSession.state (session p') in
         node = "ResolutionNode"
         /\ arguer_messages s' = arguer_messages s
         /\ ((text = refusal (conversation_history s ++ ["Yes it is"])
              /\ payment_received s = false
              /\ payment_received s' = false
              /\ turn_count s' = turn_count s
              /\ user_frustration_level s' = user_frustration_level s
              /\ pending p' = Some WaitForInput)
             \/ (text = acceptance
                 /\ payment_received s' = true
                 /\ turn_count s' = 0
                 /\ user_frustration_level s' = 0
                 /\ pending p' = Some SimpleContradictionNode))
     | (Raise e, p') =>
         let s' := GraphSession.state (session p') in
         e = AgentError
         /\ arguer_messages s' = arguer_messages s
         /\ payment_received s' = payment_received s
         /\ turn_count s' = turn_count s
         /\ user_frustration_level s' = user_frustration_level s
     end.
Proof.
  intros p s. split.
  - split; [vm_compute; reflexivity|].
    split; [right; vm_compute; reflexivity | vm_compute; discriminate].
  - apply (X13_gate_blocks_the_arguer never_paid "Yes it is" p);
      [vm_compute; reflexivity | right; vm_compute; reflexivity
      | vm_compute; discriminate].
Defined.

Lemma X14_ordinary_step_witness :
  let p := boot sample_world "session" in
  let s := GraphSession.state (session p) in
  let s' := GraphSession.state (session first_step) in
  let c := outside_calls p in
  let history := conversation_history s ++ ["Yes it is"] in
  (GraphSession.is_processing (session p) = false
   /\ awaiting_input p
   /\ turn_count s < 8
   /\ process_input sample_world "Yes it is" p
      = (Ok ("No it isn't!", 4000%Q, "SimpleContradictionNode"), first_step))
  /\ exists (routed intent : UserIntent) (answer : string)
            (new_messages : list ModelMessage),
      let n := routed_node s routed "Yes it is" in
      intention_agent sample_world (S c) (Some "Yes it is") (recent history)
        = Some routed
      /\ intention_agent sample_world (S (S c)) (Some "Yes it is") (recent history)
         = Some intent
      /\ arguer_agent sample_world (S (S (S c)))
                      (Node_prompt n intent "Yes it is") (arguer_messages s)
         = Some (answer, new_messages)
      /\ answering n = true
      /\ "SimpleContradictionNode" = Node_name n
      /\ "No it isn't!" = match answer with
                          | EmptyString =>
                              "Good morning! Welcome to the Argument Clinic."
                          | _ => answer
                          end
      /\ last_response s' = answer
      /\ arguer_messages s' = arguer_messages s ++ new_messages
      /\ turn_count s' = turn_count s + 1
      /\ conversation_history s' = history
      /\ user_frustration_level s' = routed_frustration s routed
      /\ payment_received s' = payment_received s
      /\ current_input s' = Some "Yes it is"
      /\ pending first_step = Some WaitForInput.
Proof.
  intros p s s' c history. split.
  - split; [reflexivity|]. split; [left; reflexivity|].
    split; [vm_compute; reflexivity | vm_compute; reflexivity].
  - apply (X14_ordinary_step sample_world "Yes it is" p first_step
             "No it isn't!" "SimpleContradictionNode" 4000%Q);
      [reflexivity | left; reflexivity | vm_compute; reflexivity
      | vm_compute; reflexivity].
Defined.

(** ** The session manager and its timers *)

Module SessionManagerFacts.

Import SessionManager.

Local Open Scope nat_scope.

Ltac map_simpl :=
  repeat first
    [ rewrite stdpp.fin_maps.lookup_insert_eq
    | rewrite stdpp.fin_maps.lookup_delete_eq
    | rewrite stdpp.fin_maps.lookup_insert_ne by congruence
    | rewrite stdpp.fin_maps.lookup_delete_ne by congruence ].

Lemma lookup_snoc_old {A : Type} (l : list A) (x y : A) (i : nat) :
  lookup i l = Some y -> lookup i (l ++ [x])%list = Some y.
Proof. apply stdpp.list_basics.list.lookup_app_l_Some. Qed.

Lemma lookup_snoc_new {A : Type} (l : list A) (x : A) :
  lookup (length l) (l ++ [x])%list = Some x.
Proof. apply stdpp.list_basics.list.list_lookup_middle. reflexivity. Qed.

Lemma lookup_set_other {A : Type} (l : list A) (x : A) (i j : nat) :
  i <> j -> lookup j (insert i x l) = lookup j l.
Proof. apply stdpp.list_basics.list.list_lookup_insert_ne. Qed.

Lemma lookup_set_same {A : Type} (l : list A) (x y : A) (i : nat) :
  lookup i l = Some y -> lookup i (insert i x l) = Some x.
Proof.
  intros H. apply stdpp.list_basics.list.list_lookup_insert_eq.
  apply (stdpp.list_basics.list.lookup_lt_Some _ _ _ H).
Qed.

(** Two timers of different sessions are different tasks. *)
Lemma timers_differ (s : t) (a b : string) (h k : nat) :
  timers_match s ->
  lookup a (session_timeouts s) = Some h ->
  lookup b (session_timeouts s) = Some k ->
  a <> b -> h <> k.
Proof.
  intros [_ H2] Ha Hb Hne ->.
  apply H2 in Ha. apply H2 in Hb. congruence.
Qed.

Lemma create_session_keeps (session_id : string) (now : Q) (s : t) :
  timers_match s -> timers_match (snd (create_session session_id now s)).
Proof.
  destruct s as [A T K M]. intros [H1 H2]. cbn in H1, H2.
  unfold create_session, create_task. cbn. split; cbn.
  - intros sid. destruct (string_dec session_id sid) as [<-|Hne]; map_simpl.
    + split; discriminate.
    + apply H1.
  - intros sid h. destruct (string_dec session_id sid) as [<-|Hne]; map_simpl.
    + intros [= <-]. apply lookup_snoc_new.
    + intros H. apply lookup_snoc_old, H2, H.
Qed.

Lemma reset_timeout_keeps (session_id : string) (s : t) :
  timers_match s -> timers_match (reset_timeout session_id s).
Proof.
  intros Hs. pose proof Hs as [H1 H2].
  destruct s as [A T K M]. cbn in H1, H2.
  unfold reset_timeout. cbn.
  destruct (lookup session_id T) as [h|] eqn:Hh; [|exact Hs].
  pose proof (H2 _ _ Hh) as Hk.
  unfold cancel. cbn. rewrite Hk. cbn. split; cbn.
  - intros sid. destruct (string_dec session_id sid) as [<-|Hne]; map_simpl.
    + split; [|discriminate]. intros HA. apply H1 in HA. congruence.
    + apply H1.
  - intros sid k. destruct (string_dec session_id sid) as [<-|Hne]; map_simpl.
    + intros [= <-]. apply lookup_snoc_new.
    + intros H. apply lookup_snoc_old.
      rewrite lookup_set_other; [apply H2, H|].
      apply (timers_differ (mk A T K M) session_id sid); auto.
Qed.

Lemma cleanup_session_keeps (session_id : string) (s : t) :
  timers_match s -> timers_match (cleanup_session session_id s).
Proof.
  intros Hs. pose proof Hs as [H1 H2].
  destruct s as [A T K M]. cbn in H1, H2.
  unfold cleanup_session. cbn.
  destruct (lookup session_id T) as [h|] eqn:Hh.
  - pose proof (H2 _ _ Hh) as Hk.
    assert (match lookup session_id A with
            | Some _ => mk (delete session_id A) T K M
            | None => mk A T K M
            end = mk (delete session_id A) T K M) as ->.
    { destruct (lookup session_id A) eqn:E; [reflexivity|].
      apply H1 in E. congruence. }
    cbn. rewrite Hh. unfold cancel. cbn. rewrite Hk. cbn. split; cbn.
    + intros sid. destruct (string_dec session_id sid) as [<-|Hne]; map_simpl.
      * tauto.
      * apply H1.
    + intros sid k. destruct (string_dec session_id sid) as [<-|Hne]; map_simpl.
      * discriminate.
      * intros H. rewrite lookup_set_other; [apply H2, H|].
        apply (timers_differ (mk A T K M) session_id sid); auto.
  - assert (lookup session_id A = None) as -> by (apply H1, Hh).
    cbn. rewrite Hh. exact Hs.
Qed.

Lemma wake_keeps (h : nat) (s : t) :
  timers_match s -> timers_match (wake h s).
Proof.
  intros Hs. pose proof Hs as [H1 H2].
  destruct s as [A T K M]. cbn in H1, H2.
  unfold wake. cbn.
  destruct (lookup h K) as [[sid0 [| |]]|] eqn:Hk; try exact Hs.
  unfold _cleanup_after_timeout. cbn.
  assert (forall sid k, sid <> sid0 -> lookup sid T = Some k ->
                        lookup k (insert h (mkTask sid0 Finished) K)
                        = Some (mkTask sid Sleeping)) as Hother.
  { intros sid k Hne H. rewrite lookup_set_other; [apply H2, H|].
    intros <-. apply H2 in H. congruence. }
  destruct (lookup sid0 A) eqn:EA; cbn;
    destruct (lookup sid0 T) eqn:ET; cbn; split; cbn.
  - intros sid. destruct (string_dec sid0 sid) as [<-|Hne]; map_simpl.
    + tauto.
    + apply H1.
  - intros sid k. destruct (string_dec sid0 sid) as [<-|Hne]; map_simpl.
    + discriminate.
    + apply Hother. congruence.
  - apply H1 in ET. congruence.
  - apply H1 in ET. congruence.
  - apply H1 in EA. congruence.
  - apply H1 in EA. congruence.
  - exact H1.
  - intros sid k H. apply Hother; [|exact H]. congruence.
Qed.

Lemma run_keeps (events : list Event) (s : t) :
  timers_match s -> timers_match (run events s).
Proof.
  revert s. induction events as [|e rest IH]; intros s Hs; cbn [run].
  - exact Hs.
  - apply IH. destruct e; cbn [step].
    + apply create_session_keeps, Hs.
    + apply reset_timeout_keeps, Hs.
    + apply cleanup_session_keeps, Hs.
    + apply wake_keeps, Hs.
Qed.

(** X15. Whatever connections, messages, disconnections and timer
    wake-ups a new manager goes through, a session is in
    [active_sessions] exactly when it has an entry in [session_timeouts],
    and that entry is a task for this very session that has neither run
    nor been cancelled. *)
Theorem X15_sessions_and_timers_agree (events : list Event) :
  let s := run events new in
  (forall session_id : string,
      lookup session_id (active_sessions s) = None
      <-> lookup session_id (session_timeouts s) = None)
  /\ (forall (session_id : string) (h : nat),
        lookup session_id (session_timeouts s) = Some h ->
        lookup h (tasks s) = Some (mkTask session_id Sleeping)).
Proof.
  apply (run_keeps events new). split; cbn.
  - intros sid. rewrite !stdpp.fin_maps.lookup_empty. tauto.
  - intros sid h. rewrite stdpp.fin_maps.lookup_empty. discriminate.
Qed.

(** X16. A message restarts the countdown.  After [reset_timeout] on a
    session that has a timer, the session has a new timer, still asleep;
    the old one is cancelled, so that waking it changes nothing; and
    [active_sessions] is as it was. *)
Theorem X16_reset_timeout_cancels_old_timer
  (session_id : string) (h : nat) (s : t) :
  timers_match s ->
  lookup session_id (session_timeouts s) = Some h ->
  let s' := reset_timeout session_id s in
  active_sessions s' = active_sessions s
  /\ lookup session_id (session_timeouts s') = Some (length (tasks s))
  /\ lookup (length (tasks s)) (tasks s') = Some (mkTask session_id Sleeping)
  /\ lookup h (tasks s') = Some (mkTask session_id Cancelled)
  /\ wake h s' = s'.
Proof.
  intros [H1 H2] Hh. pose proof (H2 _ _ Hh) as Hk.
  destruct s as [A T K M]. cbn in *.
  unfold reset_timeout. cbn. rewrite Hh. unfold cancel. cbn. rewrite Hk. cbn.
  assert (lookup h (insert h (mkTask session_id Cancelled) K ++
                    [mkTask session_id Sleeping])%list
          = Some (mkTask session_id Cancelled)) as Hc.
  { apply lookup_snoc_old. apply (lookup_set_same _ _ _ _ Hk). }
  rewrite <- (stdpp.list_basics.list.length_insert K h
                (mkTask session_id Cancelled)).
  split; [reflexivity|]. split; [map_simpl; reflexivity|].
  split; [apply lookup_snoc_new|].
  split; [exact Hc|].
  unfold wake. cbn. rewrite Hc. reflexivity.
Qed.

(** X17. When the loop wakes the timer of a session, the session is
    removed from both dicts and the task is finished; no other session
    and no other timer is touched, and there is one active session
    less. *)
Theorem X17_timeout_removes_the_session
  (session_id : string) (h : nat) (s : t) :
  timers_match s ->
  lookup session_id (session_timeouts s) = Some h ->
  let s' := wake h s in
  lookup session_id (active_sessions s') = None
  /\ lookup session_id (session_timeouts s') = None
  /\ lookup h (tasks s') = Some (mkTask session_id Finished)
  /\ (forall other : string,
        other <> session_id ->
        lookup other (active_sessions s') = lookup other (active_sessions s)
        /\ lookup other (session_timeouts s') = lookup other (session_timeouts s))
  /\ get_active_count s' = pred (get_active_count s).
Proof.
  intros [H1 H2] Hh. pose proof (H2 _ _ Hh) as Hk.
  destruct s as [A T K M]. cbn in *.
  unfold wake. cbn. rewrite Hk. unfold _cleanup_after_timeout. cbn.
  destruct (lookup session_id A) as [g|] eqn:EA.
  2: { apply H1 in EA. congruence. }
  cbn. rewrite Hh. cbn. unfold get_active_count. cbn.
  split; [map_simpl; reflexivity|]. split; [map_simpl; reflexivity|].
  split; [apply (lookup_set_same _ _ _ _ Hk)|]. split.
  - intros other Hne. map_simpl. split; reflexivity.
  - apply stdpp.fin_maps.map_size_delete_Some. rewrite EA. eexists. reflexivity.
Qed.

(** X18. [cleanup_session] removes the session from both dicts and
    touches no other entry of either, nor the metrics, nor the number of
    tasks.  On a session that is in neither dict it changes nothing at
    all; hence doing it twice is doing it once. *)
Theorem X18_cleanup_session_idempotent (session_id : string) (s : t) :
  let s' := cleanup_session session_id s in
  lookup session_id (active_sessions s') = None
  /\ lookup session_id (session_timeouts s') = None
  /\ (forall other : string,
        other <> session_id ->
        lookup other (active_sessions s') = lookup other (active_sessions s)
        /\ lookup other (session_timeouts s') = lookup other (session_timeouts s))
  /\ metrics s' = metrics s
  /\ length (tasks s') = length (tasks s)
  /\ (lookup session_id (active_sessions s) = None ->
      lookup session_id (session_timeouts s) = None ->
      s' = s)
  /\ cleanup_session session_id s' = s'.
Proof.
  destruct s as [A T K M]. cbn zeta.
  assert (lookup session_id (active_sessions (cleanup_session session_id (mk A T K M)))
          = None
          /\ lookup session_id
               (session_timeouts (cleanup_session session_id (mk A T K M))) = None
          /\ forall other : string,
              other <> session_id ->
              lookup other (active_sessions (cleanup_session session_id (mk A T K M)))
              = lookup other A
              /\ lookup other
                   (session_timeouts (cleanup_session session_id (mk A T K M)))
                 = lookup other T) as (HA & HT & Hother).
  { unfold cleanup_session, cancel. cbn.
    destruct (lookup session_id A) eqn:EA; cbn;
      destruct (lookup session_id T) as [h|] eqn:ET; cbn;
      try (destruct (lookup h K) as [[sid0 [| |]]|]; cbn);
      repeat split; intros; map_simpl; auto. }
  assert (forall u : t,
             lookup session_id (active_sessions u) = None ->
             lookup session_id (session_timeouts u) = None ->
             cleanup_session session_id u = u) as Hunknown.
  { intros u H1 H2. unfold cleanup_session. rewrite H1. cbn zeta. rewrite H2.
    reflexivity. }
  split; [exact HA|]. split; [exact HT|]. split; [exact Hother|].
  split.
  { unfold cleanup_session, cancel. cbn.
    destruct (lookup session_id A); cbn;
      destruct (lookup session_id T) as [h|]; cbn;
      try (destruct (lookup h K) as [[sid0 [| |]]|]; cbn); reflexivity. }
  split.
  { unfold cleanup_session, cancel. cbn.
    destruct (lookup session_id A); cbn;
      destruct (lookup session_id T) as [h|]; cbn;
      try (destruct (lookup h K) as [[sid0 [| |]]|]; cbn);
      rewrite ?stdpp.list_basics.list.length_insert; reflexivity. }
  split; [apply Hunknown|].
  apply Hunknown; assumption.
Qed.

(** X19. A disconnected session's timer never fires: after
    [cleanup_session] the task that was its timer is cancelled, and
    waking it changes nothing. *)
Theorem X19_cleanup_session_cancels_timer
  (session_id : string) (h : nat) (s : t) :
  timers_match s ->
  lookup session_id (session_timeouts s) = Some h ->
  let s' := cleanup_session session_id s in
  lookup h (tasks s') = Some (mkTask session_id Cancelled)
  /\ wake h s' = s'
  /\ get_active_count s' = pred (get_active_count s).
Proof.
  intros [H1 H2] Hh. pose proof (H2 _ _ Hh) as Hk.
  destruct s as [A T K M]. cbn in *.
  unfold cleanup_session. cbn.
  destruct (lookup session_id A) as [g|] eqn:EA.
  2: { apply H1 in EA. congruence. }
  cbn. rewrite Hh. unfold cancel. cbn. rewrite Hk. cbn.
  pose proof (lookup_set_same K (mkTask session_id Cancelled) _ h Hk) as Hc.
  split; [exact Hc|]. split.
  - unfold wake. cbn. rewrite Hc. reflexivity.
  - unfold get_active_count. cbn.
    apply stdpp.fin_maps.map_size_delete_Some. rewrite EA. eexists. reflexivity.
Qed.

(** X20. [create_session] with an identifier not in use returns a
    session that is not processing, unpaid, with empty history and no
    graph started; it is then the session found under that identifier,
    with a sleeping timer of its own; there is one active session more,
    one session more has been counted, and no other session is
    touched. *)
Theorem X20_create_session_registers
  (session_id : string) (now : Q) (s : t) :
  lookup session_id (active_sessions s) = None ->
  let session := fst (create_session session_id now s) in
  let s' := snd (create_session session_id now s) in
  session = GraphSession.init session_id now
  /\ lookup session_id (active_sessions s') = Some session
  /\ lookup session_id (session_timeouts s') = Some (length (tasks s))
  /\ lookup (length (tasks s)) (tasks s') = Some (mkTask session_id Sleeping)
  /\ get_active_count s' = S (get_active_count s)
  /\ session_count (metrics s') = (session_count (metrics s) + 1)%Z
  /\ (forall other : string,
        other <> session_id ->
        lookup other (active_sessions s') = lookup other (active_sessions s)
        /\ lookup other (session_timeouts s') = lookup other (session_timeouts s)).
Proof.
  intros Hfresh. destruct s as [A T K M]. cbn in *.
  unfold create_session, create_task, get_active_count. cbn.
  split; [reflexivity|]. split; [map_simpl; reflexivity|].
  split; [map_simpl; reflexivity|]. split; [apply lookup_snoc_new|].
  split; [apply stdpp.fin_maps.map_size_insert_None, Hfresh|].
  split; [reflexivity|].
  intros other Hne. map_simpl. split; reflexivity.
Qed.

Lemma step_keeps_no_stray (e : Event) (s : t) :
  match e with
  | Connect session_id _ => lookup session_id (active_sessions s) = None
  | _ => True
  end ->
  timers_match s -> no_stray_timer s -> no_stray_timer (step e s).
Proof.
  intros Hfresh Hs Hn. pose proof Hs as [H1 H2].
  destruct s as [A T K M]. unfold no_stray_timer in *. cbn in H1, H2, Hn.
  destruct e as [sid now|sid|sid|h0]; cbn [step].
  - cbn in Hfresh. apply H1 in Hfresh.
    unfold create_session, create_task. cbn. intros h sid' Hl.
    apply stdpp.list_basics.list.lookup_snoc_Some in Hl
      as [[_ Hl] | [-> [= <-]]].
    + pose proof (Hn _ _ Hl) as Ht.
      rewrite stdpp.fin_maps.lookup_insert_ne; [exact Ht|]. congruence.
    + map_simpl. reflexivity.
  - unfold reset_timeout. cbn.
    destruct (lookup sid T) as [h0|] eqn:Hh; [|exact Hn].
    pose proof (H2 _ _ Hh) as Hk. unfold cancel. cbn. rewrite Hk. cbn.
    intros h sid' Hl.
    apply stdpp.list_basics.list.lookup_snoc_Some in Hl
      as [[_ Hl] | [Hlen [= <-]]].
    + destruct (Nat.eq_dec h0 h) as [<-|Hne].
      * rewrite (lookup_set_same _ _ _ _ Hk) in Hl. discriminate.
      * rewrite lookup_set_other in Hl by exact Hne.
        pose proof (Hn _ _ Hl) as Ht.
        rewrite stdpp.fin_maps.lookup_insert_ne; [exact Ht|]. congruence.
    + subst h. map_simpl. reflexivity.
  - unfold cleanup_session. cbn.
    destruct (lookup sid T) as [h0|] eqn:Hh.
    + pose proof (H2 _ _ Hh) as Hk.
      destruct (lookup sid A) eqn:EA; cbn; rewrite Hh; unfold cancel; cbn;
        rewrite Hk; cbn; intros h sid' Hl;
        (destruct (Nat.eq_dec h0 h) as [<-|Hne];
         [ rewrite (lookup_set_same _ _ _ _ Hk) in Hl; discriminate
         | rewrite lookup_set_other in Hl by exact Hne;
           pose proof (Hn _ _ Hl) as Ht;
           rewrite stdpp.fin_maps.lookup_delete_ne; [exact Ht|]; congruence ]).
    + destruct (lookup sid A) eqn:EA.
      * apply H1 in Hh. congruence.
      * cbn. rewrite Hh. exact Hn.
  - unfold wake. cbn.
    destruct (lookup h0 K) as [[sid0 [| |]]|] eqn:Hk; try exact Hn.
    pose proof (Hn _ _ Hk) as Ht0.
    unfold _cleanup_after_timeout. cbn.
    destruct (lookup sid0 A) eqn:EA; cbn; rewrite Ht0; cbn; intros h sid' Hl;
      (destruct (Nat.eq_dec h0 h) as [<-|Hne];
       [ rewrite (lookup_set_same _ _ _ _ Hk) in Hl; discriminate
       | rewrite lookup_set_other in Hl by exact Hne;
         pose proof (Hn _ _ Hl) as Ht;
         rewrite stdpp.fin_maps.lookup_delete_ne; [exact Ht|]; congruence ]).
Qed.

Lemma step_keeps (e : Event) (s : t) : timers_match s -> timers_match (step e s).
Proof.
  intros Hs. destruct e; cbn [step].
  - apply create_session_keeps, Hs.
  - apply reset_timeout_keeps, Hs.
  - apply cleanup_session_keeps, Hs.
  - apply wake_keeps, Hs.
Qed.

(** X21. As long as every connection draws an identifier that is not in
    use, no timer is left behind: every task still asleep is the timer
    that [session_timeouts] holds for its session.  A timer that fires is
    therefore always the latest one set for a session that is still
    active. *)
Theorem X21_no_timer_left_behind (events : list Event) :
  fresh_connections events new ->
  let s := run events new in
  forall (h : nat) (session_id : string),
    lookup h (tasks s) = Some (mkTask session_id Sleeping) ->
    lookup session_id (session_timeouts s) = Some h
    /\ lookup session_id (active_sessions s) <> None.
Proof.
  assert (forall s, timers_match s -> no_stray_timer s ->
                    fresh_connections events s ->
                    timers_match (run events s) /\ no_stray_timer (run events s))
    as Gen.
  { induction events as [|e rest IH]; intros s Hs Hn Hf; cbn [run].
    - split; assumption.
    - destruct Hf as [Hf1 Hf2]. apply IH; [| |exact Hf2].
      + apply step_keeps, Hs.
      + apply step_keeps_no_stray; assumption. }
  intros Hfresh.
  assert (timers_match new) as Hnew.
  { split; cbn.
    - intros sid. rewrite !stdpp.fin_maps.lookup_empty. tauto.
    - intros sid h. rewrite stdpp.fin_maps.lookup_empty. discriminate. }
  assert (no_stray_timer new) as Hnone.
  { intros h sid. cbn. destruct h; discriminate. }
  destruct (Gen new Hnew Hnone Hfresh) as [[H1 H2] Hn].
  cbn zeta. intros h sid Hl. pose proof (Hn _ _ Hl) as Ht.
  split; [exact Ht|]. intros HA. apply H1 in HA. congruence.
Qed.

Lemma timers_match_new : timers_match new.
Proof.
  split; cbn.
  - intros sid. rewrite !stdpp.fin_maps.lookup_empty. tauto.
  - intros sid h. rewrite stdpp.fin_maps.lookup_empty. discriminate.
Qed.

Lemma timers_match_sample : timers_match sample.
Proof. apply run_keeps, timers_match_new. Qed.

Lemma X16_reset_timeout_cancels_old_timer_witness :
  let s' := reset_timeout "second" sample in
  (timers_match sample
   /\ lookup "second" (session_timeouts sample) = Some 1)
  /\ active_sessions s' = active_sessions sample
  /\ lookup "second" (session_timeouts s') = Some (length (tasks sample))
  /\ lookup (length (tasks sample)) (tasks s')
     = Some (mkTask "second" Sleeping)
  /\ lookup 1 (tasks s') = Some (mkTask "second" Cancelled)
  /\ wake 1 s' = s'.
Proof.
  intros s'. split.
  - split; [exact timers_match_sample | vm_compute; reflexivity].
  - apply (X16_reset_timeout_cancels_old_timer "second" 1 sample);
      [exact timers_match_sample | vm_compute; reflexivity].
Defined.

Lemma X17_timeout_removes_the_session_witness :
  let s' := wake 1 sample in
  (timers_match sample
   /\ lookup "second" (session_timeouts sample) = Some 1)
  /\ lookup "second" (active_sessions s') = None
  /\ lookup "second" (session_timeouts s') = None
  /\ lookup 1 (tasks s') = Some (mkTask "second" Finished)
  /\ (forall other : string,
        other <> "second" ->
        lookup other (active_sessions s') = lookup other (active_sessions sample)
        /\ lookup other (session_timeouts s')
           = lookup other (session_timeouts sample))
  /\ get_active_count s' = pred (get_active_count sample).
Proof.
  intros s'. split.
  - split; [exact timers_match_sample | vm_compute; reflexivity].
  - apply (X17_timeout_removes_the_session "second" 1 sample);
      [exact timers_match_sample | vm_compute; reflexivity].
Defined.

Lemma X18_cleanup_session_idempotent_witness :
  lookup "third" (active_sessions sample) = None
  /\ lookup "third" (session_timeouts sample) = None
  /\ cleanup_session "third" sample = sample
  /\ lookup "first" (active_sessions (cleanup_session "first" sample)) = None
  /\ cleanup_session "first" (cleanup_session "first" sample)
     = cleanup_session "first" sample.
Proof.
  assert (lookup "third" (active_sessions sample) = None) as H1
    by (vm_compute; reflexivity).
  assert (lookup "third" (session_timeouts sample) = None) as H2
    by (vm_compute; reflexivity).
  split; [exact H1|]. split; [exact H2|]. split.
  - destruct (X18_cleanup_session_idempotent "third" sample)
      as (_ & _ & _ & _ & _ & H & _).
    exact (H H1 H2).
  - destruct (X18_cleanup_session_idempotent "first" sample)
      as (H & _ & _ & _ & _ & _ & H').
    split; [exact H | exact H'].
Defined.

Lemma X19_cleanup_session_cancels_timer_witness :
  let s' := cleanup_session "first" sample in
  (timers_match sample
   /\ lookup "first" (session_timeouts sample) = Some 2)
  /\ lookup 2 (tasks s') = Some (mkTask "first" Cancelled)
  /\ wake 2 s' = s'
  /\ get_active_count s' = pred (get_active_count sample).
Proof.
  intros s'. split.
  - split; [exact timers_match_sample | vm_compute; reflexivity].
  - apply (X19_cleanup_session_cancels_timer "first" 2 sample);
      [exact timers_match_sample | vm_compute; reflexivity].
Defined.

Lemma X20_create_session_registers_witness :
  let session := fst (create_session "third" 5%Q sample) in
  let s' := snd (create_session "third" 5%Q sample) in
  lookup "third" (active_sessions sample) = None
  /\ session = GraphSession.init "third" 5%Q
  /\ lookup "third" (active_sessions s') = Some session
  /\ lookup "third" (session_timeouts s') = Some (length (tasks sample))
  /\ lookup (length (tasks sample)) (tasks s') = Some (mkTask "third" Sleeping)
  /\ get_active_count s' = S (get_active_count sample)
  /\ session_count (metrics s') = (session_count (metrics sample) + 1)%Z
  /\ (forall other : string,
        other <> "third" ->
        lookup other (active_sessions s') = lookup other (active_sessions sample)
        /\ lookup other (session_timeouts s')
           = lookup other (session_timeouts sample)).
Proof.
  intros session s'. split; [vm_compute; reflexivity|].
  apply (X20_create_session_registers "third" 5%Q sample).
  vm_compute; reflexivity.
Defined.

Lemma X21_no_timer_left_behind_witness :
  let events := [Connect "first" 0%Q; Connect "second" 1%Q; Message "first";
                 Wake 0; Disconnect "second"] in
  let s := run events new in
  fresh_connections events new
  /\ forall (h : nat) (session_id : string),
      lookup h (tasks s) = Some (mkTask session_id Sleeping) ->
      lookup session_id (session_timeouts s) = Some h
      /\ lookup session_id (active_sessions s) <> None.
Proof.
  intros events s.
  assert (fresh_connections events new) as Hfresh.
  { cbn [fresh_connections events]. repeat split; vm_compute; reflexivity. }
  split; [exact Hfresh|].
  apply (X21_no_timer_left_behind events Hfresh).
Defined.

End SessionManagerFacts.

(** ** The transcription validator *)

Local Open Scope string_scope.

Lemma append_cons (c : ascii) (a b : string) :
  String c a ++ b = String c (a ++ b).
Proof. reflexivity. Qed.

Lemma append_empty (b : string) : "" ++ b = b.
Proof. reflexivity. Qed.

Lemma lstrip_blank (pad s : string) :
  blank pad = true -> lstrip (pad ++ s) = lstrip s.
Proof.
  induction pad as [|c pad IH]; intros H.
  - reflexivity.
  - cbn [blank] in H. apply andb_prop in H as [Hc Hp].
    rewrite append_cons. cbn [lstrip]. rewrite Hc. apply IH, Hp.
Qed.

Lemma rstrip_blank_only (pad : string) : blank pad = true -> rstrip pad = "".
Proof.
  induction pad as [|c pad IH]; intros H; [reflexivity|].
  cbn [blank] in H. apply andb_prop in H as [Hc Hp].
  cbn [rstrip]. rewrite (IH Hp), Hc. reflexivity.
Qed.

Lemma rstrip_blank (s pad : string) :
  blank pad = true -> rstrip (s ++ pad) = rstrip s.
Proof.
  intros H. induction s as [|c s IH].
  - rewrite append_empty. apply rstrip_blank_only, H.
  - rewrite append_cons. cbn [rstrip]. rewrite IH. reflexivity.
Qed.

Lemma strip_padding (before text rest : string) :
  blank before = true -> blank rest = true ->
  strip (before ++ text ++ rest) = strip text.
Proof.
  intros Hb Hr. unfold strip. rewrite (lstrip_blank _ _ Hb).
  induction text as [|c text IH].
  - rewrite append_empty.
    replace (lstrip rest) with (lstrip (rest ++ ""))
      by (f_equal; induction rest as [|d r IHr];
          [reflexivity | rewrite append_cons; f_equal; apply IHr;
                         cbn [blank] in Hr; apply andb_prop in Hr; tauto]).
    rewrite (lstrip_blank _ _ Hr). reflexivity.
  - rewrite append_cons. cbn [lstrip].
    destruct (isspace c); [exact IH|].
    rewrite <- append_cons. apply rstrip_blank, Hr.
Qed.

Lemma lstrip_length (s : string) : (String.length (lstrip s) <= String.length s)%nat.
Proof.
  induction s as [|c s IH]; cbn [lstrip]; [apply Nat.le_refl|].
  destruct (isspace c); cbn [String.length]; lia.
Qed.

Lemma rstrip_length (s : string) : (String.length (rstrip s) <= String.length s)%nat.
Proof.
  induction s as [|c s IH]; cbn [rstrip]; [apply Nat.le_refl|].
  destruct (rstrip s); [destruct (isspace c)|]; cbn [String.length] in *; lia.
Qed.

(** What [is_valid] tests, the empty text included. *)
Lemma is_valid_strip (text : string) :
  is_valid text =
  Nat.leb 2 (String.length (strip text))
  && negb (existsb (String.eqb (strip text)) INVALID_PATTERNS).
Proof. destruct text; reflexivity. Qed.

(** X22. White space around a transcription does not count: a text is
    valid exactly when the same text with blanks before and after it
    is. *)
Theorem X22_is_valid_ignores_padding (before text rest : string) :
  blank before = true -> blank rest = true ->
  is_valid (before ++ text ++ rest) = is_valid text.
Proof.
  intros Hb Hr. rewrite !is_valid_strip, (strip_padding _ _ _ Hb Hr).
  reflexivity.
Qed.

(** X23. What is never valid: a text of fewer than two characters, a
    text of white space only, and each of the five listed patterns,
    however it is padded with white space. *)
Theorem X23_never_valid (before text rest : string) :
  blank before = true -> blank rest = true ->
  (String.length text < 2)%nat \/ blank text = true \/ In text INVALID_PATTERNS ->
  is_valid (before ++ text ++ rest) = false.
Proof.
  intros Hb Hr H. rewrite is_valid_strip, (strip_padding _ _ _ Hb Hr).
  destruct H as [H | [H | H]].
  - apply andb_false_intro1. apply Nat.leb_gt.
    unfold strip. pose proof (rstrip_length (lstrip text)).
    pose proof (lstrip_length text). lia.
  - unfold strip.
    replace (lstrip text) with (lstrip (text ++ ""))
      by (f_equal; clear; induction text as [|d r IHr];
          [reflexivity | rewrite append_cons; f_equal; apply IHr]).
    rewrite (lstrip_blank _ _ H). reflexivity.
  - cbn in H. repeat (destruct H as [<- | H]; [reflexivity|]). contradiction.
Qed.

Lemma X22_is_valid_ignores_padding_witness :
  let before := String (ascii_of_nat 10) " " in
  let rest := String (ascii_of_nat 160) (String (ascii_of_nat 9) "") in
  (blank before = true /\ blank rest = true)
  /\ is_valid (before ++ "No it isn't" ++ rest) = is_valid "No it isn't".
Proof.
  intros before rest. split; [split; reflexivity|].
  apply (X22_is_valid_ignores_padding before "No it isn't" rest); reflexivity.
Defined.

Lemma X23_never_valid_witness :
  let rest := String (ascii_of_nat 10) "" in
  (blank " " = true /\ blank rest = true
   /\ ((String.length "Thank you." < 2)%nat \/ blank "Thank you." = true
       \/ In "Thank you." INVALID_PATTERNS))
  /\ is_valid (" " ++ "Thank you." ++ rest) = false.
Proof.
  intros rest.
  assert (In "Thank you." INVALID_PATTERNS) as Hin
    by (right; right; left; reflexivity).
  split; [split; [reflexivity | split; [reflexivity | right; right; exact Hin]]|].
  apply (X23_never_valid " " "Thank you." rest);
    [reflexivity | reflexivity | right; right; exact Hin].
Defined.

(** ** The voice service *)

Section Voice.

Variable self : VoiceService.

(** X24. Transcription tries OpenAI and then Google, and nobody else: the
    text returned is OpenAI's if OpenAI is configured and answers, else
    Google's if Google is configured and answers, else there is none (in
    particular when no provider is available).  A provider that raises
    is passed over; ElevenLabs is never asked. *)
Theorem X24_transcription_order (audio_data : list Byte.byte) (audio_format : string) :
  let ask := attempt self (fun provider => transcribe provider audio_data audio_format) in
  transcribe_audio self audio_data audio_format
    = match ask OPENAI with
      | Some text => Some text
      | None => ask GOOGLE
      end
  /\ (is_available self = false ->
      transcribe_audio self audio_data audio_format = None)
  /\ (forall other : VoiceService,
        config other = config self ->
        providers other OPENAI = providers self OPENAI ->
        providers other GOOGLE = providers self GOOGLE ->
        transcribe_audio other audio_data audio_format
        = transcribe_audio self audio_data audio_format).
Proof.
  cbn zeta. unfold transcribe_audio, attempt, stt_providers. cbn [try_providers].
  split; [|split].
  - destruct (providers self OPENAI) as [p|];
      [destruct (transcribe p _ _); [reflexivity|]|];
      (destruct (providers self GOOGLE) as [q|];
       [destruct (transcribe q _ _); reflexivity | reflexivity]).
  - unfold is_available. cbn [existsb].
    destruct (providers self OPENAI); [discriminate|].
    destruct (providers self ELEVENLABS); [discriminate|].
    destruct (providers self GOOGLE); [discriminate|]. reflexivity.
  - intros other _ -> ->. reflexivity.
Qed.

(** X25. Synthesis tries ElevenLabs, then Google, then OpenAI, with the
    voice asked for, or the configured default voice when none or the
    empty one is asked for.  The audio returned is that of the first
    provider in this order that is configured and answers; there is none
    exactly when every configured provider raises. *)
Theorem X25_synthesis_order (text : string) (voice_id : option string) :
  let voice := match voice_id with
               | None => default_voice_id (config self)
               | Some v => if String.eqb v "" then default_voice_id (config self)
                           else v
               end in
  let ask := attempt self (fun provider => synthesize provider text voice (config self)) in
  (forall audio : list Byte.byte,
      synthesize_speech self text voice_id = Some audio <->
      ask ELEVENLABS = Some audio
      \/ (ask ELEVENLABS = None /\ ask GOOGLE = Some audio)
      \/ (ask ELEVENLABS = None /\ ask GOOGLE = None /\ ask OPENAI = Some audio))
  /\ (synthesize_speech self text voice_id = None <->
      ask ELEVENLABS = None /\ ask GOOGLE = None /\ ask OPENAI = None).
Proof.
  cbn zeta.
  assert (match voice_id with
          | Some (String c v) => String c v
          | _ => default_voice_id (config self)
          end
          = match voice_id with
            | None => default_voice_id (config self)
            | Some v => if String.eqb v "" then default_voice_id (config self)
                        else v
            end) as Ev.
  { destruct voice_id as [[|c v]|]; reflexivity. }
  unfold synthesize_speech. rewrite Ev. clear Ev.
  set (voice := match voice_id with
                | None => default_voice_id (config self)
                | Some v => if String.eqb v "" then default_voice_id (config self)
                            else v
                end).
  unfold attempt, tts_providers. cbn [try_providers].
  destruct (providers self ELEVENLABS) as [e|];
    [destruct (synthesize e text voice (config self))|];
    (destruct (providers self GOOGLE) as [g|];
     [destruct (synthesize g text voice (config self))|]);
    (destruct (providers self OPENAI) as [o|];
     [destruct (synthesize o text voice (config self))|]);
    split; try (intros audio); split; intros H;
    repeat match goal with
           | H : _ \/ _ |- _ => destruct H
           | H : _ /\ _ |- _ => destruct H
           end;
    try discriminate; try congruence; auto 10.
Qed.

End Voice.

Lemma X24_transcription_order_witness :
  let ask := attempt sample_voice (fun provider => transcribe provider [] "webm") in
  transcribe_audio sample_voice [] "webm"
    = match ask OPENAI with
      | Some text => Some text
      | None => ask GOOGLE
      end
  /\ (is_available sample_voice = false ->
      transcribe_audio sample_voice [] "webm" = None)
  /\ (forall other : VoiceService,
        config other = config sample_voice ->
        providers other OPENAI = providers sample_voice OPENAI ->
        providers other GOOGLE = providers sample_voice GOOGLE ->
        transcribe_audio other [] "webm" = transcribe_audio sample_voice [] "webm").
Proof. exact (X24_transcription_order sample_voice [] "webm"). Defined.

Lemma X25_synthesis_order_witness :
  synthesize_speech sample_voice "No it isn't!" (Some "")
  = Some (list_byte_of_string "A5TM08C95NDSq8Seg1Rk").
Proof.
  destruct (X25_synthesis_order sample_voice "No it isn't!" (Some "")) as [H _].
  apply H. right. left. split; reflexivity.
Defined.

(** ** The handler of a connection *)

Local Open Scope list_scope.

Section HandlerFacts.

Variable W : Collaborators.
Variable cancelled : nat -> bool.
Variable send_cancelled : nat -> bool.
Variable voice_service : VoiceService.
Variable b64encode : list Byte.byte -> string.
Variable b64decode : string -> string + list Byte.byte.
Variable round2 : Q -> Q.
Variable str_of_exception : Exn -> string.

(** X26. A text message gets exactly one reply unless the task is
    cancelled in the step, and then none.  If the step returns -- also
    when it is rejected because the session is busy -- the reply is an
    [ai_response] with the text and node name of the step and the turn
    count and payment flag of the session after it; if the step raises an
    Exception, the reply is an [error] whose text starts with
    "Processing failed: "; if the task is cancelled in the step, nothing
    is handed to the socket and the cancellation leaves the handler.  The
    handler itself runs to its end unless the task is cancelled, in the
    step or while the reply is sent.  The engine is left as the step
    leaves it. *)
Theorem X26_text_input_reply (data : Inbound) (c : Connection) :
  let h := _handle_text_input W cancelled send_cancelled voice_service b64encode
                              round2 str_of_exception data c in
  let sending (c' : Connection) :=
    if send_cancelled (length (sent c)) then Escaped c' else Completed c' in
  match process_input_task W cancelled (content data) (process c) with
  | (Returned (text, ms, node), p) =>
      exists fields : AiResponse,
        h = sending (mkConnection p (sent c ++ [ai_response_message fields]))
        /\ ai_content fields = text
        /\ ai_current_node fields = node
        /\ ai_response_time_ms fields = round2 ms
        /\ ai_turn_count fields = turn_count (GraphSession.state (session p))
        /\ ai_payment_received fields
           = payment_received (GraphSession.state (session p))
        /\ ai_session_id fields = GraphSession.session_id (session p)
        /\ ai_is_voice fields = false
        /\ ai_transcribed_text fields = None
  | (Raised e, p) =>
      h = sending
            (mkConnection p
               (sent c
                ++ [error_message
                      ("Processing failed: " ++ str_of_exception e)%string
                      (GraphSession.session_id (session p))]))
  | (Cancellation, p) => h = Escaped (mkConnection p (sent c))
  end.
Proof.
  cbn zeta. unfold _handle_text_input.
  destruct (process_input_task W cancelled (content data) (process c))
    as [[[[text ms] node]|e|] p].
  - unfold _send_ai_response, _send_raw_message. cbn [process sent].
    eexists. split; [reflexivity|]. cbn. repeat split.
  - reflexivity.
  - reflexivity.
Qed.

(** X27. A transcription that is missing, empty or not valid never
    reaches the engine: when the audio decodes and the voice service
    returns no text, or a text that [is_valid] rejects, the handler runs
    to its end, nothing is sent and the session, the metrics and the graph
    are untouched. *)
Theorem X27_invalid_transcription_dropped
  (data : Inbound) (c : Connection) (audio : list Byte.byte) :
  b64decode (audio_data data) = inr audio ->
  match transcribe_audio voice_service audio "webm" with
  | Some text => is_valid text = false
  | None => True
  end ->
  _handle_voice_input W cancelled send_cancelled voice_service b64encode b64decode
                      round2 str_of_exception data c = Completed c.
Proof.
  intros Hd Ht. unfold _handle_voice_input. rewrite Hd.
  destruct (transcribe_audio voice_service audio "webm") as [[|a t]|];
    [reflexivity | | reflexivity].
  rewrite Ht. reflexivity.
Qed.

(** X28. A valid transcription is echoed first: the [transcription]
    message is handed to the socket before the engine is asked.  If the
    task is cancelled while the echo is sent, the step is not run and the
    session is untouched.  Otherwise the transcribed text is handled as a
    text message would be: the step is followed by exactly one more
    message, an [ai_response] marked as voice and carrying the transcribed
    text if the step returns, an [error] whose text starts with
    "Voice processing failed: " if it raises an Exception; if the task is
    cancelled in the step, nothing follows the echo and the cancellation
    leaves the handler. *)
Theorem X28_valid_transcription_processed
  (data : Inbound) (c : Connection) (audio : list Byte.byte) (text : string) :
  b64decode (audio_data data) = inr audio ->
  transcribe_audio voice_service audio "webm" = Some text ->
  is_valid text = true ->
  let h := _handle_voice_input W cancelled send_cancelled voice_service b64encode
                               b64decode round2 str_of_exception data c in
  let echo := transcription_message
                text (GraphSession.session_id (session (process c))) in
  let sending (c' : Connection) :=
    if send_cancelled (S (length (sent c))) then Escaped c' else Completed c' in
  if send_cancelled (length (sent c)) then
    h = Escaped (mkConnection (process c) (sent c ++ [echo]))
  else
    match process_input_task W cancelled text (process c) with
    | (Returned (answer, ms, node), p) =>
        exists fields : AiResponse,
          h = sending (mkConnection p
                         (sent c ++ [echo; ai_response_message fields]))
          /\ ai_content fields = answer
          /\ ai_current_node fields = node
          /\ ai_response_time_ms fields = round2 ms
          /\ ai_is_voice fields = true
          /\ ai_transcribed_text fields = Some text
          /\ ai_turn_count fields = turn_count (GraphSession.state (session p))
          /\ ai_payment_received fields
             = payment_received (GraphSession.state (session p))
    | (Raised e, p) =>
        h = sending
              (mkConnection p
                 (sent c
                  ++ [echo;
                      error_message
                        ("Voice processing failed: " ++ str_of_exception e)%string
                        (GraphSession.session_id (session p))]))
    | (Cancellation, p) => h = Escaped (mkConnection p (sent c ++ [echo]))
    end.
Proof.
  intros Hd Ht Hv. cbn zeta. unfold _handle_voice_input. rewrite Hd, Ht.
  destruct text as [|a t]; [discriminate Hv|]. rewrite Hv.
  unfold _send_transcription, _send_ai_response, _send_error, _send_raw_message.
  cbn [process sent].
  destruct (send_cancelled (length (sent c))); [reflexivity|].
  cbn [process sent].
  destruct (process_input_task W cancelled (String a t) (process c))
    as [[[[answer ms] node]|e|] p].
  - cbn [process sent].
    rewrite length_app, Nat.add_1_r. cbn [length]. rewrite <- app_assoc.
    eexists. split; [reflexivity|]. cbn. repeat split.
  - cbn [process sent].
    rewrite length_app, Nat.add_1_r. cbn [length]. rewrite <- app_assoc.
    reflexivity.
  - reflexivity.
Qed.

End HandlerFacts.

Lemma X27_invalid_transcription_dropped_witness :
  let data := mkInbound (Some "voice_input") "" "GkXfo59ChoEB" in
  (sample_b64decode (audio_data data) = inr (list_byte_of_string "GkXfo59ChoEB")
   /\ match transcribe_audio no_voice (list_byte_of_string "GkXfo59ChoEB") "webm" with
      | Some text => is_valid text = false
      | None => True
      end)
  /\ _handle_voice_input sample_world never_cancelled never_cancelled no_voice
                         sample_b64encode sample_b64decode (fun q => q) sample_str
                         data sample_connection
     = Completed sample_connection.
Proof.
  intros data. split; [split; [reflexivity | exact I]|].
  apply (X27_invalid_transcription_dropped sample_world never_cancelled
           never_cancelled no_voice sample_b64encode sample_b64decode
           (fun q => q) sample_str data sample_connection
           (list_byte_of_string "GkXfo59ChoEB"));
    [reflexivity | exact I].
Defined.

Lemma X28_valid_transcription_processed_witness :
  let data := mkInbound (Some "voice_input") "" "GkXfo59ChoEB" in
  let audio := list_byte_of_string "GkXfo59ChoEB" in
  let c := sample_connection in
  let h := _handle_voice_input sample_world never_cancelled never_cancelled
                               sample_voice sample_b64encode sample_b64decode
                               (fun q => q) sample_str data c in
  let echo := transcription_message
                "Yes it is" (GraphSession.session_id (session (process c))) in
  let sending (c' : Connection) :=
    if never_cancelled (S (length (sent c))) then Escaped c' else Completed c' in
  (sample_b64decode (audio_data data) = inr audio
   /\ transcribe_audio sample_voice audio "webm" = Some "Yes it is"
   /\ is_valid "Yes it is" = true)
  /\ if never_cancelled (length (sent c)) then
       h = Escaped (mkConnection (process c) (sent c ++ [echo]))
     else
       match process_input_task sample_world never_cancelled "Yes it is"
                                (process c) with
       | (Returned (answer, ms, node), p) =>
           exists fields : AiResponse,
             h = sending (mkConnection p
                            (sent c ++ [echo; ai_response_message fields]))
             /\ ai_content fields = answer
             /\ ai_current_node fields = node
             /\ ai_response_time_ms fields = (fun q => q) ms
             /\ ai_is_voice fields = true
             /\ ai_transcribed_text fields = Some "Yes it is"
             /\ ai_turn_count fields = turn_count (GraphSession.state (session p))
             /\ ai_payment_received fields
                = payment_received (GraphSession.state (session p))
       | (Raised e, p) =>
           h = sending
                 (mkConnection p
                    (sent c
                     ++ [echo;
                         error_message
                           ("Voice processing failed: " ++ sample_str e)%string
                           (GraphSession.session_id (session p))]))
       | (Cancellation, p) => h = Escaped (mkConnection p (sent c ++ [echo]))
       end.
Proof.
  intros data audio c h echo sending. split.
  - split; [reflexivity|]. split; vm_compute; reflexivity.
  - apply (X28_valid_transcription_processed sample_world never_cancelled
             never_cancelled sample_voice sample_b64encode sample_b64decode
             (fun q => q) sample_str data c audio "Yes it is");
      [reflexivity | vm_compute; reflexivity | vm_compute; reflexivity].
Defined.

(** A text message whose step is cancelled while the generator is asked:
    nothing is sent, the cancellation leaves the handler, and the error
    is not counted. *)
Lemma cancelled_text_input_unanswered :
  let c := mkConnection (boot generator_down "session") [] in
  exists p : Process,
    _handle_text_input generator_down (cancelled_in 4) never_cancelled sample_voice
                       sample_b64encode (fun q => q) sample_str
                       (mkInbound (Some "user_input") "Yes it is" "") c
    = Escaped (mkConnection p [])
    /\ error_count (metrics p) = 0
    /\ GraphSession.is_processing (session p) = false.
Proof.
  vm_compute. eexists. repeat split.
Qed.

(** ** A step that fails *)

Section FailedStep.

Variable W : Collaborators.

(** No node that returns touches the current input. *)
Lemma Node_run_ok_input (n n' : Node) (ctx ctx' : GraphRunContext) :
  Node_run W n ctx = (Ok n', ctx') ->
  current_input (state ctx') = current_input (state ctx).
Proof.
  intros R. pose proof (Node_run_ok_cases W n n' ctx ctx' R) as H.
  cbn zeta in H. destruct n.
  - destruct H as [_ ->]. reflexivity.
  - destruct H as (_ & x & _ & ->). reflexivity.
  - destruct H as [(_ & _ & ->) | (_ & _ & [-> | ->])]; reflexivity.
  - destruct H as (_ & a & m & ->). reflexivity.
  - destruct H as (_ & a & m & ->). reflexivity.
  - destruct H as (_ & a & m & ->). reflexivity.
  - destruct H as [(_ & _ & ->) | (_ & ->)]; reflexivity.
Qed.

(** A node that raises on a context that has an input does so because an
    agent call raised. *)
Lemma Node_run_raise_agent (n : Node) (ctx ctx' : GraphRunContext) (e : Exn)
  (text : string) :
  current_input (state ctx) = Some text ->
  Node_run W n ctx = (Raise e, ctx') ->
  e = AgentError /\ state ctx' = state ctx.
Proof.
  intros Hi R. apply Node_run_raise in R as [Hs [He|He]].
  - split; assumption.
  - rewrite Hi in He. discriminate.
Qed.

(** C5, as the code has it.  When an agent raises during a step, the
    exception leaves [process_input] with [is_processing] cleared, and
    nothing is rolled back: the graph stays at the node that raised, that
    node has written nothing, and the context is exactly what the step
    made of it before: the input is the current one (in a graph that has
    been started first, with the greeting stored, if it was not), and the
    nodes that returned before the one that raised -- there are at most
    two -- have left what they wrote.  For a session that awaits input
    these are
    [WaitForInput], which has appended the input to the history, and,
    unless it is routing that failed, the routing node, which has raised
    the frustration level by one exactly when the classifier answered
    ARGUMENTATIVE below 8 turns; the graph is then at the routing node or
    at the node routing chose, [turn_count], [payment_received] and the
    arguer's messages are as before the step, and so is [last_response]
    unless the step had to start the graph, which stores the greeting. *)
Theorem C5_failed_step_keeps_earlier_writes
  (user_input : string) (p p' : Process) (e : Exn) :
  process_input W user_input p = (Raise e, p') ->
  let s := GraphSession.state (session p) in
  let s' := GraphSession.state (session p') in
  e = AgentError
  /\ GraphSession.is_processing (session p') = false
  /\ (exists (done : list Node) (failed : Node) (before after : GraphRunContext),
        ran W (snd (after_start p))
            (mkRun (set_current_input (Some user_input) (fst (after_start p)))
                   (S (outside_calls p)))
            done failed before
        /\ (length done <= 2)%nat
        /\ Node_run W failed before = (Raise e, after)
        /\ state after = state before
        /\ s' = state before
        /\ pending p' = Some failed
        /\ outside_calls p' = calls after)
  /\ (awaiting_input p ->
      let r := context_at_routing user_input p in
      conversation_history r = conversation_history s ++ [user_input]
      /\ current_input r = Some user_input
      /\ turn_count r = turn_count s
      /\ user_frustration_level r = user_frustration_level s
      /\ payment_received r = payment_received s
      /\ arguer_messages r = arguer_messages s
      /\ last_response r = match GraphSession.graph_context (session p) with
                           | None => greeting
                           | Some _ => last_response s
                           end
      /\ match intention_agent W (S (outside_calls p)) (Some user_input)
                               (recent (conversation_history r)) with
         | None => pending p' = Some ProcessUserInput /\ s' = r
         | Some intent =>
             pending p' = Some (routed_node r intent user_input)
             /\ s' = set_user_frustration_level (routed_frustration r intent) r
         end).
Proof.
  intros H s s'. subst s s'.
  assert (GraphSession.is_processing (session p) = false) as Hbusy.
  { destruct (GraphSession.is_processing (session p)) eqn:E; [|reflexivity].
    unfold process_input in H. rewrite E in H. discriminate. }
  assert (e = AgentError
          /\ GraphSession.is_processing (session p') = false
          /\ exists (done : list Node) (failed : Node)
                    (before after : GraphRunContext),
              ran W (snd (after_start p))
                  (mkRun (set_current_input (Some user_input) (fst (after_start p)))
                         (S (outside_calls p)))
                  done failed before
              /\ (length done <= 2)%nat
              /\ Node_run W failed before = (Raise e, after)
              /\ state after = state before
              /\ GraphSession.state (session p') = state before
              /\ pending p' = Some failed
              /\ outside_calls p' = calls after) as General.
  { pose proof H as H'.
    rewrite (process_input_drive W user_input p Hbusy) in H'. cbn zeta in H'.
    remember (mkRun (set_current_input (Some user_input) (fst (after_start p)))
                    (S (outside_calls p))) as ctx0 eqn:E0.
    assert (current_input (state ctx0) = Some user_input) as I0
      by (rewrite E0; reflexivity).
    clear E0.
    destruct (Node_run W (snd (after_start p)) ctx0) as [[n1|e1] ctx1] eqn:R1.
    - pose proof (Node_run_ok_input _ _ _ _ R1) as I1. rewrite I0 in I1.
      destruct (Node_run W n1 ctx1) as [[n2|e2] ctx2] eqn:R2.
      + pose proof (Node_run_ok_input _ _ _ _ R2) as I2. rewrite I1 in I2.
        destruct (Node_run W n2 ctx2) as [[n3|e3] ctx3] eqn:R3; [discriminate|].
        injection H' as <- <-.
        destruct (Node_run_raise_agent _ _ _ _ _ I2 R3) as [He Hs].
        split; [exact He|]. split; [reflexivity|].
        exists [snd (after_start p); n1], n2, ctx2, ctx3.
        split; [exact (ran_node W _ _ _ _ _ _ _ R1
                         (ran_node W _ _ _ _ _ _ _ R2 (ran_none W _ _)))|].
        split; [cbn; lia|]. split; [exact R3|]. split; [exact Hs|].
        split; [exact Hs|]. split; reflexivity.
      + injection H' as <- <-.
        destruct (Node_run_raise_agent _ _ _ _ _ I1 R2) as [He Hs].
        split; [exact He|]. split; [reflexivity|].
        exists [snd (after_start p)], n1, ctx1, ctx2.
        split; [exact (ran_node W _ _ _ _ _ _ _ R1 (ran_none W _ _))|].
        split; [cbn; lia|]. split; [exact R2|]. split; [exact Hs|].
        split; [exact Hs|]. split; reflexivity.
    - injection H' as <- <-.
      destruct (Node_run_raise_agent _ _ _ _ _ I0 R1) as [He Hs].
      split; [exact He|]. split; [reflexivity|].
      exists [], (snd (after_start p)), ctx0, ctx1.
      split; [exact (ran_none W _ _)|].
      split; [cbn; lia|]. split; [exact R1|]. split; [exact Hs|].
      split; [exact Hs|]. split; reflexivity. }
  destruct General as (G1 & G2 & G3).
  split; [exact G1|]. split; [exact G2|]. split; [exact G3|].
  intros Haw r. subst r.
  destruct (context_at_routing_fields user_input p)
    as (Ft & Ff & Fp & Fm & Fh & Fi).
  cbn zeta in Ft, Ff, Fp, Fm, Fh, Fi.
  split; [exact Fh|]. split; [exact Fi|]. split; [exact Ft|]. split; [exact Ff|].
  split; [exact Fp|]. split; [exact Fm|].
  split.
  { unfold context_at_routing.
    destruct (GraphSession.graph_context (session p)); reflexivity. }
  rewrite (process_input_awaiting W user_input p Hbusy Haw) in H. cbn zeta in H.
  remember (context_at_routing user_input p) as r eqn:Er. clear Er.
  destruct (intention_agent W (S (outside_calls p)) (Some user_input)
              (recent (conversation_history r))) as [intent|] eqn:Hc.
  - rewrite (ProcessUserInput_run_routed W (mkRun r (S (outside_calls p))) intent
               user_input Fi Hc) in H.
    cbn [state calls] in H.
    destruct (Node_run W _ _) as [[n'|e3] ctx3] eqn:R3; [discriminate|].
    injection H as <- <-.
    apply Node_run_raise in R3 as [Hs _]. cbn [state] in Hs.
    cbn [session GraphSession.state pending option_map next_node
         GraphSession.graph_context].
    split; [reflexivity | exact Hs].
  - rewrite (ProcessUserInput_run_unanswered W (mkRun r (S (outside_calls p))))
      in H.
    2: { cbn [state calls]. rewrite Fi. exact Hc. }
    injection H as <- <-.
    cbn [session GraphSession.state pending option_map next_node
         GraphSession.graph_context state].
    split; reflexivity.
Qed.

End FailedStep.

Lemma C5_failed_step_keeps_earlier_writes_witness :
  let W := generator_down in
  let user_input := "That's not true!" in
  let p := boot generator_down "session" in
  let p' := failed_first_step in
  let s := GraphSession.state (session p) in
  let s' := GraphSession.state (session p') in
  (process_input W user_input p = (Raise AgentError, p') /\ awaiting_input p)
  /\ AgentError = AgentError
  /\ GraphSession.is_processing (session p') = false
  /\ (exists (done : list Node) (failed : Node) (before after : GraphRunContext),
        ran W (snd (after_start p))
            (mkRun (set_current_input (Some user_input) (fst (after_start p)))
                   (S (outside_calls p)))
            done failed before
        /\ (length done <= 2)%nat
        /\ Node_run W failed before = (Raise AgentError, after)
        /\ state after = state before
        /\ s' = state before
        /\ pending p' = Some failed
        /\ outside_calls p' = calls after)
  /\ (let r := context_at_routing user_input p in
      conversation_history r = conversation_history s ++ [user_input]
      /\ current_input r = Some user_input
      /\ turn_count r = turn_count s
      /\ user_frustration_level r = user_frustration_level s
      /\ payment_received r = payment_received s
      /\ arguer_messages r = arguer_messages s
      /\ last_response r = match GraphSession.graph_context (session p) with
                           | None => greeting
                           | Some _ => last_response s
                           end
      /\ match intention_agent W (S (outside_calls p)) (Some user_input)
                               (recent (conversation_history r)) with
         | None => pending p' = Some ProcessUserInput /\ s' = r
         | Some intent =>
             pending p' = Some (routed_node r intent user_input)
             /\ s' = set_user_frustration_level (routed_frustration r intent) r
         end).
Proof.
  intros W user_input p p' s s'.
  assert (process_input W user_input p = (Raise AgentError, p')) as H
    by (vm_compute; reflexivity).
  assert (awaiting_input p) as Haw by (left; reflexivity).
  split; [split; [exact H | exact Haw]|].
  destruct (C5_failed_step_keeps_earlier_writes W user_input p p' AgentError H)
    as (He & Hflag & Hran & Hawaiting).
  split; [exact He|]. split; [exact Hflag|]. split; [exact Hran|].
  exact (Hawaiting Haw).
Defined.

(** In a session that has been paid for, whose graph the accepting step
    has left at [SimpleContradictionNode], the step that follows runs that
    node first: when the classifier then fails in routing, the turn has
    been counted, the answer stored and the arguer's messages extended,
    and the input has been appended after them. *)
Lemma failed_step_after_payment :
  let p := after_payment in
  let s := GraphSession.state (session p) in
  let p' := snd (process_input (classifier_down_at 49) "No it isn't" p) in
  let s' := GraphSession.state (session p') in
  pending p = Some SimpleContradictionNode
  /\ outside_calls p = 46%nat
  /\ fst (process_input (classifier_down_at 49) "No it isn't" p)
     = Raise AgentError
  /\ turn_count s = 0
  /\ turn_count s' = 1
  /\ conversation_history s' = conversation_history s ++ ["No it isn't"]
  /\ arguer_messages s' = arguer_messages s ++ ["request"; "response"]
  /\ pending p' = Some ProcessUserInput.
Proof.
  vm_compute. repeat split.
Qed.
